(** * bigflow.dataproc: running a PySpark driver on a temporary Dataproc cluster

    A shallow embedding of [bigflow/dataproc.py].  Text is a string of
    bytes, read as ASCII where the code looks at its characters; paths are
    parsed as [pathlib] parses them; dictionaries are [gmap]s, dictionaries that the code shares and
    mutates live in a store of dictionary objects, and every remote service
    (Dataproc, Cloud Storage, the local build process, the clock, the random
    source, pickle) answers through a [world] record, so that the code runs on
    concrete inputs.  Remote calls are recorded in a trace of events. *)

From Stdlib Require Import ZArith Ascii String HexadecimalString.
From Stdlib Require Strings.Byte DecimalString.
From stdpp Require Import gmap strings list fin_maps.

Local Open Scope string_scope.

#[local] Set Warnings "-register-all,-abstract-large-number".

(** ** Python values *)

(** Values that travel as driver arguments. *)
Inductive pyobj : Type :=
| PyNone
| PyBool (b : bool)
| PyInt (z : Z)
| PyStr (s : string)
| PyOpaque (addr : N).

(** A callable is shipped by reference: pickle stores its qualified name. *)
Record pycallable : Type := Callable { qualname : string }.

(** Exceptions carry their message and the exception that was being handled
    when they were raised (Python's [__context__]). *)
Inductive exn : Type :=
| Exception (msg : string) (context : option exn).

Definition exn_msg (e : exn) : string :=
  match e with Exception m _ => m end.

Definition exn_context (e : exn) : option exn :=
  match e with Exception _ c => c end.

(** Raising [e] while [pending] is being handled records it as the context. *)
Definition with_context (e : exn) (pending : option exn) : exn :=
  match pending with
  | Some p => Exception (exn_msg e) (Some p)
  | None => e
  end.

(** ** The store of dictionary objects *)

Abbreviation loc := nat (only parsing).
Abbreviation pydict := (gmap string pyobj) (only parsing).
Abbreviation heap := (gmap nat (gmap string pyobj)) (only parsing).

Definition deref (h : heap) (l : loc) : pydict := default ∅ (h !! l).

(** [{}] and [dict(d)]: a new object, distinct from every live one. *)
Definition new_dict (h : heap) (d : pydict) : heap * loc :=
  let l := fresh (dom h) in (<[l := d]> h, l).

Definition dict_copy (h : heap) (l : loc) : heap * loc := new_dict h (deref h l).

(** [d[k] = v] on the object at [l]. *)
Definition dict_setitem (h : heap) (l : loc) (k : string) (v : pyobj) : heap :=
  <[l := <[k := v]> (deref h l)]> h.

(** ** Truthiness and [or] *)

Definition truthy (s : option string) : bool :=
  match s with
  | Some (String _ _) => true
  | _ => false
  end.

(** [a or b] on optional strings: the first operand when it is truthy. *)
Definition py_or (a b : option string) : option string :=
  if truthy a then a else b.

(** ** Text helpers *)

Definition is_upper (c : ascii) : bool :=
  (65 <=? nat_of_ascii c)%nat && (nat_of_ascii c <=? 90)%nat.

Definition lower_ascii (c : ascii) : ascii :=
  if is_upper c then ascii_of_nat (nat_of_ascii c + 32) else c.

(** Text whose characters are all ASCII. *)
Fixpoint ascii_text (s : string) : bool :=
  match s with
  | EmptyString => true
  | String c r => (nat_of_ascii c <? 128)%nat && ascii_text r
  end.

(** [str.lower] on ASCII text: the letters [A] to [Z] are the only ASCII
    characters it changes.  On text with other characters [str.lower] also
    lowers the cased letters beyond ASCII; what is proved of a lowered text
    is proved for ASCII text. *)
Fixpoint lower (s : string) : string :=
  match s with
  | EmptyString => EmptyString
  | String c r => String (lower_ascii c) (lower r)
  end.

Definition digit_char (n : nat) : ascii := ascii_of_nat (48 + n mod 10).

(** [%02d]-style fields of [strftime], for values below 100. *)
Definition pad2 (n : nat) : string :=
  String (digit_char (n / 10)) (String (digit_char n) EmptyString).

(** The four digits of a number below 10000. *)
Definition pad4 (n : nat) : string :=
  String (digit_char (n / 1000)) (String (digit_char (n / 100))
    (String (digit_char (n / 10)) (String (digit_char n) EmptyString))).

Record datetime : Type := Datetime {
  year : nat; month : nat; day : nat;
  hour : nat; minute : nat; second : nat
}.

(** A reading of the clock whose year is printed with four digits. *)
Definition valid_datetime (d : datetime) : Prop :=
  (1000 ≤ year d ≤ 9999 ∧ 1 ≤ month d ≤ 12 ∧ 1 ≤ day d ≤ 31 ∧
   hour d < 24 ∧ minute d < 60 ∧ second d < 60)%nat.

(** A number in decimal, without padding. *)
Definition decimal (n : nat) : string :=
  DecimalString.NilZero.string_of_uint (Nat.to_uint n).

(** [strftime("%Y-%m-%d-%H%M%S")]: [%Y] is the year in decimal as the C
    library prints it, without padding, so with four digits from the year
    1000 on; the other fields are padded to two digits. *)
Definition strftime (d : datetime) : string :=
  decimal (year d) ++ "-" ++ pad2 (month d) ++ "-" ++ pad2 (day d) ++ "-" ++
  pad2 (hour d) ++ pad2 (minute d) ++ pad2 (second d).

(** [string.ascii_lowercase + string.digits] *)
Definition ascii_lowercase : string := "abcdefghijklmnopqrstuvwxyz".
Definition digits : string := "0123456789".

(** [random.choices(population, k=...)] picks [population[floor(random() * n)]]
    once per draw; [draws] are those indices, each below [n]. *)
Definition random_choices (population : string) (draws : list nat) : list ascii :=
  map (fun i => default "000"%char (list_ascii_of_string population !! i)) draws.

(** [''.join(chars)] *)
Definition join_chars (cs : list ascii) : string := string_of_list_ascii cs.

(** ** The job description ([PySparkJob]) and the driver wrapper *)

Module PySparkJob.
Record t : Type := Build {
  id : string;
  driver_filename : string;
  driver_callable : pycallable;
  driver_arguments : loc;
  bucket_id : string;
  gcp_project_id : string;
  gcp_region : string;
  env : string;
  jar_file_uris : list string;
  worker_machine_type : string;
  worker_num_instances : nat;
  pip_packages : list string;
  setup_file : option string;
  _project : string;
  _any_file_inside_project : string
}.
End PySparkJob.

Module _PySparkDriverWrapper.
Record t : Type := Build {
  callable : pycallable;
  args : list pyobj;
  kwargs : loc;
  envs : gmap string string
}.
End _PySparkDriverWrapper.

(** What pickle sees of a wrapper: the dictionaries by value. *)
Record work_unit : Type := WorkUnit {
  wu_callable : pycallable;
  wu_args : list pyobj;
  wu_kwargs : gmap string pyobj;
  wu_envs : gmap string string
}.

Definition snapshot (h : heap) (w : _PySparkDriverWrapper.t) : work_unit :=
  {| wu_callable := _PySparkDriverWrapper.callable w;
     wu_args := _PySparkDriverWrapper.args w;
     wu_kwargs := deref h (_PySparkDriverWrapper.kwargs w);
     wu_envs := _PySparkDriverWrapper.envs w |}.

(** ** Remote services *)

(** [dataproc_v1.JobStatus.State] *)
Module State.
Inductive t : Type :=
| STATE_UNSPECIFIED | PENDING | SETUP_DONE | RUNNING | CANCEL_PENDING
| CANCEL_STARTED | CANCELLED | DONE | ERROR | ATTEMPT_FAILURE.
End State.

(** The fields of a Dataproc job that the code reads. *)
Record Job : Type := Build_Job {
  status_state : State.t;
  status_details : string;
  driver_output_resource_uri : string
}.

(** The cluster description sent to [create_cluster]. *)
Record cluster_data : Type := ClusterData {
  cd_cluster_name : string;
  cd_master_num_instances : nat;
  cd_master_machine_type_uri : string;
  cd_master_boot_disk_size_gb : nat;
  cd_worker_num_instances : nat;
  cd_worker_machine_type_uri : string;
  cd_worker_boot_disk_size_gb : nat;
  cd_image_version : string;
  cd_initialization_actions : list string;
  cd_metadata : list (string * string)
}.

(** The job description sent to [submit_job]. *)
Record jobspec : Type := JobSpec {
  js_placement_cluster_name : string;
  js_main_python_file_uri : string;
  js_jar_file_uris : list string;
  js_python_file_uris : list string;
  js_properties : gmap string string
}.

Inductive log_level : Type := LogDebug | LogInfo | LogWarn | LogError.

(** Everything the code does to the outside, in the order it happens. *)
Inductive event : Type :=
| Log (level : log_level) (fmt : string)
| Print (line : string)
| FindOrCreateSetup (project path : string)
| StorageClient (project : string)
| JobControllerClient (api_endpoint : string)
| ClusterControllerClient (api_endpoint : string)
| GetBucket (bucket : string)
| RunProcess (cmd : list string) (cwd : string)
| UploadFromFilename (blob filename content_type : string)
| UploadFromString (blob data content_type : string)
| CreateCluster (project region : string) (cluster : cluster_data)
| ClusterFutureResult (cluster : string)
| SubmitJob (project region : string) (job : jobspec)
| GetJob (project region job_id : string)
| Sleep (seconds : nat)
| DownloadBlob (uri : string)
| DeleteCluster (project region cluster : string).

(** How the outside answers.  [None] in an [option exn] is a call that
    comes back; [inl e] and [Some e] are calls that raise [e].  [w_get_job n]
    answers the [n]-th status request of the run, [w_resolve_parent] gives
    the text of [Path(setup_file).parent.resolve()], and [w_download_blob]
    the bytes of the blob. *)
Record world : Type := World {
  w_now : datetime;
  w_random : nat -> nat -> nat;
  w_find_or_create_setup : string -> string -> exn + string;
  w_storage_client : option exn;
  w_job_client : option exn;
  w_cluster_client : option exn;
  w_get_bucket : string -> option exn;
  w_resolve_parent : string -> string;
  w_run_process : list string -> string -> exn + string;
  w_upload_from_filename : string -> string -> option exn;
  w_pickle_dumps : work_unit -> exn + list Byte.byte;
  w_object_address : N;
  w_upload_from_string : string -> string -> option exn;
  w_create_cluster : cluster_data -> option exn;
  w_cluster_future_result : cluster_data -> option exn;
  w_submit_job : jobspec -> exn + string;
  w_get_job : nat -> string -> exn + Job;
  w_download_blob : string -> exn + list Byte.byte;
  w_delete_cluster : string -> option exn
}.

(** ** The state of a run and the monad of the code *)

Record state : Type := MkState {
  trace : list event;
  get_job_calls : nat;
  store : gmap nat (gmap string pyobj)
}.

(** A call returns, raises, or is still running when the fuel is spent. *)
Inductive outcome (A : Type) : Type :=
| Returned (a : A)
| Raised (e : exn)
| StillRunning.
Arguments Returned {A} a.
Arguments Raised {A} e.
Arguments StillRunning {A}.

Definition M (A : Type) : Type := world -> state -> state * outcome A.

Definition ret {A} (a : A) : M A := fun _ s => (s, Returned a).

Definition bind {A B} (m : M A) (k : A -> M B) : M B :=
  fun w s =>
    match m w s with
    | (s', Returned a) => k a w s'
    | (s', Raised e) => (s', Raised e)
    | (s', StillRunning) => (s', StillRunning)
    end.

#[global] Instance M_ret : MRet M := @ret.
#[global] Instance M_bind : MBind M := fun A B k m => bind m k.

Definition raise {A} (e : exn) : M A := fun _ s => (s, Raised e).

Definition emit (e : event) : M unit :=
  fun _ s => ({| trace := trace s ++ [e];
                 get_job_calls := get_job_calls s;
                 store := store s |}, Returned tt).

Definition ask : M world := fun w s => (s, Returned w).

(** A call that either comes back with nothing or raises. *)
Definition call_unit (e : event) (answer : world -> option exn) : M unit :=
  emit e;; w ← ask;
  match answer w with
  | None => mret tt
  | Some x => raise x
  end.

(** A call that comes back with a value or raises. *)
Definition call {A} (e : event) (answer : world -> exn + A) : M A :=
  emit e;; w ← ask;
  match answer w with
  | inr a => mret a
  | inl x => raise x
  end.

(** [try: body finally: cleanup].  The cleanup runs whether the body returned
    or raised; an exception of the cleanup replaces the outcome of the body
    and keeps the body's exception as its context.  A body that has not come
    back has not reached the cleanup. *)
Definition try_finally {A} (body : M A) (cleanup : M unit) : M A :=
  fun w s =>
    match body w s with
    | (s1, StillRunning) => (s1, StillRunning)
    | (s1, r) =>
        match cleanup w s1 with
        | (s2, Returned _) => (s2, r)
        | (s2, Raised e2) =>
            (s2, Raised (with_context e2
                           match r with Raised e1 => Some e1 | _ => None end))
        | (s2, StillRunning) => (s2, StillRunning)
        end
    end.

(** [logger.debug], [logger.info], ... and [print]. *)
Definition logger (level : log_level) (fmt : string) : M unit := emit (Log level fmt).
Definition print (line : string) : M unit := emit (Print line).

(** ** Constructing a job: [PySparkJob.__init__] *)

(** [pip_packages] is a list of requirement lines or the path of a
    requirements file. *)
Inductive pip_spec : Type :=
| PipPackages (packages : list string)
| PipPath (path : string).

Record init_args : Type := InitArgs {
  a_id : string;
  a_driver_callable : pycallable;
  a_bucket_id : string;
  a_gcp_project_id : string;
  a_gcp_region : string;
  a_driver_arguments : option loc;
  a_pip_packages : pip_spec;
  a_jar_file_uris : list string;
  a_worker_num_instances : nat;
  a_worker_machine_type : string;
  a_env : option string;
  a_setup_file : option string
}.

(** What the constructor reads from the process it runs in: the configured
    environment ([bigflow.configuration.current_env]), requirements files
    ([bigflow.resources.read_requirements]), the installed version, and the
    module and file of the caller (found on the call stack). *)
Record process : Type := Process {
  current_env : option string;
  read_requirements : string -> list string;
  bigflow_version : string;
  _capture_caller_topmodule : string;
  _capture_caller_path : string
}.

Definition DEFAULT_REQUIREMENTS (p : process) : list string :=
  ["bigflow[dataproc,log,bigquery]==" ++ bigflow_version p].

(** [a or b] where [b] is a string literal. *)
Definition py_or_str (a : option string) (b : string) : string :=
  match a with
  | Some (String c r) => String c r
  | _ => b
  end.

(** [driver_arguments or {}]: the caller's dictionary itself when it has
    entries, a new empty one otherwise. *)
Definition dict_or_new (h : heap) (d : option loc) : heap * loc :=
  match d with
  | Some l => if bool_decide (deref h l = ∅) then new_dict h ∅ else (h, l)
  | None => new_dict h ∅
  end.

(** The two attributes that hold the caller are set only when no setup file
    is given; they are empty here otherwise, and never read then. *)
Definition __init__ (p : process) (h : heap) (a : init_args) : heap * PySparkJob.t :=
  let '(h', driver_arguments) := dict_or_new h (a_driver_arguments a) in
  (h',
   {| PySparkJob.id := a_id a;
      PySparkJob.driver_filename := "driver.py";
      PySparkJob.driver_callable := a_driver_callable a;
      PySparkJob.driver_arguments := driver_arguments;
      PySparkJob.bucket_id := a_bucket_id a;
      PySparkJob.gcp_project_id := a_gcp_project_id a;
      PySparkJob.gcp_region := a_gcp_region a;
      PySparkJob.env := py_or_str (py_or (a_env a) (current_env p)) "none";
      PySparkJob.jar_file_uris := a_jar_file_uris a;
      PySparkJob.worker_machine_type := a_worker_machine_type a;
      PySparkJob.worker_num_instances := a_worker_num_instances a;
      PySparkJob.pip_packages :=
        match a_pip_packages a with
        | PipPath path => read_requirements p path
        | PipPackages (x :: r) => x :: r
        | PipPackages [] => DEFAULT_REQUIREMENTS p
        end;
      PySparkJob.setup_file :=
        if truthy (a_setup_file a) then a_setup_file a else None;
      PySparkJob._project :=
        if truthy (a_setup_file a) then "" else _capture_caller_topmodule p;
      PySparkJob._any_file_inside_project :=
        if truthy (a_setup_file a) then "" else _capture_caller_path p |}).

(** ** The standard library's [base64.b85encode] and [base64.b85decode]

    The two functions the driver script relies on, following the Python
    standard library: four bytes are read as a big-endian word and written as
    five digits in base 85; a short last group is padded with zero bytes on
    the way in and with the last digit on the way out. *)

Module base64.
Import List.ListNotations.

Definition _b85alphabet : list Byte.byte :=
  list_byte_of_string
    "0123456789ABCDEFGHIJKLMNOPQRSTUVWXYZabcdefghijklmnopqrstuvwxyz!#$%&()*+-;<=>?@^_`{|}~".

Definition _b85chars (d : N) : Byte.byte :=
  nth (N.to_nat d) _b85alphabet Byte.x00.

(** [_b85chars2]: the table of all pairs of digits. *)
Definition _b85chars2 (i : N) : list Byte.byte :=
  [_b85chars (i / 85); _b85chars (i mod 85)]%N.

Definition byte_of_N (n : N) : Byte.byte := default Byte.x00 (Byte.of_N n).

(** [struct.Struct('!%dI').unpack]: big-endian 32-bit words. *)
Fixpoint unpack (b : list Byte.byte) : list N :=
  match b with
  | b0 :: b1 :: b2 :: b3 :: r =>
      (((Byte.to_N b0 * 256 + Byte.to_N b1) * 256 + Byte.to_N b2) * 256
       + Byte.to_N b3)%N :: unpack r
  | _ => []
  end.

(** [struct.Struct('!I').pack], for a word that fits. *)
Definition packI (word : N) : list Byte.byte :=
  [byte_of_N (word / 16777216); byte_of_N (word / 65536 mod 256);
   byte_of_N (word / 256 mod 256); byte_of_N (word mod 256)]%N.

Definition chunk_of_word (word : N) : list Byte.byte :=
  (_b85chars2 (word / 614125)%N ++ _b85chars2 (word / 85 mod 7225)%N
   ++ [_b85chars (word mod 85)%N])%list.

(** [l[:-n]] for [0 < n]. *)
Definition drop_last {A} (n : nat) (l : list A) : list A :=
  take (length l - n) l.

(** [chunks[-1] = f(chunks[-1])] *)
Fixpoint map_last {A} (f : A -> A) (l : list A) : list A :=
  match l with
  | [] => []
  | [x] => [f x]
  | x :: r => x :: map_last f r
  end.

(** [(-n) % m] *)
Definition neg_mod (n m : nat) : nat := ((m - n mod m) mod m)%nat.

Definition b85encode (b : list Byte.byte) : list Byte.byte :=
  let padding := neg_mod (length b) 4 in
  let b := match padding with O => b | _ => (b ++ repeat Byte.x00 padding)%list end in
  let chunks := map chunk_of_word (unpack b) in
  let chunks :=
    match padding with
    | O => chunks
    | _ => map_last (drop_last padding) chunks
    end in
  concat chunks.

(** [_b85dec]: the value of a digit, [None] for a byte outside the alphabet. *)
Fixpoint index_of (c : Byte.byte) (l : list Byte.byte) (i : N) : option N :=
  match l with
  | [] => None
  | x :: r => if Byte.eqb c x then Some i else index_of c r (N.succ i)
  end.

Definition _b85dec (c : Byte.byte) : option N := index_of c _b85alphabet 0%N.

(** The position of the first byte of [chunk] that is not a digit. *)
Fixpoint first_bad (chunk : list Byte.byte) (j : nat) : option nat :=
  match chunk with
  | [] => None
  | c :: r => match _b85dec c with
              | None => Some j
              | Some _ => first_bad r (S j)
              end
  end.

(** [acc = acc * 85 + _b85dec[c]] over a chunk without bad bytes. *)
Definition chunk_value (chunk : list Byte.byte) : N :=
  fold_left (fun acc c => (acc * 85 + default 0 (_b85dec c))%N) chunk 0%N.

Definition decode_chunk (i : nat) (chunk : list Byte.byte) : exn + list Byte.byte :=
  match first_bad chunk 0 with
  | Some j =>
      inl (Exception ("bad base85 character at position " ++ decimal (i + j)) None)
  | None =>
      let acc := chunk_value chunk in
      if (acc <=? 4294967295)%N then inr (packI acc)
      else inl (Exception ("base85 overflow in hunk starting at byte " ++ decimal i) None)
  end.

(** [for i in range(0, len(b), 5): ... b[i:i + 5] ...] *)
Fixpoint decode_chunks (i : nat) (b : list Byte.byte) : exn + list Byte.byte :=
  match b with
  | c0 :: c1 :: c2 :: c3 :: c4 :: r =>
      match decode_chunk i [c0; c1; c2; c3; c4] with
      | inl e => inl e
      | inr out =>
          match decode_chunks (i + 5) r with
          | inl e => inl e
          | inr outs => inr (out ++ outs)%list
          end
      end
  | _ => inr []
  end.

Definition b85decode (b : list Byte.byte) : exn + list Byte.byte :=
  let padding := neg_mod (length b) 5 in
  let b := (b ++ repeat Byte.x7e padding)%list in
  match decode_chunks 0 b with
  | inl e => inl e
  | inr result =>
      inr match padding with
          | O => result
          | _ => drop_last padding result
          end
  end.

End base64.

(** ** [repr] of a bytes object and of the wrapper *)

Definition hex_digit (n : N) : ascii :=
  default "0"%char (list_ascii_of_string "0123456789abcdef" !! N.to_nat n).

Definition quote1 : ascii := "'"%char.
Definition quote2 : ascii := ascii_of_nat 34.
Definition backslash : ascii := "\"%char.

Definition repr_byte (quote : ascii) (c : Byte.byte) : string :=
  let a := ascii_of_byte c in
  let n := Byte.to_N c in
  if (Ascii.eqb a quote || Ascii.eqb a backslash)%bool then String backslash (String a "")
  else if (n =? 9)%N then String backslash "t"
  else if (n =? 10)%N then String backslash "n"
  else if (n =? 13)%N then String backslash "r"
  else if ((n <? 32) || (127 <=? n))%N%bool
       then String backslash (String "x" (String (hex_digit (n / 16)) (String (hex_digit (n mod 16)) "")))
  else String a "".

Definition has_byte (a : ascii) (b : list Byte.byte) : bool :=
  existsb (fun c => Ascii.eqb (ascii_of_byte c) a) b.

(** [repr(b)]: single quotes unless the bytes hold a single quote and no
    double quote. *)
Definition bytes_repr (b : list Byte.byte) : string :=
  let quote := if (has_byte quote1 b && negb (has_byte quote2 b))%bool then quote2 else quote1 in
  String "b" (String quote
    (String.concat "" (map (repr_byte quote) b) ++ String quote "")).

(** The default [repr] of an object: its class and its address. *)
Definition wrapper_repr (address : N) : string :=
  "<bigflow.dataproc._PySparkDriverWrapper object at 0x"
  ++ HexadecimalString.NilEmpty.string_of_uint (N.to_hex_uint address) ++ ">".

(** ** The methods of [PySparkJob] and the functions of the module *)

Definition get_state : M state := fun _ s => (s, Returned s).

Definition put_store (h : heap) : M unit :=
  fun _ s => ({| trace := trace s; get_job_calls := get_job_calls s; store := h |},
              Returned tt).

(** Runs [m] and hands its exception, if any, back as a value. *)
Definition attempt {A} (m : M A) : M (exn + A) :=
  fun w s =>
    match m w s with
    | (s', Returned a) => (s', Returned (inr a))
    | (s', Raised e) => (s', Returned (inl e))
    | (s', StillRunning) => (s', StillRunning)
    end.

Definition nl : string := String (ascii_of_nat 10) "".

Definition _ensure_has_setup_file (self : PySparkJob.t) : M PySparkJob.t :=
  if truthy (PySparkJob.setup_file self) then mret self
  else
    logger LogDebug "Find or create setup file for main package";;
    f ← call (FindOrCreateSetup (PySparkJob._project self)
                                (PySparkJob._any_file_inside_project self))
             (fun w => w_find_or_create_setup w (PySparkJob._project self)
                         (PySparkJob._any_file_inside_project self));
    mret {| PySparkJob.id := PySparkJob.id self;
            PySparkJob.driver_filename := PySparkJob.driver_filename self;
            PySparkJob.driver_callable := PySparkJob.driver_callable self;
            PySparkJob.driver_arguments := PySparkJob.driver_arguments self;
            PySparkJob.bucket_id := PySparkJob.bucket_id self;
            PySparkJob.gcp_project_id := PySparkJob.gcp_project_id self;
            PySparkJob.gcp_region := PySparkJob.gcp_region self;
            PySparkJob.env := PySparkJob.env self;
            PySparkJob.jar_file_uris := PySparkJob.jar_file_uris self;
            PySparkJob.worker_machine_type := PySparkJob.worker_machine_type self;
            PySparkJob.worker_num_instances := PySparkJob.worker_num_instances self;
            PySparkJob.pip_packages := PySparkJob.pip_packages self;
            PySparkJob.setup_file := Some f;
            PySparkJob._project := PySparkJob._project self;
            PySparkJob._any_file_inside_project :=
              PySparkJob._any_file_inside_project self |}.

(** The text of the run id, from the clock reading and the random draws. *)
Definition jobid_text (self : PySparkJob.t) (now : datetime) (draws : list nat) : string :=
  let job_random_suffix := join_chars (random_choices (ascii_lowercase ++ digits) draws) in
  let job_timestamp := strftime now in
  lower (PySparkJob.id self) ++ "-" ++ py_or_str (Some (PySparkJob.env self)) "none"
  ++ "-" ++ job_timestamp ++ "-" ++ job_random_suffix.

Definition _generate_internal_jobid (self : PySparkJob.t) (runtime : pyobj) : M string :=
  w ← ask;
  let draws := map (w_random w (String.length (ascii_lowercase ++ digits))) (seq 0 10) in
  let jobid := jobid_text self (w_now w) draws in
  logger LogInfo "Internal job is %r";;
  mret jobid.

Definition _prepare_driver_callable (self : PySparkJob.t) (runtime : pyobj)
  : M _PySparkDriverWrapper.t :=
  s ← get_state;
  let '(h, kwargs) := dict_copy (store s) (PySparkJob.driver_arguments self) in
  put_store (dict_setitem h kwargs "runtime" runtime);;
  envs ← (if truthy (Some (PySparkJob.env self))
          then logger LogDebug "Will set env variable 'env' on pyspark driver to %r";;
               mret (<["env" := PySparkJob.env self]> (∅ : gmap string string))
          else mret (∅ : gmap string string));
  mret {| _PySparkDriverWrapper.callable := PySparkJob.driver_callable self;
          _PySparkDriverWrapper.args := [];
          _PySparkDriverWrapper.kwargs := kwargs;
          _PySparkDriverWrapper.envs := envs |}.

Definition _create_cluster (project_id region cluster_name : string)
    (requirements : list string) (worker_num_instances : nat)
    (worker_machine_type : string) : M string :=
  let packages := String.concat " " (filter (fun r => r ≠ "") requirements) in
  let cluster :=
    {| cd_cluster_name := cluster_name;
       cd_master_num_instances := 1;
       cd_master_machine_type_uri := "n1-standard-4";
       cd_master_boot_disk_size_gb := 100;
       cd_worker_num_instances := worker_num_instances;
       cd_worker_machine_type_uri := worker_machine_type;
       cd_worker_boot_disk_size_gb := 100;
       cd_image_version := "1.5";
       cd_initialization_actions :=
         ["gs://goog-dataproc-initialization-actions-" ++ region ++ "/python/pip-install.sh"];
       cd_metadata := [("PIP_PACKAGES", packages)] |} in
  logger LogDebug "Cluster spec %r";;
  logger LogInfo "Create cluster %r";;
  call_unit (CreateCluster project_id region cluster) (fun w => w_create_cluster w cluster);;
  logger LogInfo "Waiting for cluster creation...";;
  call_unit (ClusterFutureResult cluster_name) (fun w => w_cluster_future_result w cluster);;
  logger LogInfo "Cluster created in %s seconds.";;
  mret cluster_name.

Definition _delete_cluster (project_id region cluster : string) : M unit :=
  print "Deleting cluster...";;
  call_unit (DeleteCluster project_id region cluster) (fun w => w_delete_cluster w cluster);;
  print "Cluster was deleted.".

Definition api_endpoint (region : string) : string :=
  region ++ "-dataproc.googleapis.com:443".

(** The generator behind [@contextlib.contextmanager]: everything up to the
    [yield] runs on entry, [body] is the block under [with], and the
    [finally] clause runs when the block is left or when creation raised.
    [cluster_name] in the [finally] clause is the value returned by
    [_create_cluster] when it returned and the argument otherwise. *)
Definition _with_temp_cluster {A} (self : PySparkJob.t) (cluster_name : string)
    (body : string -> M A) : M A :=
  call_unit (ClusterControllerClient (api_endpoint (PySparkJob.gcp_region self)))
            w_cluster_client;;
  created ← attempt
    (logger LogDebug "Create temp cluster %r";;
     _create_cluster (PySparkJob.gcp_project_id self) (PySparkJob.gcp_region self)
       cluster_name (PySparkJob.pip_packages self)
       (PySparkJob.worker_num_instances self) (PySparkJob.worker_machine_type self));
  let finally (cluster_name : string) : M unit :=
    logger LogDebug "Delete temp cluster %r";;
    _delete_cluster (PySparkJob.gcp_project_id self) (PySparkJob.gcp_region self)
      cluster_name in
  match created with
  | inr cluster_name' => try_finally (body cluster_name') (finally cluster_name')
  | inl e => try_finally (raise e) (finally cluster_name)
  end.

Definition _prepare_pyspark_properties (self : PySparkJob.t) : M (gmap string string) :=
  let ps : gmap string string := <["spark.app.name" := PySparkJob.id self]> ∅ in
  let ps : gmap string string :=
    if truthy (Some (PySparkJob.env self))
    then <["spark.executorEnv.bf_env" := PySparkJob.env self]>
           (<["spark.workerEnv.bf_env" := PySparkJob.env self]> ps)
    else ps in
  logger LogDebug "Pyspark properties are %r";;
  mret ps.

(** The text that [textwrap.dedent] leaves of the template: the common margin
    of eight spaces is gone and lines of blanks are empty (neither [repr]
    holds a line break). *)
Definition driver_script_text (callable_repr : string) (pickled : list Byte.byte) : string :=
  String.concat nl
    [ ""; "";
      "# Generated by `bigflow.dataproc.generate_and_upload_driver`";
      "import pickle, base64";
      "";
      "# unpickle'n'call " ++ callable_repr;
      "data = " ++ bytes_repr (base64.b85encode pickled);
      "";
      "call = pickle.loads(base64.b85decode(data))";
      "call()";
      ""; "" ].

Definition generate_driver_script (callable : _PySparkDriverWrapper.t) : M string :=
  w ← ask; s ← get_state;
  match w_pickle_dumps w (snapshot (store s) callable) with
  | inl e => raise e
  | inr pickled =>
      mret (driver_script_text (wrapper_repr (w_object_address w)) pickled)
  end.

Definition generate_and_upload_driver (callable : _PySparkDriverWrapper.t)
    (bucket driver_path : string) : M unit :=
  logger LogDebug "Upload generate driver to %s";;
  script ← generate_driver_script callable;
  call_unit (UploadFromString driver_path script "application/octet-stream")
            (fun w => w_upload_from_string w driver_path script).

(** [prefix] removed from the front of [s], when it is there. *)
Fixpoint strip_prefix (prefix s : string) : option string :=
  match prefix, s with
  | EmptyString, _ => Some s
  | String a p, String b r => if Ascii.eqb a b then strip_prefix p r else None
  | String _ _, EmptyString => None
  end.

(** ** Paths ([pathlib.PurePosixPath]) *)

Module pathlib.

(** [s.split("/")], with the part read so far in [current]. *)
Fixpoint split_slash (s current : string) : list string :=
  match s with
  | EmptyString => [current]
  | String c r =>
      if Ascii.eqb c "/" then current :: split_slash r ""
      else split_slash r (current ++ String c "")
  end.

(** A path as [pathlib] keeps it: the root and the components. *)
Record PurePath : Type := MkPath {
  p_root : string;
  p_parts : list string
}.

(** The root of a path text: one slash for a text that starts with a slash,
    but two for a text that starts with exactly two. *)
Definition path_root (s : string) : string :=
  match strip_prefix "//" s with
  | Some r => match strip_prefix "/" r with
              | Some _ => "/"
              | None => "//"
              end
  | None => match strip_prefix "/" s with
            | Some _ => "/"
            | None => ""
            end
  end.

(** [pathlib.Path(s)]: empty components and components that are a single dot
    are dropped. *)
Definition Path (s : string) : PurePath :=
  {| p_root := path_root s;
     p_parts := List.filter (fun x => negb (String.eqb x "") && negb (String.eqb x "."))
                  (split_slash s "") |}.

(** [str(p)] *)
Definition path_str (p : PurePath) : string :=
  match p_root p, p_parts p with
  | EmptyString, [] => "."
  | root, parts => root ++ String.concat "/" parts
  end.

(** [p / name]: a name with a root replaces [p]. *)
Definition truediv (p : PurePath) (name : string) : PurePath :=
  let q := Path name in
  match p_root q with
  | EmptyString => {| p_root := p_root p; p_parts := p_parts p ++ p_parts q |}
  | _ => q
  end.

(** [p.name]: the last component, the empty text when there is none. *)
Definition name (p : PurePath) : string := List.last (p_parts p) "".

End pathlib.

(** [pathlib.Path(p).name] on the text of a path. *)
Definition path_name (p : string) : string := pathlib.name (pathlib.Path p).

Definition _upload_egg (egg_local_path bucket job_internal_id : string) : M string :=
  logger LogDebug "Upload egg to %s";;
  let egg_path := job_internal_id ++ "/" ++ path_name egg_local_path in
  call_unit (UploadFromFilename egg_path egg_local_path "application/octet-stream")
            (fun w => w_upload_from_filename w egg_path egg_local_path);;
  mret egg_path.

(** One status request; the world answers by the number of requests so far. *)
Definition get_job (project_id region job_id : string) : M Job :=
  fun w s =>
    let s' := {| trace := trace s ++ [GetJob project_id region job_id];
                 get_job_calls := S (get_job_calls s);
                 store := store s |} in
    match w_get_job w (get_job_calls s) job_id with
    | inr job => (s', Returned job)
    | inl e => (s', Raised e)
    end.

Definition sleep (seconds : nat) : M unit := emit (Sleep seconds).

(** [while True: ...]: each unit of fuel pays for one turn of the loop. *)
Fixpoint _wait_for_job_to_finish_loop (fuel : nat) (project_id region job_id : string)
  : M Job :=
  match fuel with
  | O => fun _ s => (s, StillRunning)
  | S fuel' =>
      job ← get_job project_id region job_id;
      match status_state job with
      | State.DONE =>
          logger LogInfo "Job is DONE";;
          mret job
      | State.ERROR =>
          logger LogError "Job was failed with ERROR";;
          raise (Exception (status_details job) None)
      | State.CANCELLED =>
          logger LogWarn "Job was CANCELLED";;
          raise (Exception "Job was CANCELLED" None)
      | _ =>
          sleep 5;;
          _wait_for_job_to_finish_loop fuel' project_id region job_id
      end
  end.

Definition _wait_for_job_to_finish (fuel : nat) (project_id region job_id : string)
  : M Job :=
  logger LogInfo "Waiting for job to finish...";;
  _wait_for_job_to_finish_loop fuel project_id region job_id.

(** [bytes.decode()]: whether the bytes are well-formed UTF-8 (no overlong
    form, no surrogate, nothing above U+10FFFF). *)
Fixpoint utf8_valid (b : list Byte.byte) : bool :=
  let within (lo hi : N) (x : Byte.byte) : bool :=
    ((lo <=? Byte.to_N x) && (Byte.to_N x <=? hi))%N in
  match b with
  | [] => true
  | b0 :: r0 =>
      if within 0%N 127%N b0 then utf8_valid r0
      else
        match r0 with
        | [] => false
        | b1 :: r1 =>
            if within 194%N 223%N b0 then within 128%N 191%N b1 && utf8_valid r1
            else
              match r1 with
              | [] => false
              | b2 :: r2 =>
                  if within 224%N 239%N b0
                  then (if within 224%N 224%N b0 then within 160%N 191%N b1
                        else if within 237%N 237%N b0 then within 128%N 159%N b1
                        else within 128%N 191%N b1)
                       && within 128%N 191%N b2 && utf8_valid r2
                  else
                    match r2 with
                    | [] => false
                    | b3 :: r3 =>
                        within 240%N 244%N b0
                        && (if within 240%N 240%N b0 then within 144%N 191%N b1
                            else if within 244%N 244%N b0 then within 128%N 143%N b1
                            else within 128%N 191%N b1)
                        && within 128%N 191%N b2 && within 128%N 191%N b3 && utf8_valid r3
                    end
              end
        end
  end.

(** The error of [decode] on bytes that are not UTF-8; the rest of its
    message, which names the byte and its position, is left out. *)
Definition UnicodeDecodeError : exn := Exception "'utf-8' codec can't decode" None.

(** The log is decoded before the line is logged, as an argument of the
    call. *)
Definition _print_job_output_log (project_id region job_id : string) : M unit :=
  job ← get_job project_id region job_id;
  let uri := driver_output_resource_uri job ++ ".000000000" in
  log ← call (DownloadBlob uri) (fun w => w_download_blob w uri);
  if utf8_valid log then logger LogInfo "JOB OUTPUT:\n=====\n%s\n====="
  else raise UnicodeDecodeError.

Definition _submit_single_pyspark_job (project_id region cluster_name bucket_id
    driver_path egg_path : string) (jar_file_uris : list string)
    (properties : gmap string string) : M string :=
  let job :=
    {| js_placement_cluster_name := cluster_name;
       js_main_python_file_uri := "gs://" ++ bucket_id ++ "/" ++ driver_path;
       js_jar_file_uris := jar_file_uris;
       js_python_file_uris := ["gs://" ++ bucket_id ++ "/" ++ egg_path];
       js_properties := properties |} in
  logger LogDebug "Pyspark job %r";;
  job_id ← call (SubmitJob project_id region job) (fun w => w_submit_job w job);
  print ("Job " ++ job_id ++ " submitted.");;
  print ("https://console.cloud.google.com/dataproc/jobs/" ++ job_id
         ++ "?project=" ++ project_id ++ "&region=" ++ region);;
  mret job_id.

(** The text of [s] before its first single quote. *)
Fixpoint until_quote (s : string) : option string :=
  match s with
  | EmptyString => None
  | String c r =>
      if Ascii.eqb c "'" then Some ""
      else match until_quote r with
           | Some g => Some (String c g)
           | None => None
           end
  end.

Definition match_creating (s : string) : option string :=
  match strip_prefix "creating '" s with
  | Some rest => until_quote rest
  | None => None
  end.

(** [re.search] for the word creating, a quoted file name after it: group 1
    of the leftmost match. *)
Fixpoint re_search_creating (output : string) : option string :=
  match match_creating output with
  | Some g => Some g
  | None =>
      match output with
      | EmptyString => None
      | String _ r => re_search_creating r
      end
  end.

(** [str(cwd / name)], for the text [cwd] of the resolved directory. *)
Definition path_join (cwd name : string) : string :=
  pathlib.path_str (pathlib.truediv (pathlib.Path cwd) name).

Definition _build_project_egg (setup_file : option string) : M string :=
  match setup_file with
  | None => raise (Exception "expected str, bytes or os.PathLike object, not NoneType" None)
  | Some setup_file =>
      w ← ask;
      let cwd := w_resolve_parent w setup_file in
      output ← call (RunProcess ["python"; setup_file; "bdist_egg"] cwd)
                    (fun w => w_run_process w ["python"; setup_file; "bdist_egg"] cwd);
      match re_search_creating output with
      | None => raise (Exception "'NoneType' object has no attribute 'group'" None)
      | Some egg_filename =>
          logger LogDebug "Egg filename is %r";;
          mret (path_join cwd egg_filename)
      end
  end.

Definition run (fuel : nat) (self : PySparkJob.t) (runtime : pyobj) : M unit :=
  logger LogInfo "Run job %r";;
  self ← _ensure_has_setup_file self;
  job_internal_id ← _generate_internal_jobid self runtime;
  call_unit (StorageClient (PySparkJob.gcp_project_id self)) w_storage_client;;
  call_unit (JobControllerClient (api_endpoint (PySparkJob.gcp_region self))) w_job_client;;
  driver ← _prepare_driver_callable self runtime;
  logger LogInfo "Prapare and upload python package...";;
  call_unit (GetBucket (PySparkJob.bucket_id self))
            (fun w => w_get_bucket w (PySparkJob.bucket_id self));;
  let bucket := PySparkJob.bucket_id self in
  egg_local_path ← _build_project_egg (PySparkJob.setup_file self);
  egg_path ← _upload_egg egg_local_path bucket job_internal_id;
  let driver_path := job_internal_id ++ "/" ++ PySparkJob.driver_filename self in
  generate_and_upload_driver driver bucket driver_path;;
  _with_temp_cluster self job_internal_id (fun cluster_name =>
    properties ← _prepare_pyspark_properties self;
    job ← _submit_single_pyspark_job (PySparkJob.gcp_project_id self)
            (PySparkJob.gcp_region self) cluster_name (PySparkJob.bucket_id self)
            driver_path egg_path (PySparkJob.jar_file_uris self) properties;
    _ ← try_finally
          (_wait_for_job_to_finish fuel (PySparkJob.gcp_project_id self)
             (PySparkJob.gcp_region self) job)
          (_print_job_output_log (PySparkJob.gcp_project_id self)
             (PySparkJob.gcp_region self) job);
    mret tt);;
  logger LogInfo "Job %r was finished".

(** The state a run starts from. *)
Definition initial_state (h : heap) : state :=
  {| trace := []; get_job_calls := 0; store := h |}.

(** ** The shape of a run id *)

Definition is_digit (c : ascii) : bool :=
  (48 <=? nat_of_ascii c)%nat && (nat_of_ascii c <=? 57)%nat.

Definition is_lower_letter (c : ascii) : bool :=
  (97 <=? nat_of_ascii c)%nat && (nat_of_ascii c <=? 122)%nat.

(** The character class [[a-z0-9]]. *)
Definition is_lower_alnum (c : ascii) : bool := is_lower_letter c || is_digit c.

(** [s] is exactly [n] characters of the class [p]. *)
Fixpoint all_of (p : ascii -> bool) (n : nat) (s : string) : bool :=
  match n, s with
  | O, EmptyString => true
  | S n', String c r => p c && all_of p n' r
  | _, _ => false
  end.

(** [n] characters of the class [p] at the front of [s], and what follows. *)
Fixpoint take_class (p : ascii -> bool) (n : nat) (s : string) : option string :=
  match n, s with
  | O, _ => Some s
  | S n', String c r => if p c then take_class p n' r else None
  | S _, EmptyString => None
  end.

Definition take_dash (s : string) : option string := strip_prefix "-" s.

(** The tail pattern: four digits, two digits, two digits and six digits
    separated by dashes, a dash, and ten characters of [[a-z0-9]] up to the
    end of the text. *)
Definition matches_tail (s : string) : bool :=
  match (s ← take_class is_digit 4 s; s ← take_dash s;
         s ← take_class is_digit 2 s; s ← take_dash s;
         s ← take_class is_digit 2 s; s ← take_dash s;
         s ← take_class is_digit 6 s; take_dash s) with
  | Some suffix => all_of is_lower_alnum 10 suffix
  | None => false
  end.

(** The whole pattern, with the two literal segments in front. *)
Definition matches_run_id (id_segment env_segment s : string) : bool :=
  match strip_prefix (id_segment ++ "-" ++ env_segment ++ "-") s with
  | Some tail => matches_tail tail
  | None => false
  end.

(** The characters the suffix is drawn from. *)
Definition population : list ascii := list_ascii_of_string (ascii_lowercase ++ digits).

(** ** The driver on the cluster *)

(** One call of the shipped callable: what is called, with which arguments,
    under which process environment. *)
Record invocation : Type := Invocation {
  inv_callable : pycallable;
  inv_args : list pyobj;
  inv_kwargs : gmap string pyobj;
  inv_environ : gmap string string
}.

(** [_PySparkDriverWrapper.__call__] on the unpickled wrapper:
    [os.environ.update(self.envs)], then the call. *)
Definition __call__ (self : work_unit) (environ : gmap string string)
  : gmap string string * invocation :=
  let environ := wu_envs self ∪ environ in
  (environ,
   {| inv_callable := wu_callable self;
      inv_args := wu_args self;
      inv_kwargs := wu_kwargs self;
      inv_environ := environ |}).

(** ** Sample inputs *)

Definition demo_process : process :=
  {| current_env := None;
     read_requirements := fun _ => [];
     bigflow_version := "1.0";
     _capture_caller_topmodule := "proj";
     _capture_caller_path := "/src/proj/main.py" |}.

Definition demo_args : init_args :=
  {| a_id := "demo";
     a_driver_callable := Callable "proj.main.driver";
     a_bucket_id := "bkt";
     a_gcp_project_id := "gcp";
     a_gcp_region := "europe-west1";
     a_driver_arguments := None;
     a_pip_packages := PipPackages [];
     a_jar_file_uris := ["gs://spark-lib/bigquery/spark-bigquery-latest_2.12.jar"];
     a_worker_num_instances := 2;
     a_worker_machine_type := "n1-standard-1";
     a_env := Some "dev";
     a_setup_file := Some "/src/setup.py" |}.

Definition demo_job : PySparkJob.t := (__init__ demo_process ∅ demo_args).2.
Definition demo_heap : gmap nat (gmap string pyobj) := (__init__ demo_process ∅ demo_args).1.

(** The same job under an id with capital letters. *)
Definition demo_job_capitals : PySparkJob.t :=
  (__init__ demo_process ∅
     {| a_id := "Demo_JOB-7";
        a_driver_callable := a_driver_callable demo_args;
        a_bucket_id := a_bucket_id demo_args;
        a_gcp_project_id := a_gcp_project_id demo_args;
        a_gcp_region := a_gcp_region demo_args;
        a_driver_arguments := a_driver_arguments demo_args;
        a_pip_packages := a_pip_packages demo_args;
        a_jar_file_uris := a_jar_file_uris demo_args;
        a_worker_num_instances := a_worker_num_instances demo_args;
        a_worker_machine_type := a_worker_machine_type demo_args;
        a_env := a_env demo_args;
        a_setup_file := a_setup_file demo_args |}).2.

(** The draws that spell [abc1234567]. *)
Definition demo_draws : list nat := [0; 1; 2; 27; 28; 29; 30; 31; 32; 33].

(** A job that polls as RUNNING twice and then reports [final]. *)
Definition demo_get_job (final : State.t) (details : string) (n : nat) (_ : string)
  : exn + Job :=
  inr {| status_state := if (n <? 2)%nat then State.RUNNING else final;
         status_details := details;
         driver_output_resource_uri := "gs://out/log" |}.

(** A world in which every service answers and the job ends as DONE. *)
Definition demo_world : world :=
  {| w_now := Datetime 2024 1 1 12 0 0;
     w_random := fun _ i => nth i demo_draws 0;
     w_find_or_create_setup := fun _ _ => inr "/src/setup.py";
     w_storage_client := None;
     w_job_client := None;
     w_cluster_client := None;
     w_get_bucket := fun _ => None;
     w_resolve_parent := fun _ => "/src";
     w_run_process := fun _ _ => inr "running bdist_egg; creating 'dist/proj.egg' and adding";
     w_upload_from_filename := fun _ _ => None;
     w_pickle_dumps := fun _ => inr (list_byte_of_string "pickled!");
     w_object_address := 255%N;
     w_upload_from_string := fun _ _ => None;
     w_create_cluster := fun _ => None;
     w_cluster_future_result := fun _ => None;
     w_submit_job := fun _ => inr "job-1";
     w_get_job := demo_get_job State.DONE "";
     w_download_blob := fun _ => inr (list_byte_of_string "log text");
     w_delete_cluster := fun _ => None |}.

(** ** Observing a run *)

(** The states in which the watcher stops polling. *)
Definition terminal (st : State.t) : bool :=
  match st with
  | State.DONE | State.ERROR | State.CANCELLED => true
  | _ => false
  end.

(** An answer to a status request that keeps the watcher polling. *)
Definition keeps_polling (answer : exn + Job) : bool :=
  match answer with
  | inr job => negb (terminal (status_state job))
  | inl _ => false
  end.

(** What [n] turns of the polling loop that do not stop leave in the trace. *)
Fixpoint polls (n : nat) (project_id region job_id : string) : list event :=
  match n with
  | O => []
  | S n' => GetJob project_id region job_id :: Sleep 5 :: polls n' project_id region job_id
  end.

(** How the watcher leaves the loop on an answer that stops it: the line it
    logs and its outcome. *)
Definition leaves (answer : exn + Job) : list event * outcome Job :=
  match answer with
  | inl e => ([], Raised e)
  | inr job =>
      match status_state job with
      | State.ERROR =>
          ([Log LogError "Job was failed with ERROR"],
           Raised (Exception (status_details job) None))
      | State.CANCELLED =>
          ([Log LogWarn "Job was CANCELLED"], Raised (Exception "Job was CANCELLED" None))
      | _ => ([Log LogInfo "Job is DONE"], Returned job)
      end
  end.

(** [sub] occurs in [s]. *)
Fixpoint contains (sub s : string) : bool :=
  match strip_prefix sub s with
  | Some _ => true
  | None => match s with
            | EmptyString => false
            | String _ r => contains sub r
            end
  end.

Definition is_sleep (e : event) : bool :=
  match e with Sleep _ => true | _ => false end.

(** ** Worlds that differ from another in one service *)

Definition with_get_job (answer : nat → string → exn + Job) (w : world) : world :=
  {| w_now := w_now w;
     w_random := w_random w;
     w_find_or_create_setup := w_find_or_create_setup w;
     w_storage_client := w_storage_client w;
     w_job_client := w_job_client w;
     w_cluster_client := w_cluster_client w;
     w_get_bucket := w_get_bucket w;
     w_resolve_parent := w_resolve_parent w;
     w_run_process := w_run_process w;
     w_upload_from_filename := w_upload_from_filename w;
     w_pickle_dumps := w_pickle_dumps w;
     w_object_address := w_object_address w;
     w_upload_from_string := w_upload_from_string w;
     w_create_cluster := w_create_cluster w;
     w_cluster_future_result := w_cluster_future_result w;
     w_submit_job := w_submit_job w;
     w_get_job := answer;
     w_download_blob := w_download_blob w;
     w_delete_cluster := w_delete_cluster w |}.

Definition with_delete_cluster (answer : string → option exn) (w : world) : world :=
  {| w_now := w_now w;
     w_random := w_random w;
     w_find_or_create_setup := w_find_or_create_setup w;
     w_storage_client := w_storage_client w;
     w_job_client := w_job_client w;
     w_cluster_client := w_cluster_client w;
     w_get_bucket := w_get_bucket w;
     w_resolve_parent := w_resolve_parent w;
     w_run_process := w_run_process w;
     w_upload_from_filename := w_upload_from_filename w;
     w_pickle_dumps := w_pickle_dumps w;
     w_object_address := w_object_address w;
     w_upload_from_string := w_upload_from_string w;
     w_create_cluster := w_create_cluster w;
     w_cluster_future_result := w_cluster_future_result w;
     w_submit_job := w_submit_job w;
     w_get_job := w_get_job w;
     w_download_blob := w_download_blob w;
     w_delete_cluster := answer |}.

Definition with_download_blob (answer : string → exn + list Byte.byte) (w : world) : world :=
  {| w_now := w_now w;
     w_random := w_random w;
     w_find_or_create_setup := w_find_or_create_setup w;
     w_storage_client := w_storage_client w;
     w_job_client := w_job_client w;
     w_cluster_client := w_cluster_client w;
     w_get_bucket := w_get_bucket w;
     w_resolve_parent := w_resolve_parent w;
     w_run_process := w_run_process w;
     w_upload_from_filename := w_upload_from_filename w;
     w_pickle_dumps := w_pickle_dumps w;
     w_object_address := w_object_address w;
     w_upload_from_string := w_upload_from_string w;
     w_create_cluster := w_create_cluster w;
     w_cluster_future_result := w_cluster_future_result w;
     w_submit_job := w_submit_job w;
     w_get_job := w_get_job w;
     w_download_blob := answer;
     w_delete_cluster := w_delete_cluster w |}.

Definition with_pickle_dumps (answer : work_unit → exn + list Byte.byte) (w : world) : world :=
  {| w_now := w_now w;
     w_random := w_random w;
     w_find_or_create_setup := w_find_or_create_setup w;
     w_storage_client := w_storage_client w;
     w_job_client := w_job_client w;
     w_cluster_client := w_cluster_client w;
     w_get_bucket := w_get_bucket w;
     w_resolve_parent := w_resolve_parent w;
     w_run_process := w_run_process w;
     w_upload_from_filename := w_upload_from_filename w;
     w_pickle_dumps := answer;
     w_object_address := w_object_address w;
     w_upload_from_string := w_upload_from_string w;
     w_create_cluster := w_create_cluster w;
     w_cluster_future_result := w_cluster_future_result w;
     w_submit_job := w_submit_job w;
     w_get_job := w_get_job w;
     w_download_blob := w_download_blob w;
     w_delete_cluster := w_delete_cluster w |}.

Definition with_submit_job (answer : jobspec → exn + string) (w : world) : world :=
  {| w_now := w_now w;
     w_random := w_random w;
     w_find_or_create_setup := w_find_or_create_setup w;
     w_storage_client := w_storage_client w;
     w_job_client := w_job_client w;
     w_cluster_client := w_cluster_client w;
     w_get_bucket := w_get_bucket w;
     w_resolve_parent := w_resolve_parent w;
     w_run_process := w_run_process w;
     w_upload_from_filename := w_upload_from_filename w;
     w_pickle_dumps := w_pickle_dumps w;
     w_object_address := w_object_address w;
     w_upload_from_string := w_upload_from_string w;
     w_create_cluster := w_create_cluster w;
     w_cluster_future_result := w_cluster_future_result w;
     w_submit_job := answer;
     w_get_job := w_get_job w;
     w_download_blob := w_download_blob w;
     w_delete_cluster := w_delete_cluster w |}.

Definition with_create_cluster (answer : cluster_data → option exn) (w : world) : world :=
  {| w_now := w_now w;
     w_random := w_random w;
     w_find_or_create_setup := w_find_or_create_setup w;
     w_storage_client := w_storage_client w;
     w_job_client := w_job_client w;
     w_cluster_client := w_cluster_client w;
     w_get_bucket := w_get_bucket w;
     w_resolve_parent := w_resolve_parent w;
     w_run_process := w_run_process w;
     w_upload_from_filename := w_upload_from_filename w;
     w_pickle_dumps := w_pickle_dumps w;
     w_object_address := w_object_address w;
     w_upload_from_string := w_upload_from_string w;
     w_create_cluster := answer;
     w_cluster_future_result := w_cluster_future_result w;
     w_submit_job := w_submit_job w;
     w_get_job := w_get_job w;
     w_download_blob := w_download_blob w;
     w_delete_cluster := w_delete_cluster w |}.

(** ** Failing services *)

Definition submit_failed : exn := Exception "submit failed" None.
Definition delete_failed : exn := Exception "delete failed" None.
Definition download_failed : exn := Exception "download failed" None.
Definition pickling_failed : exn := Exception "Can't pickle local object" None.

(** The submission is refused and the deletion of the cluster fails too. *)
Definition world_submit_and_delete_fail : world :=
  with_delete_cluster (fun _ => Some delete_failed)
    (with_submit_job (fun _ => inl submit_failed) demo_world).

(** The job ends as DONE and its log cannot be downloaded. *)
Definition world_download_fails : world :=
  with_download_blob (fun _ => inl download_failed) demo_world.

(** The job ends as ERROR with the details [boom] and its log cannot be
    downloaded. *)
Definition world_job_and_download_fail : world :=
  with_download_blob (fun _ => inl download_failed)
    (with_get_job (demo_get_job State.ERROR "boom") demo_world).

(** The work unit cannot be pickled. *)
Definition world_pickling_fails : world :=
  with_pickle_dumps (fun _ => inl pickling_failed) demo_world.

(** ** The life of the cluster in a trace *)

Definition is_lifecycle (e : event) : bool :=
  match e with
  | CreateCluster _ _ _ | DeleteCluster _ _ _ => true
  | _ => false
  end.

(** The requests to create and to delete a cluster, in order. *)
Definition lifecycle (s : state) : list event := List.filter is_lifecycle (trace s).

(** What the steps outside the polling loop leave alone. *)
Definition cluster_view (s : state) : list event * nat := (lifecycle s, get_job_calls s).

(** [m] never changes what [f] sees of the state. *)
Definition preserves {X A : Type} (f : state → X) (m : M A) : Prop :=
  ∀ w s, f (m w s).1 = f s.

(** [m] always comes back: it returns or raises. *)
Definition comes_back {A : Type} (m : M A) : Prop :=
  ∀ w s, (m w s).2 ≠ StillRunning.

(** The block under [with] in [run]. *)
Definition with_block (fuel : nat) (self : PySparkJob.t) (driver_path egg_path : string)
    (cluster_name : string) : M unit :=
  properties ← _prepare_pyspark_properties self;
  job ← _submit_single_pyspark_job (PySparkJob.gcp_project_id self)
          (PySparkJob.gcp_region self) cluster_name (PySparkJob.bucket_id self)
          driver_path egg_path (PySparkJob.jar_file_uris self) properties;
  _ ← try_finally
        (_wait_for_job_to_finish fuel (PySparkJob.gcp_project_id self)
           (PySparkJob.gcp_region self) job)
        (_print_job_output_log (PySparkJob.gcp_project_id self)
           (PySparkJob.gcp_region self) job);
  mret tt.

(** The [finally] clause of [_with_temp_cluster]. *)
Definition teardown (self : PySparkJob.t) (cluster_name : string) : M unit :=
  logger LogDebug "Delete temp cluster %r";;
  _delete_cluster (PySparkJob.gcp_project_id self) (PySparkJob.gcp_region self) cluster_name.

(** Everything [run] does before the [with] statement; it hands over the job
    with its setup file, the run id, and the paths of the driver and the egg. *)
Definition before_with (self : PySparkJob.t) (runtime : pyobj)
  : M (PySparkJob.t * string * string * string) :=
  logger LogInfo "Run job %r";;
  self ← _ensure_has_setup_file self;
  job_internal_id ← _generate_internal_jobid self runtime;
  call_unit (StorageClient (PySparkJob.gcp_project_id self)) w_storage_client;;
  call_unit (JobControllerClient (api_endpoint (PySparkJob.gcp_region self))) w_job_client;;
  driver ← _prepare_driver_callable self runtime;
  logger LogInfo "Prapare and upload python package...";;
  call_unit (GetBucket (PySparkJob.bucket_id self))
            (fun w => w_get_bucket w (PySparkJob.bucket_id self));;
  let bucket := PySparkJob.bucket_id self in
  egg_local_path ← _build_project_egg (PySparkJob.setup_file self);
  egg_path ← _upload_egg egg_local_path bucket job_internal_id;
  let driver_path := job_internal_id ++ "/" ++ PySparkJob.driver_filename self in
  generate_and_upload_driver driver bucket driver_path;;
  mret (self, job_internal_id, driver_path, egg_path).

(** The exception in flight after a step that has come back. *)
Definition pending {A} (r : outcome A) : option exn :=
  match r with
  | Raised e => Some e
  | _ => None
  end.

(** The outcome of a [try] block whose [finally] clause ended as [c]. *)
Definition after_finally {A} (r : outcome A) (c : option exn) : outcome A :=
  match c with
  | None => r
  | Some e2 => Raised (with_context e2 (pending r))
  end.

(** The description of the cluster that [_create_cluster] sends. *)
Definition cluster_spec (self : PySparkJob.t) (cluster_name : string) : cluster_data :=
  {| cd_cluster_name := cluster_name;
     cd_master_num_instances := 1;
     cd_master_machine_type_uri := "n1-standard-4";
     cd_master_boot_disk_size_gb := 100;
     cd_worker_num_instances := PySparkJob.worker_num_instances self;
     cd_worker_machine_type_uri := PySparkJob.worker_machine_type self;
     cd_worker_boot_disk_size_gb := 100;
     cd_image_version := "1.5";
     cd_initialization_actions :=
       ["gs://goog-dataproc-initialization-actions-" ++ PySparkJob.gcp_region self
        ++ "/python/pip-install.sh"];
     cd_metadata :=
       [("PIP_PACKAGES",
         String.concat " " (filter (fun r => r ≠ "") (PySparkJob.pip_packages self)))] |}.

(** The state with more events at the end of its trace. *)
Definition extend (s : state) (events : list event) : state :=
  {| trace := trace s ++ events; get_job_calls := get_job_calls s; store := store s |}.

(** The exception of the request to create the cluster, or else of the wait
    for the cluster to be ready. *)
Definition creation_failure (self : PySparkJob.t) (cluster_name : string) (w : world)
  : option exn :=
  match w_create_cluster w (cluster_spec self cluster_name) with
  | Some e => Some e
  | None => w_cluster_future_result w (cluster_spec self cluster_name)
  end.

(** What the creation of the cluster leaves in the trace. *)
Definition creation_events (self : PySparkJob.t) (cluster_name : string) (w : world)
  : list event :=
  [Log LogDebug "Create temp cluster %r"; Log LogDebug "Cluster spec %r";
   Log LogInfo "Create cluster %r";
   CreateCluster (PySparkJob.gcp_project_id self) (PySparkJob.gcp_region self)
     (cluster_spec self cluster_name)]
  ++ match w_create_cluster w (cluster_spec self cluster_name) with
     | Some _ => []
     | None =>
         [Log LogInfo "Waiting for cluster creation..."; ClusterFutureResult cluster_name]
         ++ match w_cluster_future_result w (cluster_spec self cluster_name) with
            | Some _ => []
            | None => [Log LogInfo "Cluster created in %s seconds."]
            end
     end.

Definition delete_events (self : PySparkJob.t) (cluster_name : string) : list event :=
  [Log LogDebug "Delete temp cluster %r"; Print "Deleting cluster...";
   DeleteCluster (PySparkJob.gcp_project_id self) (PySparkJob.gcp_region self) cluster_name].

(** The state the [finally] clause of [_with_temp_cluster] leaves. *)
Definition torn_down (self : PySparkJob.t) (cluster_name : string) (w : world) (s : state)
  : state :=
  extend s (delete_events self cluster_name
            ++ match w_delete_cluster w cluster_name with
               | None => [Print "Cluster was deleted."]
               | Some _ => []
               end).

(** [_with_temp_cluster] step by step: the client, the creation, the block
    under [with] when the cluster was created, and the deletion in every case
    in which the creation was attempted and the block came back. *)
Definition scope_steps {A} (self : PySparkJob.t) (cluster_name : string)
    (body : string → M A) : M A :=
  fun w s =>
    let s0 := extend s [ClusterControllerClient (api_endpoint (PySparkJob.gcp_region self))] in
    match w_cluster_client w with
    | Some e => (s0, Raised e)
    | None =>
        match creation_failure self cluster_name w with
        | Some e =>
            (torn_down self cluster_name w (extend s0 (creation_events self cluster_name w)),
             after_finally (Raised e) (w_delete_cluster w cluster_name))
        | None =>
            match body cluster_name w (extend s0 (creation_events self cluster_name w)) with
            | (s2, StillRunning) => (s2, StillRunning)
            | (s2, r2) =>
                (torn_down self cluster_name w s2,
                 after_finally r2 (w_delete_cluster w cluster_name))
            end
        end
    end.

(** The property map of [_prepare_pyspark_properties]. *)
Definition pyspark_properties (self : PySparkJob.t) : gmap string string :=
  let ps : gmap string string := <["spark.app.name" := PySparkJob.id self]> ∅ in
  if truthy (Some (PySparkJob.env self))
  then <["spark.executorEnv.bf_env" := PySparkJob.env self]>
         (<["spark.workerEnv.bf_env" := PySparkJob.env self]> ps)
  else ps.

(** The job description that [run] submits. *)
Definition job_spec (self : PySparkJob.t) (cluster_name driver_path egg_path : string)
  : jobspec :=
  {| js_placement_cluster_name := cluster_name;
     js_main_python_file_uri := "gs://" ++ PySparkJob.bucket_id self ++ "/" ++ driver_path;
     js_jar_file_uris := PySparkJob.jar_file_uris self;
     js_python_file_uris := ["gs://" ++ PySparkJob.bucket_id self ++ "/" ++ egg_path];
     js_properties := pyspark_properties self |}.

Definition submit_events (self : PySparkJob.t) (cluster_name driver_path egg_path : string)
  : list event :=
  [Log LogDebug "Pyspark properties are %r"; Log LogDebug "Pyspark job %r";
   SubmitJob (PySparkJob.gcp_project_id self) (PySparkJob.gcp_region self)
     (job_spec self cluster_name driver_path egg_path)].

Definition submitted_events (self : PySparkJob.t) (job_id : string) : list event :=
  [Print ("Job " ++ job_id ++ " submitted.");
   Print ("https://console.cloud.google.com/dataproc/jobs/" ++ job_id
          ++ "?project=" ++ PySparkJob.gcp_project_id self
          ++ "&region=" ++ PySparkJob.gcp_region self)].

(** The block under [with] step by step: the submission, the watcher, and
    the retrieval of the log whenever the watcher has come back. *)
Definition block_steps (fuel : nat) (self : PySparkJob.t) (driver_path egg_path : string)
    (cluster_name : string) : M unit :=
  fun w s =>
    let s0 := extend s (submit_events self cluster_name driver_path egg_path) in
    match w_submit_job w (job_spec self cluster_name driver_path egg_path) with
    | inl e => (s0, Raised e)
    | inr job =>
        match _wait_for_job_to_finish fuel (PySparkJob.gcp_project_id self)
                (PySparkJob.gcp_region self) job w
                (extend s0 (submitted_events self job)) with
        | (s2, StillRunning) => (s2, StillRunning)
        | (s2, r2) =>
            match _print_job_output_log (PySparkJob.gcp_project_id self)
                    (PySparkJob.gcp_region self) job w s2 with
            | (s3, Returned _) =>
                (s3, match r2 with Raised e => Raised e | _ => Returned tt end)
            | (s3, Raised e2) => (s3, Raised (with_context e2 (pending r2)))
            | (s3, StillRunning) => (s3, StillRunning)
            end
        end
    end.

(** ** What a run has written to the remote services *)

Definition is_remote_write (e : event) : bool :=
  match e with
  | UploadFromFilename _ _ _ | UploadFromString _ _ _
  | CreateCluster _ _ _ | SubmitJob _ _ _ => true
  | _ => false
  end.

(** The uploads, cluster creations and job submissions, in order. *)
Definition remote_writes (s : state) : list event := List.filter is_remote_write (trace s).

(** Everything [run] does before it uploads the egg; it hands over the job
    with its setup file, the run id, the wrapper and the path of the egg. *)
Definition before_upload (self : PySparkJob.t) (runtime : pyobj)
  : M (PySparkJob.t * string * _PySparkDriverWrapper.t * string) :=
  logger LogInfo "Run job %r";;
  self ← _ensure_has_setup_file self;
  job_internal_id ← _generate_internal_jobid self runtime;
  call_unit (StorageClient (PySparkJob.gcp_project_id self)) w_storage_client;;
  call_unit (JobControllerClient (api_endpoint (PySparkJob.gcp_region self))) w_job_client;;
  driver ← _prepare_driver_callable self runtime;
  logger LogInfo "Prapare and upload python package...";;
  call_unit (GetBucket (PySparkJob.bucket_id self))
            (fun w => w_get_bucket w (PySparkJob.bucket_id self));;
  egg_local_path ← _build_project_egg (PySparkJob.setup_file self);
  mret (self, job_internal_id, driver, egg_local_path).

Definition is_submit (e : event) : bool :=
  match e with
  | SubmitJob _ _ _ => true
  | _ => false
  end.

(** The job submissions of a run, in order. *)
Definition submitted (s : state) : list event := List.filter is_submit (trace s).

(** ** What a run ships to the cluster *)

Definition is_driver_upload (e : event) : bool :=
  match e with
  | UploadFromString _ _ _ => true
  | _ => false
  end.

(** The uploads of generated text, in order. *)
Definition driver_uploads (s : state) : list event :=
  List.filter is_driver_upload (trace s).

(** What the steps after the upload of the driver leave alone. *)
Definition ship_view (s : state) : list event * gmap nat (gmap string pyobj) :=
  (driver_uploads s, store s).

(** Every dictionary that is live in [s] is the same in [s']. *)
Definition live_unchanged (s s' : state) : Prop :=
  ∀ l, is_Some (store s !! l) → store s' !! l = store s !! l.

(** A caller's dictionary that already has an entry under [runtime]. *)
Definition stale_heap : gmap nat (gmap string pyobj) :=
  {[ 0%nat := {[ "runtime" := PyStr "stale"; "table" := PyStr "events" ]} ]}.

Definition stale_args : init_args :=
     {| a_id := a_id demo_args;
        a_driver_callable := a_driver_callable demo_args;
        a_bucket_id := a_bucket_id demo_args;
        a_gcp_project_id := a_gcp_project_id demo_args;
        a_gcp_region := a_gcp_region demo_args;
        a_driver_arguments := Some 0%nat;
        a_pip_packages := a_pip_packages demo_args;
        a_jar_file_uris := a_jar_file_uris demo_args;
        a_worker_num_instances := a_worker_num_instances demo_args;
        a_worker_machine_type := a_worker_machine_type demo_args;
        a_env := a_env demo_args;
        a_setup_file := a_setup_file demo_args |}.

Definition stale_job : PySparkJob.t := (__init__ demo_process stale_heap stale_args).2.

(** ** Running the driver script *)

(** [s.split] on line breaks. *)
Fixpoint lines_of (s : string) : list string :=
  match s with
  | EmptyString => [""]
  | String c r =>
      if Ascii.eqb c (ascii_of_nat 10) then "" :: lines_of r
      else match lines_of r with
           | first :: rest => String c first :: rest
           | [] => [String c ""]
           end
  end.

Definition hex_value (c : ascii) : option N :=
  let n := N_of_ascii c in
  if ((48 <=? n) && (n <=? 57))%N then Some (n - 48)%N
  else if ((97 <=? n) && (n <=? 102))%N then Some (n - 87)%N
  else if ((65 <=? n) && (n <=? 70))%N then Some (n - 55)%N
  else None.

(** The body of a bytes literal up to the closing [quote]; nothing may
    follow the quote. *)
Fixpoint parse_bytes_body (quote : ascii) (s : string) : option (list Byte.byte) :=
  match s with
  | EmptyString => None
  | String c r =>
      if Ascii.eqb c quote then
        match r with EmptyString => Some [] | _ => None end
      else if Ascii.eqb c backslash then
        match r with
        | String e r' =>
            if (Ascii.eqb e backslash || Ascii.eqb e quote1 || Ascii.eqb e quote2)%bool
            then cons (byte_of_ascii e) <$> parse_bytes_body quote r'
            else if Ascii.eqb e "t" then cons Byte.x09 <$> parse_bytes_body quote r'
            else if Ascii.eqb e "n" then cons Byte.x0a <$> parse_bytes_body quote r'
            else if Ascii.eqb e "r" then cons Byte.x0d <$> parse_bytes_body quote r'
            else if Ascii.eqb e "x" then
              match r' with
              | String h1 (String h2 r'') =>
                  match hex_value h1, hex_value h2 with
                  | Some a, Some b =>
                      cons (base64.byte_of_N (a * 16 + b)) <$> parse_bytes_body quote r''
                  | _, _ => None
                  end
              | _ => None
              end
            else None
        | EmptyString => None
        end
      else cons (byte_of_ascii c) <$> parse_bytes_body quote r
  end.

(** The value of a bytes literal: the letter b, a quote, the body, the same
    quote. *)
Definition parse_bytes_literal (s : string) : option (list Byte.byte) :=
  match s with
  | String "b" (String q r) =>
      if (Ascii.eqb q quote1 || Ascii.eqb q quote2)%bool then parse_bytes_body q r else None
  | _ => None
  end.

(** The names the script binds, the process environment, and the calls of
    the shipped callable so far. *)
Record interpreter : Type := Interpreter {
  imported : bool;
  data : option (list Byte.byte);
  call_ : option work_unit;
  environ : gmap string string;
  invocations : list invocation
}.

Definition start (os_environ : gmap string string) : interpreter :=
  {| imported := false; data := None; call_ := None; environ := os_environ;
     invocations := [] |}.

(** One line of the script.  Only the statements of the generated script are
    understood; [loads] is [pickle.loads] on the cluster. *)
Definition exec_line (loads : list Byte.byte → exn + work_unit) (line : string)
    (st : interpreter) : exn + interpreter :=
  match line with
  | EmptyString => inr st
  | String "#" _ => inr st
  | _ =>
      if String.eqb line "import pickle, base64" then
        inr {| imported := true; data := data st; call_ := call_ st;
               environ := environ st; invocations := invocations st |}
      else if String.eqb line "call = pickle.loads(base64.b85decode(data))" then
        match imported st, data st with
        | true, Some d =>
            match base64.b85decode d with
            | inl e => inl e
            | inr pickled =>
                match loads pickled with
                | inl e => inl e
                | inr u =>
                    inr {| imported := imported st; data := data st; call_ := Some u;
                           environ := environ st; invocations := invocations st |}
                end
            end
        | _, _ => inl (Exception "NameError" None)
        end
      else if String.eqb line "call()" then
        match call_ st with
        | Some u =>
            let '(environ', inv) := __call__ u (environ st) in
            inr {| imported := imported st; data := data st; call_ := call_ st;
                   environ := environ'; invocations := invocations st ++ [inv] |}
        | None => inl (Exception "NameError" None)
        end
      else
        match strip_prefix "data = " line with
        | Some literal =>
            match parse_bytes_literal literal with
            | Some d =>
                inr {| imported := imported st; data := Some d; call_ := call_ st;
                       environ := environ st; invocations := invocations st |}
            | None => inl (Exception "SyntaxError" None)
            end
        | None => inl (Exception "SyntaxError" None)
        end
  end.

Fixpoint exec_lines (loads : list Byte.byte → exn + work_unit) (lines : list string)
    (st : interpreter) : exn + interpreter :=
  match lines with
  | [] => inr st
  | line :: rest =>
      match exec_line loads line st with
      | inl e => inl e
      | inr st' => exec_lines loads rest st'
      end
  end.

(** The script run as the main program of a process with environment
    [os_environ]: the environment it leaves and the calls it made. *)
Definition run_driver_script (loads : list Byte.byte → exn + work_unit) (script : string)
    (os_environ : gmap string string) : exn + gmap string string * list invocation :=
  match exec_lines loads (lines_of script) (start os_environ) with
  | inl e => inl e
  | inr st => inr (environ st, invocations st)
  end.

(** ** The encoding, group by group *)

Definition word_of (b0 b1 b2 b3 : Byte.byte) : N :=
  (((Byte.to_N b0 * 256 + Byte.to_N b1) * 256 + Byte.to_N b2) * 256 + Byte.to_N b3)%N.

(** [base64.b85encode] read off four bytes at a time: a short last group is
    padded with zero bytes and loses as many digits. *)
Fixpoint encode_groups (b : list Byte.byte) : list Byte.byte :=
  match b with
  | [] => []
  | [b0] => take 2 (base64.chunk_of_word (word_of b0 Byte.x00 Byte.x00 Byte.x00))
  | [b0; b1] => take 3 (base64.chunk_of_word (word_of b0 b1 Byte.x00 Byte.x00))
  | [b0; b1; b2] => take 4 (base64.chunk_of_word (word_of b0 b1 b2 Byte.x00))
  | b0 :: b1 :: b2 :: b3 :: r => base64.chunk_of_word (word_of b0 b1 b2 b3) ++ encode_groups r
  end.

(** The five digits of a word, most significant first. *)
Definition digits_of (w : N) : list N :=
  [w / 614125 / 85; w / 614125 mod 85; w / 85 mod 7225 / 85; w / 85 mod 7225 mod 85;
   w mod 85]%N.

(** The value of a list of digits in base 85. *)
Definition value_of (ds : list N) : N := fold_left (λ acc d, acc * 85 + d)%N ds 0%N.

(** A byte of the base 85 alphabet. *)
Definition b85_safe (c : Byte.byte) : bool :=
  match base64._b85dec c with
  | Some _ => true
  | None => false
  end.

(** No line break in [s]. *)
Fixpoint one_line (s : string) : bool :=
  match s with
  | EmptyString => true
  | String c r => negb (Ascii.eqb c (ascii_of_nat 10)) && one_line r
  end.

(** The lines of the generated script. *)
Definition driver_script_lines (callable_repr : string) (pickled : list Byte.byte)
  : list string :=
  [ ""; "";
    "# Generated by `bigflow.dataproc.generate_and_upload_driver`";
    "import pickle, base64";
    "";
    "# unpickle'n'call " ++ callable_repr;
    "data = " ++ bytes_repr (base64.b85encode pickled);
    "";
    "call = pickle.loads(base64.b85decode(data))";
    "call()";
    ""; "" ].

(** A work unit and the answers of a pickle that can ship it. *)
Definition demo_unit : work_unit :=
  {| wu_callable := Callable "proj.main.driver";
     wu_args := [];
     wu_kwargs := <["runtime" := PyStr "2024-01-01"]> ∅;
     wu_envs := <["env" := "dev"]> ∅ |}.

Definition demo_wrapper : _PySparkDriverWrapper.t :=
  {| _PySparkDriverWrapper.callable := Callable "proj.main.driver";
     _PySparkDriverWrapper.args := [];
     _PySparkDriverWrapper.kwargs := 0;
     _PySparkDriverWrapper.envs := <["env" := "dev"]> ∅ |}.

Definition demo_store : gmap nat (gmap string pyobj) :=
  <[0 := <["runtime" := PyStr "2024-01-01"]> ∅]> ∅.

Definition demo_loads (pickled : list Byte.byte) : exn + work_unit :=
  if String.eqb (string_of_list_byte pickled) "pickled!" then inr demo_unit
  else inl (Exception "UnpicklingError" None).

(** ** More to observe *)

(** No single quote in [s]. *)
Fixpoint no_quote (s : string) : bool :=
  match s with
  | EmptyString => true
  | String c r => negb (Ascii.eqb c "'") && no_quote r
  end.

(** No character of [s] is [c]. *)
Fixpoint without (c : ascii) (s : string) : bool :=
  match s with
  | EmptyString => true
  | String x r => negb (Ascii.eqb x c) && without c r
  end.

(** A component of a path: not empty, not a single dot, and without a
    slash. *)
Definition is_part (x : string) : bool :=
  negb (String.eqb x "") && negb (String.eqb x ".") && without "/" x.

(** The build of the egg cannot give a file name: the process fails, or its
    output does not name the file. *)
Definition build_fails (w : world) : Prop :=
  ∀ cmd cwd,
    match w_run_process w cmd cwd with
    | inl _ => True
    | inr output => re_search_creating output = None
    end.

(** A build whose output does not name the file it made. *)
Definition world_without_marker : world :=
  {| w_now := w_now demo_world;
     w_random := w_random demo_world;
     w_find_or_create_setup := w_find_or_create_setup demo_world;
     w_storage_client := None;
     w_job_client := None;
     w_cluster_client := None;
     w_get_bucket := w_get_bucket demo_world;
     w_resolve_parent := w_resolve_parent demo_world;
     w_run_process := fun _ _ => inr "running bdist_egg; done";
     w_upload_from_filename := w_upload_from_filename demo_world;
     w_pickle_dumps := w_pickle_dumps demo_world;
     w_object_address := w_object_address demo_world;
     w_upload_from_string := w_upload_from_string demo_world;
     w_create_cluster := w_create_cluster demo_world;
     w_cluster_future_result := w_cluster_future_result demo_world;
     w_submit_job := w_submit_job demo_world;
     w_get_job := w_get_job demo_world;
     w_download_blob := w_download_blob demo_world;
     w_delete_cluster := w_delete_cluster demo_world |}.

(** Everything a run does to the outside apart from its log lines and its
    prints. *)
Definition is_action (e : event) : bool :=
  match e with
  | Log _ _ | Print _ => false
  | _ => true
  end.

Definition actions (s : state) : list event := List.filter is_action (trace s).

(** The setup file a run works with: the one of the job, or the one found
    for the project of the caller. *)
Definition setup_file_of (self : PySparkJob.t) (w : world) : option string :=
  if truthy (PySparkJob.setup_file self) then PySparkJob.setup_file self
  else match w_find_or_create_setup w (PySparkJob._project self)
               (PySparkJob._any_file_inside_project self) with
       | inr f => Some f
       | inl _ => None
       end.

Definition setup_actions (self : PySparkJob.t) : list event :=
  if truthy (PySparkJob.setup_file self) then []
  else [FindOrCreateSetup (PySparkJob._project self)
          (PySparkJob._any_file_inside_project self)].

(** The run id of a run in the world [w]. *)
Definition run_id (self : PySparkJob.t) (w : world) : string :=
  jobid_text self (w_now w)
    (map (w_random w (String.length (ascii_lowercase ++ digits))) (seq 0 10)).

(** Every service that a run talks to before and after the job answers. *)
Record cooperative (self : PySparkJob.t) (w : world) (f output g : string)
    (pickled : list Byte.byte) (job_id : string) : Prop := Cooperative {
  coop_setup : setup_file_of self w = Some f;
  coop_storage : w_storage_client w = None;
  coop_job_client : w_job_client w = None;
  coop_bucket : w_get_bucket w (PySparkJob.bucket_id self) = None;
  coop_build :
    w_run_process w ["python"; f; "bdist_egg"] (w_resolve_parent w f) = inr output;
  coop_marker : re_search_creating output = Some g;
  coop_upload_file : ∀ blob file, w_upload_from_filename w blob file = None;
  coop_pickle : ∀ u, w_pickle_dumps w u = inr pickled;
  coop_upload_string : ∀ blob text, w_upload_from_string w blob text = None;
  coop_cluster_client : w_cluster_client w = None;
  coop_create : ∀ c, w_create_cluster w c = None;
  coop_ready : ∀ c, w_cluster_future_result w c = None;
  coop_submit : ∀ job, w_submit_job w job = inr job_id;
  coop_delete : ∀ name, w_delete_cluster w name = None
}.

(** The job after [self.setup_file = f]. *)
Definition with_setup_file (self : PySparkJob.t) (f : string) : PySparkJob.t :=
  {| PySparkJob.id := PySparkJob.id self;
     PySparkJob.driver_filename := PySparkJob.driver_filename self;
     PySparkJob.driver_callable := PySparkJob.driver_callable self;
     PySparkJob.driver_arguments := PySparkJob.driver_arguments self;
     PySparkJob.bucket_id := PySparkJob.bucket_id self;
     PySparkJob.gcp_project_id := PySparkJob.gcp_project_id self;
     PySparkJob.gcp_region := PySparkJob.gcp_region self;
     PySparkJob.env := PySparkJob.env self;
     PySparkJob.jar_file_uris := PySparkJob.jar_file_uris self;
     PySparkJob.worker_machine_type := PySparkJob.worker_machine_type self;
     PySparkJob.worker_num_instances := PySparkJob.worker_num_instances self;
     PySparkJob.pip_packages := PySparkJob.pip_packages self;
     PySparkJob.setup_file := Some f;
     PySparkJob._project := PySparkJob._project self;
     PySparkJob._any_file_inside_project := PySparkJob._any_file_inside_project self |}.

Definition creation_failed : exn := Exception "quota exceeded" None.

(** A world in which no cluster can be created. *)
Definition world_creation_fails : world :=
  with_create_cluster (fun _ => Some creation_failed) demo_world.

Definition status_unavailable : exn := Exception "503 service unavailable" None.

(** A world in which the second status request raises. *)
Definition world_status_fails : world :=
  with_get_job (fun n job_id => if (n <? 1)%nat then demo_get_job State.DONE "" n job_id
                                else inl status_unavailable) demo_world.

(** ** The module of the caller *)

(** [s.split(".", maxsplit)], with the part read so far in [current]. *)
Fixpoint split_dot (maxsplit : nat) (s : string) (current : string) : list string :=
  match s with
  | EmptyString => [current]
  | String c r =>
      match maxsplit with
      | O => [current ++ s]
      | S m =>
          if Ascii.eqb c "."
          then current :: split_dot m r ""
          else split_dot maxsplit r (current ++ String c "")
      end
  end.

(** [module.split(".", 2)[0]] for the name [module] of the module of the
    caller, which [_capture_caller_topmodule] reads from the call stack. *)
Definition topmodule (module : string) : string :=
  match split_dot 2 module "" with
  | top :: _ => top
  | [] => ""
  end.

(** * Properties *)

(** ** Text lemmas *)

Lemma strip_prefix_app (p s : string) : strip_prefix p (p ++ s) = Some s.
Proof.
  induction p as [|a p IH]; simpl; [by destruct s|].
  by rewrite Ascii.eqb_refl.
Qed.

Lemma is_digit_digit_char (n : nat) : is_digit (digit_char n) = true.
Proof.
  unfold digit_char.
  assert (n mod 10 < 10)%nat as Hlt by (apply Nat.mod_upper_bound; lia).
  destruct (n mod 10)%nat as [|[|[|[|[|[|[|[|[|[|k]]]]]]]]]]; try reflexivity; lia.
Qed.

Lemma py_or_str_nonempty (a : option string) (b : string) :
  b ≠ "" → py_or_str a b ≠ "".
Proof. by destruct a as [[|c r]|]. Qed.

Lemma py_or_str_some (s : string) : s ≠ "" → py_or_str (Some s) "none" = s.
Proof. by destruct s. Qed.

Lemma init_env_nonempty (p : process) (h : heap) (a : init_args) :
  PySparkJob.env (__init__ p h a).2 ≠ "".
Proof.
  unfold __init__. destruct (dict_or_new h (a_driver_arguments a)) as [h' l]. simpl.
  by apply py_or_str_nonempty.
Qed.

Lemma init_fields (p : process) (h : heap) (a : init_args) :
  PySparkJob.id (__init__ p h a).2 = a_id a ∧
  PySparkJob.env (__init__ p h a).2 = py_or_str (py_or (a_env a) (current_env p)) "none".
Proof.
  unfold __init__. by destruct (dict_or_new h (a_driver_arguments a)) as [h' l].
Qed.

(** ** The keyword arguments of the driver *)

Lemma new_dict_fresh (h : heap) (d : pydict) :
  h !! (new_dict h d).2 = None.
Proof. unfold new_dict; simpl. apply not_elem_of_dom, is_fresh. Qed.

Lemma deref_setitem_eq (h : heap) (l : loc) (k : string) (v : pyobj) :
  deref (dict_setitem h l k v) l = <[k := v]> (deref h l).
Proof. unfold dict_setitem, deref at 1. by rewrite lookup_insert_eq. Qed.

(** [_prepare_driver_callable] writes the runtime into a copy: the wrapper
    holds a new dictionary, the arguments of the job with the key [runtime]
    set, and every other dictionary is as it was. *)
Lemma prepare_driver_callable_binds
    (self : PySparkJob.t) (runtime : pyobj) (w : world) (s : state) :
  is_Some (store s !! PySparkJob.driver_arguments self) →
  ∃ s' wrapper,
    _prepare_driver_callable self runtime w s = (s', Returned wrapper) ∧
    snapshot (store s') wrapper
      = {| wu_callable := PySparkJob.driver_callable self;
           wu_args := [];
           wu_kwargs := <["runtime" := runtime]>
                          (deref (store s) (PySparkJob.driver_arguments self));
           wu_envs := if truthy (Some (PySparkJob.env self))
                      then <["env" := PySparkJob.env self]> ∅ else ∅ |} ∧
    _PySparkDriverWrapper.kwargs wrapper ≠ PySparkJob.driver_arguments self ∧
    store s !! _PySparkDriverWrapper.kwargs wrapper = None ∧
    (∀ l, l ≠ _PySparkDriverWrapper.kwargs wrapper → store s' !! l = store s !! l).
Proof.
  intros Hlive.
  set (d := PySparkJob.driver_arguments self) in *.
  set (l := fresh (dom (store s))).
  assert (store s !! l = None) as Hfresh by apply (new_dict_fresh _ ∅).
  assert (l ≠ d) as Hne.
  { intros Heq. rewrite Heq in Hfresh. rewrite Hfresh in Hlive. by destruct Hlive. }
  set (h2 := dict_setitem (<[l := deref (store s) d]> (store s)) l "runtime" runtime).
  assert (deref h2 l = <["runtime" := runtime]> (deref (store s) d)) as Hkw.
  { unfold h2. rewrite deref_setitem_eq. f_equal.
    unfold deref at 1. by rewrite lookup_insert_eq. }
  assert (∀ l', l' ≠ l → h2 !! l' = store s !! l') as Hframe.
  { intros l' Hl'. unfold h2, dict_setitem. by rewrite !lookup_insert_ne. }
  assert (∃ events,
    _prepare_driver_callable self runtime w s =
      ({| trace := events; get_job_calls := get_job_calls s; store := h2 |},
       Returned {| _PySparkDriverWrapper.callable := PySparkJob.driver_callable self;
                   _PySparkDriverWrapper.args := [];
                   _PySparkDriverWrapper.kwargs := l;
                   _PySparkDriverWrapper.envs :=
                     if truthy (Some (PySparkJob.env self))
                     then <["env" := PySparkJob.env self]> ∅ else ∅ |})) as [events Hrun].
  { unfold _prepare_driver_callable, dict_copy, new_dict.
    destruct (PySparkJob.env self) as [|c r]; simpl.
    - by exists (trace s).
    - by eexists. }
  eexists _, _. split; [exact Hrun|]. unfold snapshot. simpl.
  split_and!; try done. by rewrite Hkw.
Qed.

(** ** The run id *)

Lemma append_cons (c : ascii) (a b : string) : String c a ++ b = String c (a ++ b).
Proof. reflexivity. Qed.

Lemma append_nil (b : string) : "" ++ b = b.
Proof. reflexivity. Qed.

Lemma append_assoc_s (a b c : string) : (a ++ b) ++ c = a ++ (b ++ c).
Proof.
  induction a as [|x a IH]; [done|].
  by rewrite !append_cons, IH.
Qed.

Lemma population_class (i : nat) :
  i < 36 → is_lower_alnum (default "000"%char (population !! i)) = true.
Proof.
  intros Hi.
  do 36 (destruct i as [|i]; [reflexivity|]). lia.
Qed.

Lemma population_NoDup : NoDup population.
Proof. apply (bool_decide_unpack _). vm_compute. exact I. Qed.

Lemma population_complete (c : ascii) :
  is_lower_alnum c = true ↔ c ∈ population.
Proof.
  split.
  - intros Hc.
    assert (∃ n, c = ascii_of_nat n ∧ n < 256) as (n & -> & Hn).
    { exists (nat_of_ascii c). split; [by rewrite ascii_nat_embedding|].
      apply nat_ascii_bounded. }
    unfold is_lower_alnum, is_lower_letter, is_digit in Hc.
    rewrite nat_ascii_embedding in Hc by done.
    assert ((97 ≤ n ≤ 122) ∨ (48 ≤ n ≤ 57))%nat as Hr.
    { apply orb_true_iff in Hc as [Hc|Hc]; apply andb_true_iff in Hc as [H1 H2];
        apply Nat.leb_le in H1, H2; lia. }
    clear Hc.
    do 48 (destruct n as [|n]; [lia|]).
    do 10 (destruct n as [|n]; [by apply (bool_decide_unpack _); vm_compute|]).
    do 39 (destruct n as [|n]; [lia|]).
    do 26 (destruct n as [|n]; [by apply (bool_decide_unpack _); vm_compute|]).
    lia.
  - intros Hc. apply list_elem_of_lookup in Hc as [i Hi].
    assert (i < 36) as Hlt by (apply lookup_lt_Some in Hi; exact Hi).
    pose proof (population_class i Hlt) as Hcl. by rewrite Hi in Hcl.
Qed.

Lemma append_assoc4 (a b c d r : string) :
  a ++ b ++ c ++ d ++ r = (a ++ b ++ c ++ d) ++ r.
Proof. by rewrite !append_assoc_s. Qed.

Lemma four_digits : (9999 = 9 + 10 * (9 + 10 * (9 + 10 * 9)))%nat.
Proof. reflexivity. Qed.

Lemma decimal_pad4 (n : nat) : (1000 ≤ n ≤ 9999)%nat → decimal n = pad4 n.
Proof.
  rewrite four_digits. intros Hn.
  assert (forallb (λ k, String.eqb (decimal (1000 + k)) (pad4 (1000 + k))) (seq 0 9000) = true)
    as Hall by (vm_compute; reflexivity).
  assert (9000 = 9 * 1000)%nat as Hlen by reflexivity.
  rewrite forallb_forall in Hall. specialize (Hall (n - 1000)%nat).
  replace (1000 + (n - 1000))%nat with n in Hall by lia.
  apply String.eqb_eq, Hall, in_seq. rewrite Hlen. lia.
Qed.

Lemma pad2_decimal (n : nat) :
  (n < 100)%nat → pad2 n = if (n <? 10)%nat then "0" ++ decimal n else decimal n.
Proof.
  intros Hn.
  assert (forallb (λ k, String.eqb (pad2 k)
                          (if (k <? 10)%nat then "0" ++ decimal k else decimal k))
            (seq 0 100) = true) as Hall by (vm_compute; reflexivity).
  rewrite forallb_forall in Hall.
  apply String.eqb_eq, Hall, in_seq. lia.
Qed.

Lemma strftime_padded (d : datetime) :
  valid_datetime d →
  strftime d = pad4 (year d) ++ "-" ++ pad2 (month d) ++ "-" ++ pad2 (day d) ++ "-" ++
               pad2 (hour d) ++ pad2 (minute d) ++ pad2 (second d).
Proof. intros (Hy & _). unfold strftime. by rewrite decimal_pad4. Qed.

Lemma strftime_shape (d : datetime) (rest : string) :
  valid_datetime d →
  (s ← take_class is_digit 4 (strftime d ++ "-" ++ rest); s ← take_dash s;
   s ← take_class is_digit 2 s; s ← take_dash s;
   s ← take_class is_digit 2 s; s ← take_dash s;
   s ← take_class is_digit 6 s; take_dash s) = Some rest.
Proof.
  intros Hd. rewrite strftime_padded by done. unfold pad4, pad2.
  repeat (rewrite ?append_cons, ?append_nil).
  cbn [take_class take_dash strip_prefix mbind option_bind].
  rewrite !is_digit_digit_char.
  cbn [take_class take_dash strip_prefix mbind option_bind Ascii.eqb Bool.eqb].
  rewrite !is_digit_digit_char.
  cbn [take_class take_dash strip_prefix mbind option_bind Ascii.eqb Bool.eqb].
  rewrite !is_digit_digit_char.
  cbn [take_class take_dash strip_prefix mbind option_bind Ascii.eqb Bool.eqb].
  rewrite !is_digit_digit_char.
  cbn [take_class take_dash strip_prefix mbind option_bind Ascii.eqb Bool.eqb].
  reflexivity.
Qed.

Lemma strftime_length (d : datetime) : valid_datetime d → String.length (strftime d) = 17%nat.
Proof.
  intros Hd. rewrite strftime_padded by done. unfold pad4, pad2.
  repeat (rewrite ?append_cons, ?append_nil). reflexivity.
Qed.

Lemma lower_length (s : string) : String.length (lower s) = String.length s.
Proof. induction s as [|c s IH]; [done|]. simpl. by rewrite IH. Qed.

Lemma lower_get (s : string) (i : nat) (c : ascii) :
  String.get i s = Some c →
  String.get i (lower s)
  = Some (if (65 <=? nat_of_ascii c)%nat && (nat_of_ascii c <=? 90)%nat
          then ascii_of_nat (nat_of_ascii c + 32) else c).
Proof.
  revert i. induction s as [|x s IH]; intros i; [by destruct i|].
  destruct i as [|i]; cbn [String.get lower].
  - by intros [= ->].
  - apply IH.
Qed.

Lemma population_unique (c : ascii) :
  is_lower_alnum c = true →
  ∃ i, (i < 36)%nat ∧ population !! i = Some c ∧ ∀ j, population !! j = Some c → j = i.
Proof.
  intros Hc. apply population_complete, list_elem_of_lookup in Hc as [i Hi].
  exists i. split_and!.
  - by apply lookup_lt_Some in Hi.
  - done.
  - intros j Hj. exact (NoDup_lookup _ _ _ _ population_NoDup Hj Hi).
Qed.

Lemma suffix_class (f : nat → nat) :
  (∀ i, f i < 36) →
  all_of is_lower_alnum 10
    (join_chars (random_choices (ascii_lowercase ++ digits) (map f (seq 0 10)))) = true.
Proof.
  intros Hf. unfold join_chars, random_choices.
  cbn [seq map string_of_list_ascii all_of].
  fold population.
  by rewrite !population_class.
Qed.

Lemma suffix_chars (f : nat → nat) (i : nat) :
  i < 10 →
  String.get i (join_chars (random_choices (ascii_lowercase ++ digits) (map f (seq 0 10))))
    = Some (default "000"%char (population !! f i)).
Proof.
  intros Hi. unfold join_chars, random_choices.
  cbn [seq map string_of_list_ascii]. fold population.
  do 10 (destruct i as [|i]; [reflexivity|]). lia.
Qed.

(** C6. For a constructed job whose id is ASCII text, a clock reading with
    a four-digit year and draws below 36, the run id is an id segment, the
    env of the job, a timestamp and a suffix, joined by dashes.  The id
    segment is the id with each capital letter [A] to [Z] replaced by its
    small letter and every other character kept.  The timestamp is the year
    in decimal, a dash, month and day in two digits with a dash between, a
    dash, and hour, minute and second in two digits each: 17 characters.  The
    suffix is ten characters, the [i]-th picked from the text of the 26
    small letters and the ten digits by the [i]-th draw.  The 36 characters
    are distinct and are the class of small letters and digits, and each is
    picked by exactly one of the 36 indices, so that draws that are uniform
    on the indices are uniform on the characters.  The run id matches the
    pattern of the specification.  With id [demo], env [dev], the clock at
    2024-01-01 12:00:00 and the draws that spell [abc1234567] the run id is
    [demo-dev-2024-01-01-120000-abc1234567], and with id [Demo_JOB-7] it is
    [demo_job-7-dev-2024-01-01-120000-abc1234567]. *)
Theorem internal_jobid_format :
  (∀ (p : process) (h : heap) (a : init_args) (runtime : pyobj) (w : world) (s : state),
     ascii_text (a_id a) = true →
     valid_datetime (w_now w) →
     (∀ i, w_random w 36 i < 36) →
     let job := (__init__ p h a).2 in
     let dec n := DecimalString.NilZero.string_of_uint (Nat.to_uint n) in
     let two n := if (n <? 10)%nat then "0" ++ dec n else dec n in
     ∃ s' id_segment timestamp suffix,
       _generate_internal_jobid job runtime w s
         = (s', Returned (id_segment ++ "-" ++ PySparkJob.env job ++ "-"
                          ++ timestamp ++ "-" ++ suffix)) ∧
       String.length id_segment = String.length (a_id a) ∧
       (∀ i c, String.get i (a_id a) = Some c →
          String.get i id_segment
          = Some (if (65 <=? nat_of_ascii c)%nat && (nat_of_ascii c <=? 90)%nat
                  then ascii_of_nat (nat_of_ascii c + 32) else c)) ∧
       timestamp = dec (year (w_now w)) ++ "-" ++ two (month (w_now w)) ++ "-"
                   ++ two (day (w_now w)) ++ "-" ++ two (hour (w_now w))
                   ++ two (minute (w_now w)) ++ two (second (w_now w)) ∧
       String.length timestamp = 17%nat ∧
       all_of is_lower_alnum 10 suffix = true ∧
       (∀ i, i < 10 →
          String.get i suffix = Some (default "000"%char (population !! w_random w 36 i))) ∧
       matches_run_id id_segment (PySparkJob.env job)
         (id_segment ++ "-" ++ PySparkJob.env job ++ "-" ++ timestamp ++ "-" ++ suffix)
         = true) ∧
  population = list_ascii_of_string "abcdefghijklmnopqrstuvwxyz0123456789" ∧
  length population = 36 ∧ NoDup population ∧
  (∀ c, c ∈ population ↔ is_lower_alnum c = true) ∧
  (∀ c, is_lower_alnum c = true →
        ∃ i, (i < 36)%nat ∧ population !! i = Some c ∧
             ∀ j, population !! j = Some c → j = i) ∧
  (∀ s, (_generate_internal_jobid demo_job PyNone demo_world s).2
        = Returned "demo-dev-2024-01-01-120000-abc1234567") ∧
  (∀ s, (_generate_internal_jobid demo_job_capitals PyNone demo_world s).2
        = Returned "demo_job-7-dev-2024-01-01-120000-abc1234567").
Proof.
  split_and!.
  - intros p h a runtime w s _ Hnow Hdraws job dec two.
    pose proof (init_env_nonempty p h a) as Hne.
    destruct (init_fields p h a) as [Hid Henv]. fold job in Hne, Hid.
    exists (extend s [Log LogInfo "Internal job is %r"]), (lower (a_id a)),
      (strftime (w_now w)),
      (join_chars (random_choices (ascii_lowercase ++ digits)
                     (map (w_random w 36) (seq 0 10)))).
    split_and!.
    + unfold _generate_internal_jobid, jobid_text.
      rewrite Hid, (py_or_str_some _ Hne). reflexivity.
    + apply lower_length.
    + apply lower_get.
    + destruct Hnow as (_ & Hm & Hd & Hh & Hmin & Hs). unfold strftime.
      rewrite !pad2_decimal by lia. reflexivity.
    + by apply strftime_length.
    + by apply suffix_class.
    + intros i Hi. by apply suffix_chars.
    + unfold matches_run_id.
      rewrite (append_assoc4 (lower (a_id a)) "-" (PySparkJob.env job) "-").
      rewrite strip_prefix_app. unfold matches_tail.
      rewrite strftime_shape by done. by apply suffix_class.
  - reflexivity.
  - reflexivity.
  - exact population_NoDup.
  - intros c. symmetry. apply population_complete.
  - apply population_unique.
  - intros s. reflexivity.
  - intros s. reflexivity.
Qed.

Lemma internal_jobid_format_witness :
  ∃ s' id_segment timestamp suffix,
    _generate_internal_jobid demo_job_capitals PyNone demo_world (initial_state demo_heap)
      = (s', Returned (id_segment ++ "-" ++ "dev" ++ "-" ++ timestamp ++ "-" ++ suffix)) ∧
    String.get 0 id_segment = Some "d"%char ∧
    String.length timestamp = 17%nat ∧
    all_of is_lower_alnum 10 suffix = true.
Proof.
  destruct (proj1 internal_jobid_format demo_process ∅
              {| a_id := "Demo_JOB-7";
                 a_driver_callable := a_driver_callable demo_args;
                 a_bucket_id := a_bucket_id demo_args;
                 a_gcp_project_id := a_gcp_project_id demo_args;
                 a_gcp_region := a_gcp_region demo_args;
                 a_driver_arguments := a_driver_arguments demo_args;
                 a_pip_packages := a_pip_packages demo_args;
                 a_jar_file_uris := a_jar_file_uris demo_args;
                 a_worker_num_instances := a_worker_num_instances demo_args;
                 a_worker_machine_type := a_worker_machine_type demo_args;
                 a_env := a_env demo_args;
                 a_setup_file := a_setup_file demo_args |}
              PyNone demo_world (initial_state demo_heap))
    as (s' & id_segment & timestamp & suffix & Hrun & _ & Hget & _ & Hlen & Hcls & _).
  - reflexivity.
  - vm_compute. repeat split; lia.
  - intros i. simpl. do 10 (destruct i as [|i]; [vm_compute; lia|]).
    destruct i; vm_compute; lia.
  - exists s', id_segment, timestamp, suffix.
    split_and!; [exact Hrun | exact (Hget 0%nat "D"%char eq_refl) | exact Hlen | exact Hcls].
Defined.

(** ** The job watcher *)

Section Watcher.
Context (project_id region job_id : string) (w : world).

Lemma loop_keeps_polling (fuel : nat) (s : state) :
  (∀ i, i < fuel → keeps_polling (w_get_job w (get_job_calls s + i) job_id) = true) →
  _wait_for_job_to_finish_loop fuel project_id region job_id w s
    = ({| trace := trace s ++ polls fuel project_id region job_id;
          get_job_calls := get_job_calls s + fuel;
          store := store s |}, StillRunning).
Proof.
  revert s. induction fuel as [|fuel IH]; intros s Hpoll.
  - simpl. rewrite app_nil_r, Nat.add_0_r. by destruct s.
  - pose proof (Hpoll 0 ltac:(lia)) as H0. rewrite Nat.add_0_r in H0.
    cbn [_wait_for_job_to_finish_loop]. unfold mbind, M_bind, bind, get_job.
    destruct (w_get_job w (get_job_calls s) job_id) as [e|job]; [done|].
    simpl in H0.
    assert (_wait_for_job_to_finish_loop fuel project_id region job_id w
              {| trace := (trace s ++ [GetJob project_id region job_id]) ++ [Sleep 5];
                 get_job_calls := S (get_job_calls s);
                 store := store s |}
            = ({| trace := trace s ++ polls (S fuel) project_id region job_id;
                  get_job_calls := get_job_calls s + S fuel;
                  store := store s |}, StillRunning)) as Hrest.
    { rewrite IH; simpl.
      - rewrite <- !app_assoc. simpl. do 2 f_equal. f_equal. lia.
      - intros i Hi. replace (S (get_job_calls s + i)) with (get_job_calls s + S i) by lia.
        apply Hpoll. lia. }
    destruct (status_state job); simpl in H0; try done; exact Hrest.
Qed.

Lemma loop_leaves (n fuel : nat) (s : state) :
  n < fuel →
  (∀ i, i < n → keeps_polling (w_get_job w (get_job_calls s + i) job_id) = true) →
  keeps_polling (w_get_job w (get_job_calls s + n) job_id) = false →
  _wait_for_job_to_finish_loop fuel project_id region job_id w s
    = ({| trace := trace s ++ polls n project_id region job_id
                   ++ GetJob project_id region job_id
                   :: (leaves (w_get_job w (get_job_calls s + n) job_id)).1;
          get_job_calls := get_job_calls s + S n;
          store := store s |},
       (leaves (w_get_job w (get_job_calls s + n) job_id)).2).
Proof.
  revert fuel s. induction n as [|n IH]; intros fuel s Hfuel Hpoll Hstop.
  - destruct fuel as [|fuel]; [lia|]. rewrite Nat.add_0_r in *.
    cbn [_wait_for_job_to_finish_loop polls]. unfold mbind, M_bind, bind, get_job.
    rewrite Nat.add_1_r.
    destruct (w_get_job w (get_job_calls s) job_id) as [e|job]; [done|].
    simpl in Hstop. unfold leaves.
    destruct (status_state job); simpl in Hstop; try done; simpl;
      by rewrite <- app_assoc.
  - destruct fuel as [|fuel]; [lia|].
    pose proof (Hpoll 0 ltac:(lia)) as H0. rewrite Nat.add_0_r in H0.
    cbn [_wait_for_job_to_finish_loop polls]. unfold mbind, M_bind, bind, get_job.
    destruct (w_get_job w (get_job_calls s) job_id) as [e|job]; [done|].
    simpl in H0.
    assert (_wait_for_job_to_finish_loop fuel project_id region job_id w
              {| trace := (trace s ++ [GetJob project_id region job_id]) ++ [Sleep 5];
                 get_job_calls := S (get_job_calls s);
                 store := store s |}
            = ({| trace := trace s ++ GetJob project_id region job_id :: Sleep 5
                           :: polls n project_id region job_id
                           ++ GetJob project_id region job_id
                           :: (leaves (w_get_job w (get_job_calls s + S n) job_id)).1;
                  get_job_calls := get_job_calls s + S (S n);
                  store := store s |},
               (leaves (w_get_job w (get_job_calls s + S n) job_id)).2)) as Hrest.
    { rewrite (IH fuel); simpl.
      - replace (S (get_job_calls s + n)) with (get_job_calls s + S n) by lia.
        rewrite <- !app_assoc. simpl. do 2 f_equal. lia.
      - lia.
      - intros i Hi. replace (S (get_job_calls s + i)) with (get_job_calls s + S i) by lia.
        apply Hpoll. lia.
      - replace (S (get_job_calls s + n)) with (get_job_calls s + S n) by lia. done. }
    destruct (status_state job); simpl in H0; try done; exact Hrest.
Qed.

End Watcher.

Lemma append_nil_r (s : string) : s ++ "" = s.
Proof. induction s as [|c s IH]; [done|]. by rewrite append_cons, IH. Qed.

Lemma contains_refl (s : string) : contains s s = true.
Proof.
  assert (strip_prefix s s = Some "") as H.
  { rewrite <- (append_nil_r s) at 2. apply strip_prefix_app. }
  destruct s; simpl; [done|]. simpl in H. by rewrite H.
Qed.

(** Among the first [fuel] answers either all keep the watcher polling or
    there is a first one that stops it. *)
Lemma first_stop (answers : nat → exn + Job) (fuel : nat) :
  (∀ i, i < fuel → keeps_polling (answers i) = true) ∨
  (∃ n, n < fuel ∧ (∀ i, i < n → keeps_polling (answers i) = true) ∧
        keeps_polling (answers n) = false).
Proof.
  induction fuel as [|fuel [IH|(n & Hn & Hbefore & Hstop)]].
  - left. intros i Hi. lia.
  - destruct (keeps_polling (answers fuel)) eqn:E.
    + left. intros i Hi. destruct (decide (i = fuel)) as [->|]; [done|]. apply IH. lia.
    + right. exists fuel. split_and!; [lia|done..].
  - right. exists n. split_and!; [lia|done..].
Qed.

Lemma wait_unfold (fuel : nat) (project_id region job_id : string) (w : world) (s : state) :
  _wait_for_job_to_finish fuel project_id region job_id w s
    = _wait_for_job_to_finish_loop fuel project_id region job_id w
        {| trace := trace s ++ [Log LogInfo "Waiting for job to finish..."];
           get_job_calls := get_job_calls s;
           store := store s |}.
Proof. reflexivity. Qed.

(** C3. Whatever the statuses polled before it, when the first terminal
    status is DONE the watcher returns (the job), and it returns only then;
    when it is ERROR the watcher raises an exception whose message is the
    detail text of the status, so it contains it; when it is CANCELLED the
    watcher raises the exception with the message [Job was CANCELLED]. *)
Theorem watcher_outcome
    (project_id region job_id : string) (w : world) (s : state) (n : nat) (job : Job) :
  (∀ i, i < n → keeps_polling (w_get_job w (get_job_calls s + i) job_id) = true) →
  w_get_job w (get_job_calls s + n) job_id = inr job →
  terminal (status_state job) = true →
  ∀ fuel, n < fuel →
    let r := (_wait_for_job_to_finish fuel project_id region job_id w s).2 in
    ((∃ j, r = Returned j) ↔ status_state job = State.DONE) ∧
    (status_state job = State.DONE → r = Returned job) ∧
    (status_state job = State.ERROR →
       r = Raised (Exception (status_details job) None) ∧
       contains (status_details job) (exn_msg (Exception (status_details job) None)) = true) ∧
    (status_state job = State.CANCELLED →
       r = Raised (Exception "Job was CANCELLED" None)).
Proof.
  intros Hbefore Hjob Hterm fuel Hfuel r.
  assert (r = (leaves (inr job)).2) as Hr.
  { unfold r. rewrite wait_unfold.
    rewrite (loop_leaves project_id region job_id w n fuel); simpl; try done.
    - by rewrite Hjob.
    - rewrite Hjob. simpl. by rewrite Hterm. }
  rewrite Hr. unfold leaves.
  destruct (status_state job) eqn:E; try done; simpl; split_and!; try done.
  - split; [by intros [j Hj]|done].
  - split; [done|]. eauto.
  - split; [by intros [j Hj]|done].
  - intros _. split; [done|]. apply contains_refl.
Qed.

Lemma watcher_outcome_witness :
  (_wait_for_job_to_finish 3 "gcp" "europe-west1" "job-1"
     (with_get_job (demo_get_job State.ERROR "boom") demo_world)
     (initial_state demo_heap)).2
  = Raised (Exception "boom" None)
  ∧ contains "boom" (exn_msg (Exception "boom" None)) = true.
Proof.
  refine (proj1 (proj2 (proj2
    (watcher_outcome "gcp" "europe-west1" "job-1" _ (initial_state demo_heap) 2
       {| status_state := State.ERROR; status_details := "boom";
          driver_output_resource_uri := "gs://out/log" |} _ _ _ 3 _))) _).
  - intros i Hi. destruct i as [|[|i]]; [reflexivity | reflexivity | simpl in Hi; lia].
  - reflexivity.
  - reflexivity.
  - lia.
  - reflexivity.
Defined.

Lemma polls_sleeps (n : nat) (project_id region job_id : string) :
  List.filter is_sleep (polls n project_id region job_id) = repeat (Sleep 5) n.
Proof. induction n as [|n IH]; [done|]. simpl. by rewrite IH. Qed.

Lemma leaves_stops (answer : exn + Job) : (leaves answer).2 ≠ StillRunning.
Proof. destruct answer as [e|job]; [done|]. unfold leaves. by destruct (status_state job). Qed.

(** C4, as stated, fails: the watcher also stops when a status request
    raises.  Here the first request reports RUNNING and the second raises;
    the watcher comes back, raising that exception, and no request was ever
    answered by a terminal status. *)
Lemma watcher_stops_without_terminal_status :
  (_wait_for_job_to_finish 5 "gcp" "europe-west1" "job-1" world_status_fails
     (initial_state demo_heap)).2 = Raised status_unavailable ∧
  (_wait_for_job_to_finish 5 "gcp" "europe-west1" "job-1" world_status_fails
     (initial_state demo_heap)).2 ≠ StillRunning ∧
  (∀ n job, w_get_job world_status_fails n "job-1" = inr job →
            terminal (status_state job) = false).
Proof.
  split_and!; [reflexivity | discriminate |].
  intros [|n] job; [|discriminate]. by intros [= <-].
Qed.

(** C4, amended. The watcher asks for the status, sleeps 5 and asks again,
    for as long as the request is answered by a status that is not terminal:
    after [n] such turns it has made [n] requests, slept [n] times 5, and is
    still running, for every [n]; there is no backoff and no cap.  Given
    enough fuel it comes back if and only if some status request is answered
    by a terminal status or raises; when every request is answered by a
    status that is not terminal, no amount of fuel brings it back. *)
Theorem watcher_polls_until_stopped
    (project_id region job_id : string) (w : world) (s : state) :
  let watch fuel := _wait_for_job_to_finish fuel project_id region job_id w s in
  (∀ n, (∀ i, i < n → keeps_polling (w_get_job w (get_job_calls s + i) job_id) = true) →
        watch n = ({| trace := trace s ++ Log LogInfo "Waiting for job to finish..."
                               :: polls n project_id region job_id;
                      get_job_calls := get_job_calls s + n;
                      store := store s |}, StillRunning) ∧
        List.filter is_sleep (polls n project_id region job_id) = repeat (Sleep 5) n) ∧
  ((∃ fuel, (watch fuel).2 ≠ StillRunning) ↔
   (∃ n, (∃ job, w_get_job w (get_job_calls s + n) job_id = inr job ∧
                 terminal (status_state job) = true) ∨
         (∃ e, w_get_job w (get_job_calls s + n) job_id = inl e))) ∧
  ((∀ i, ∃ job, w_get_job w (get_job_calls s + i) job_id = inr job ∧
                terminal (status_state job) = false) →
   ∀ fuel, (watch fuel).2 = StillRunning ∧ get_job_calls (watch fuel).1 = get_job_calls s + fuel).
Proof.
  intros watch.
  assert (∀ n, (∀ i, i < n → keeps_polling (w_get_job w (get_job_calls s + i) job_id) = true) →
            watch n = ({| trace := trace s ++ Log LogInfo "Waiting for job to finish..."
                                   :: polls n project_id region job_id;
                          get_job_calls := get_job_calls s + n;
                          store := store s |}, StillRunning)) as Hrunning.
  { intros n Hn. unfold watch. rewrite wait_unfold.
    rewrite loop_keeps_polling; simpl; [|done].
    by rewrite <- app_assoc. }
  assert (∀ n, keeps_polling (w_get_job w (get_job_calls s + n) job_id) = false ↔
               (∃ job, w_get_job w (get_job_calls s + n) job_id = inr job ∧
                       terminal (status_state job) = true) ∨
               (∃ e, w_get_job w (get_job_calls s + n) job_id = inl e)) as Hstops.
  { intros n. destruct (w_get_job w (get_job_calls s + n) job_id) as [e|job]; simpl.
    - split; [eauto|done].
    - rewrite negb_false_iff. split.
      + intros Hterm. left. by exists job.
      + by intros [(job' & [= <-] & Hterm) | [e He]]. }
  split_and!.
  - intros n Hn. split; [by apply Hrunning | apply polls_sleeps].
  - split.
    + intros [fuel Hfuel].
      destruct (first_stop (λ i, w_get_job w (get_job_calls s + i) job_id) fuel)
        as [Hall|(n & Hn & Hbefore & Hstop)].
      * rewrite (Hrunning fuel Hall) in Hfuel. done.
      * exists n. by apply Hstops.
    + intros (n & Hstop%Hstops).
      destruct (first_stop (λ i, w_get_job w (get_job_calls s + i) job_id) (S n))
        as [Hall|(m & Hm & Hbefore & Hstop')].
      * specialize (Hall n ltac:(lia)). congruence.
      * exists (S m). unfold watch. rewrite wait_unfold.
        rewrite (loop_leaves project_id region job_id w m (S m)); simpl; try done; [|lia].
        apply leaves_stops.
  - intros Hnever fuel.
    rewrite Hrunning; [done|].
    intros i _. destruct (Hnever i) as (job & -> & Hterm). simpl. by rewrite Hterm.
Qed.

Lemma watcher_polls_until_stopped_witness :
  _wait_for_job_to_finish 2 "gcp" "europe-west1" "job-1" demo_world (initial_state demo_heap)
  = ({| trace := [Log LogInfo "Waiting for job to finish...";
                  GetJob "gcp" "europe-west1" "job-1"; Sleep 5;
                  GetJob "gcp" "europe-west1" "job-1"; Sleep 5];
        get_job_calls := 2;
        store := demo_heap |}, StillRunning) ∧
  ∃ fuel, (_wait_for_job_to_finish fuel "gcp" "europe-west1" "job-1" world_status_fails
             (initial_state demo_heap)).2 ≠ StillRunning.
Proof.
  split.
  - refine (proj1 (proj1
      (watcher_polls_until_stopped "gcp" "europe-west1" "job-1" demo_world
         (initial_state demo_heap)) 2 _)).
    intros i Hi. destruct i as [|[|i]]; [reflexivity | reflexivity | lia].
  - apply (proj2 (proj1 (proj2
      (watcher_polls_until_stopped "gcp" "europe-west1" "job-1" world_status_fails
         (initial_state demo_heap))))).
    exists 1. right. by exists status_unavailable.
Defined.

(** ** Composing steps *)

Local Open Scope list_scope.

Section Preserves.
Context {X : Type} (f : state → X).

Lemma preserves_ret {A} (a : A) : preserves f (mret a).
Proof. by intros w s. Qed.

Lemma preserves_raise {A} (e : exn) : preserves f (raise e : M A).
Proof. by intros w s. Qed.

Lemma preserves_ask : preserves f ask.
Proof. by intros w s. Qed.

Lemma preserves_get_state : preserves f get_state.
Proof. by intros w s. Qed.

Lemma preserves_bind {A B} (m : M A) (k : A → M B) :
  preserves f m → (∀ a, preserves f (k a)) → preserves f (m ≫= k).
Proof.
  intros Hm Hk w s. unfold mbind, M_bind, bind.
  specialize (Hm w s). destruct (m w s) as [s1 [a|e|]]; simpl in *; try done.
  by rewrite Hk.
Qed.

Lemma preserves_attempt {A} (m : M A) : preserves f m → preserves f (attempt m).
Proof.
  intros Hm w s. unfold attempt. specialize (Hm w s).
  by destruct (m w s) as [s1 [a|e|]].
Qed.

Lemma preserves_try_finally {A} (m : M A) (c : M unit) :
  preserves f m → preserves f c → preserves f (try_finally m c).
Proof.
  intros Hm Hc w s. unfold try_finally. specialize (Hm w s).
  destruct (m w s) as [s1 [a|e|]]; simpl in *; try done;
    specialize (Hc w s1); destruct (c w s1) as [s2 [[]|e2|]]; simpl in *; congruence.
Qed.

Lemma preserves_emit (e : event) :
  (∀ s, f {| trace := trace s ++ [e]; get_job_calls := get_job_calls s; store := store s |}
        = f s) →
  preserves f (emit e).
Proof. intros He w s. apply He. Qed.

Lemma preserves_put_store (h : heap) :
  (∀ s, f {| trace := trace s; get_job_calls := get_job_calls s; store := h |} = f s) →
  preserves f (put_store h).
Proof. intros Hh w s. apply Hh. Qed.

End Preserves.

Lemma lifecycle_emit (e : event) (s : state) :
  is_lifecycle e = false →
  cluster_view {| trace := trace s ++ [e]; get_job_calls := get_job_calls s; store := store s |}
    = cluster_view s.
Proof.
  intros He. unfold cluster_view, lifecycle. simpl.
  by rewrite List.filter_app; simpl; rewrite He, app_nil_r.
Qed.

Lemma lifecycle_only_emit (e : event) (s : state) :
  is_lifecycle e = false →
  lifecycle {| trace := trace s ++ [e]; get_job_calls := get_job_calls s; store := store s |}
    = lifecycle s.
Proof. intros He. by injection (lifecycle_emit e s He). Qed.

Lemma writes_emit (e : event) (s : state) :
  is_remote_write e = false →
  remote_writes {| trace := trace s ++ [e]; get_job_calls := get_job_calls s;
                   store := store s |}
    = remote_writes s.
Proof.
  intros He. unfold remote_writes. simpl.
  by rewrite List.filter_app; simpl; rewrite He, app_nil_r.
Qed.

Lemma submitted_emit (e : event) (s : state) :
  is_submit e = false →
  submitted {| trace := trace s ++ [e]; get_job_calls := get_job_calls s;
               store := store s |}
    = submitted s.
Proof.
  intros He. unfold submitted. simpl.
  by rewrite List.filter_app; simpl; rewrite He, app_nil_r.
Qed.

(** Walks through a computation that is built from steps the view ignores. *)
Lemma uploads_emit (e : event) (s : state) :
  is_driver_upload e = false →
  driver_uploads {| trace := trace s ++ [e]; get_job_calls := get_job_calls s;
                    store := store s |}
    = driver_uploads s.
Proof.
  intros He. unfold driver_uploads. simpl. rewrite List.filter_app. simpl.
  by rewrite He, app_nil_r.
Qed.

Lemma ship_emit (e : event) (s : state) :
  is_driver_upload e = false →
  ship_view {| trace := trace s ++ [e]; get_job_calls := get_job_calls s; store := store s |}
    = ship_view s.
Proof. intros He. unfold ship_view. by rewrite uploads_emit. Qed.

Ltac preserves_step :=
  match goal with
  | |- preserves _ (_ ≫= _) => apply preserves_bind; [|intros ?]
  | |- preserves _ (mret _) => apply preserves_ret
  | |- preserves _ (raise _) => apply preserves_raise
  | |- preserves _ ask => apply preserves_ask
  | |- preserves _ get_state => apply preserves_get_state
  | |- preserves _ (emit _) =>
      apply preserves_emit; intros ?;
      first [apply lifecycle_emit | apply lifecycle_only_emit | apply writes_emit
            | apply submitted_emit | apply uploads_emit | apply ship_emit];
      reflexivity
  | |- preserves _ (put_store _) => apply preserves_put_store; intros ?; reflexivity
  | |- preserves _ (logger _ _) => unfold logger
  | |- preserves _ (print _) => unfold print
  | |- preserves _ (call_unit _ _) => unfold call_unit
  | |- preserves _ (call _ _) => unfold call
  | |- preserves _ (match ?x with _ => _ end) => destruct x
  | |- preserves _ (let '(_, _) := ?x in _) => destruct x
  end.

Ltac preserves_tac := repeat preserves_step.

Lemma preserves_ensure_has_setup_file (self : PySparkJob.t) :
  preserves cluster_view (_ensure_has_setup_file self).
Proof. unfold _ensure_has_setup_file. preserves_tac. Qed.

Lemma preserves_generate_internal_jobid (self : PySparkJob.t) (runtime : pyobj) :
  preserves cluster_view (_generate_internal_jobid self runtime).
Proof. unfold _generate_internal_jobid. preserves_tac. Qed.

Lemma preserves_prepare_driver_callable (self : PySparkJob.t) (runtime : pyobj) :
  preserves cluster_view (_prepare_driver_callable self runtime).
Proof. unfold _prepare_driver_callable. preserves_tac. Qed.

Lemma preserves_build_project_egg (setup_file : option string) :
  preserves cluster_view (_build_project_egg setup_file).
Proof. unfold _build_project_egg. preserves_tac. Qed.

Lemma preserves_upload_egg (egg_local_path bucket job_internal_id : string) :
  preserves cluster_view (_upload_egg egg_local_path bucket job_internal_id).
Proof. unfold _upload_egg. preserves_tac. Qed.

Lemma preserves_generate_and_upload_driver (callable : _PySparkDriverWrapper.t)
    (bucket driver_path : string) :
  preserves cluster_view (generate_and_upload_driver callable bucket driver_path).
Proof. unfold generate_and_upload_driver, generate_driver_script. preserves_tac. Qed.

Lemma preserves_before_with (self : PySparkJob.t) (runtime : pyobj) :
  preserves cluster_view (before_with self runtime).
Proof.
  unfold before_with.
  repeat first
    [ apply preserves_ensure_has_setup_file
    | apply preserves_generate_internal_jobid
    | apply preserves_prepare_driver_callable
    | apply preserves_build_project_egg
    | apply preserves_upload_egg
    | apply preserves_generate_and_upload_driver
    | preserves_step ].
Qed.

Lemma run_unfold (fuel : nat) (self : PySparkJob.t) (runtime : pyobj) (w : world) (s : state) :
  run fuel self runtime w s
  = ('(self', job_internal_id, driver_path, egg_path) ← before_with self runtime;
     _with_temp_cluster self' job_internal_id (with_block fuel self' driver_path egg_path);;
     logger LogInfo "Job %r was finished") w s.
Proof.
  unfold run, before_with.
  unfold mbind, M_bind, bind.
  repeat (match goal with
          | |- context [match ?m w ?s0 with _ => _ end] =>
              lazymatch m with
              | context [match _ with _ => _ end] => fail
              | _ => destruct (m w s0) as [? [?|?|]]
              end
          end; try reflexivity).
Qed.

(** ** The cluster scope *)

Lemma extend_extend (s : state) (l1 l2 : list event) :
  extend (extend s l1) l2 = extend s (l1 ++ l2).
Proof. unfold extend. simpl. by rewrite app_assoc. Qed.

Lemma emit_extend (e : event) (w : world) (s : state) :
  emit e w s = (extend s [e], Returned tt).
Proof. reflexivity. Qed.

Lemma teardown_run (self : PySparkJob.t) (cluster_name : string) (w : world) (s : state) :
  teardown self cluster_name w s
  = (torn_down self cluster_name w s,
     match w_delete_cluster w cluster_name with
     | None => Returned tt
     | Some e => Raised e
     end).
Proof.
  unfold teardown, _delete_cluster, logger, print, call_unit, mbind, M_bind, bind, ask,
    emit, torn_down, delete_events, extend.
  simpl. destruct (w_delete_cluster w cluster_name); simpl;
    rewrite <- ?app_assoc; reflexivity.
Qed.

Lemma create_run (self : PySparkJob.t) (cluster_name : string) (w : world) (s : state) :
  attempt
    (logger LogDebug "Create temp cluster %r";;
     _create_cluster (PySparkJob.gcp_project_id self) (PySparkJob.gcp_region self)
       cluster_name (PySparkJob.pip_packages self)
       (PySparkJob.worker_num_instances self) (PySparkJob.worker_machine_type self)) w s
  = (extend s (creation_events self cluster_name w),
     Returned match creation_failure self cluster_name w with
              | None => inr cluster_name
              | Some e => inl e
              end).
Proof.
  unfold attempt, _create_cluster, logger, print, call_unit, mbind, M_bind, bind, ask,
    emit, creation_events, creation_failure, extend.
  simpl. fold (cluster_spec self cluster_name).
  destruct (w_create_cluster w (cluster_spec self cluster_name)); simpl;
    [|destruct (w_cluster_future_result w (cluster_spec self cluster_name)); simpl];
    rewrite <- ?app_assoc; reflexivity.
Qed.

Lemma creation_events_lifecycle (self : PySparkJob.t) (cluster_name : string) (w : world) :
  List.filter is_lifecycle (creation_events self cluster_name w)
  = [CreateCluster (PySparkJob.gcp_project_id self) (PySparkJob.gcp_region self)
       (cluster_spec self cluster_name)].
Proof.
  unfold creation_events.
  destruct (w_create_cluster w _); [done|]. by destruct (w_cluster_future_result w _).
Qed.

Lemma bind_run {A B} (m : M A) (k : A → M B) (w : world) (s : state) :
  (m ≫= k) w s
  = match m w s with
    | (s', Returned a) => k a w s'
    | (s', Raised e) => (s', Raised e)
    | (s', StillRunning) => (s', StillRunning)
    end.
Proof. reflexivity. Qed.

Lemma call_unit_run (e : event) (answer : world → option exn) (w : world) (s : state) :
  call_unit e answer w s
  = (extend s [e], match answer w with None => Returned tt | Some x => Raised x end).
Proof.
  unfold call_unit, mbind, M_bind, bind, emit, ask, extend. simpl.
  by destruct (answer w).
Qed.

Lemma call_run {A} (e : event) (answer : world → exn + A) (w : world) (s : state) :
  call e answer w s
  = (extend s [e], match answer w with inr a => Returned a | inl x => Raised x end).
Proof.
  unfold call, mbind, M_bind, bind, emit, ask, extend. simpl.
  by destruct (answer w).
Qed.

Lemma with_temp_cluster_steps {A} (self : PySparkJob.t) (cluster_name : string)
    (body : string → M A) (w : world) (s : state) :
  _with_temp_cluster self cluster_name body w s = scope_steps self cluster_name body w s.
Proof.
  unfold _with_temp_cluster, scope_steps.
  rewrite bind_run, call_unit_run.
  destruct (w_cluster_client w) as [e|]; [reflexivity|].
  rewrite bind_run, create_run.
  destruct (creation_failure self cluster_name w) as [e|].
  - unfold try_finally, raise.
    change (logger LogDebug "Delete temp cluster %r" ≫= _) with (teardown self cluster_name).
    rewrite teardown_run. unfold after_finally, pending.
    by destruct (w_delete_cluster w cluster_name).
  - unfold try_finally.
    destruct (body cluster_name w _) as [s2 [a|e|]]; [| |reflexivity];
      change (logger LogDebug "Delete temp cluster %r" ≫= _) with (teardown self cluster_name);
      rewrite teardown_run; unfold after_finally, pending;
      by destruct (w_delete_cluster w cluster_name) as [e2|].
Qed.

Lemma prepare_pyspark_properties_run (self : PySparkJob.t) (w : world) (s : state) :
  _prepare_pyspark_properties self w s
  = (extend s [Log LogDebug "Pyspark properties are %r"], Returned (pyspark_properties self)).
Proof. reflexivity. Qed.

Lemma submit_run (self : PySparkJob.t) (cluster_name driver_path egg_path : string)
    (w : world) (s : state) :
  _submit_single_pyspark_job (PySparkJob.gcp_project_id self) (PySparkJob.gcp_region self)
    cluster_name (PySparkJob.bucket_id self) driver_path egg_path
    (PySparkJob.jar_file_uris self) (pyspark_properties self) w s
  = match w_submit_job w (job_spec self cluster_name driver_path egg_path) with
    | inl e =>
        (extend s [Log LogDebug "Pyspark job %r";
                   SubmitJob (PySparkJob.gcp_project_id self) (PySparkJob.gcp_region self)
                     (job_spec self cluster_name driver_path egg_path)], Raised e)
    | inr job =>
        (extend s ([Log LogDebug "Pyspark job %r";
                    SubmitJob (PySparkJob.gcp_project_id self) (PySparkJob.gcp_region self)
                      (job_spec self cluster_name driver_path egg_path)]
                   ++ submitted_events self job), Returned job)
    end.
Proof.
  unfold _submit_single_pyspark_job, logger, print, call, mbind, M_bind, bind, emit, ask,
    submitted_events, extend.
  simpl. fold (job_spec self cluster_name driver_path egg_path).
  destruct (w_submit_job w (job_spec self cluster_name driver_path egg_path)); simpl;
    rewrite <- ?app_assoc; reflexivity.
Qed.

Lemma with_block_steps (fuel : nat) (self : PySparkJob.t)
    (driver_path egg_path cluster_name : string) (w : world) (s : state) :
  with_block fuel self driver_path egg_path cluster_name w s
  = block_steps fuel self driver_path egg_path cluster_name w s.
Proof.
  unfold with_block, block_steps.
  rewrite bind_run, prepare_pyspark_properties_run, bind_run, submit_run.
  destruct (w_submit_job w (job_spec self cluster_name driver_path egg_path)) as [e|job].
  - unfold submit_events. by rewrite extend_extend.
  - unfold submit_events. rewrite !extend_extend. simpl.
    rewrite bind_run. unfold try_finally.
    destruct (_wait_for_job_to_finish _ _ _ _ _ _) as [s2 [j|e|]]; [| |reflexivity];
      by destruct (_print_job_output_log _ _ _ _ _) as [s3 [[]|e2|]].
Qed.

Lemma lifecycle_extend (s : state) (events : list event) :
  lifecycle (extend s events) = lifecycle s ++ List.filter is_lifecycle events.
Proof. unfold lifecycle, extend. simpl. apply List.filter_app. Qed.

Lemma preserves_get_job (project_id region job_id : string) :
  preserves lifecycle (get_job project_id region job_id).
Proof.
  intros w s. unfold get_job.
  destruct (w_get_job w (get_job_calls s) job_id); simpl;
    unfold lifecycle; simpl; by rewrite List.filter_app, app_nil_r.
Qed.

Lemma preserves_wait (fuel : nat) (project_id region job_id : string) :
  preserves lifecycle (_wait_for_job_to_finish fuel project_id region job_id).
Proof.
  unfold _wait_for_job_to_finish. apply preserves_bind; [preserves_tac|intros _].
  induction fuel as [|fuel IH]; [by intros w s|].
  cbn [_wait_for_job_to_finish_loop].
  apply preserves_bind; [apply preserves_get_job|intros job].
  destruct (status_state job); unfold sleep;
    repeat first [exact IH | preserves_step].
Qed.

Lemma preserves_print_job_output_log (project_id region job_id : string) :
  preserves lifecycle (_print_job_output_log project_id region job_id).
Proof.
  unfold _print_job_output_log.
  apply preserves_bind; [apply preserves_get_job|intros job]. preserves_tac.
Qed.

Lemma preserves_with_block (fuel : nat) (self : PySparkJob.t)
    (driver_path egg_path cluster_name : string) :
  preserves lifecycle (with_block fuel self driver_path egg_path cluster_name).
Proof.
  unfold with_block, _prepare_pyspark_properties, _submit_single_pyspark_job.
  repeat first
    [ apply preserves_wait
    | apply preserves_print_job_output_log
    | apply preserves_try_finally
    | preserves_step ].
Qed.

Lemma lifecycle_torn_down (self : PySparkJob.t) (cluster_name : string) (w : world) (s : state) :
  lifecycle (torn_down self cluster_name w s)
  = lifecycle s ++ [DeleteCluster (PySparkJob.gcp_project_id self)
                      (PySparkJob.gcp_region self) cluster_name].
Proof.
  unfold torn_down. rewrite lifecycle_extend.
  by destruct (w_delete_cluster w cluster_name).
Qed.

(** The life of the cluster in one pass through the scope. *)
Lemma with_temp_cluster_lifecycle {A} (self : PySparkJob.t) (cluster_name : string)
    (body : string → M A) (w : world) (s : state) :
  (∀ cluster_name, preserves lifecycle (body cluster_name)) →
  ∃ L, lifecycle (_with_temp_cluster self cluster_name body w s).1 = lifecycle s ++ L ∧
    match (_with_temp_cluster self cluster_name body w s).2 with
    | StillRunning =>
        L = [CreateCluster (PySparkJob.gcp_project_id self) (PySparkJob.gcp_region self)
               (cluster_spec self cluster_name)]
    | _ =>
        L = [] ∨
        L = [CreateCluster (PySparkJob.gcp_project_id self) (PySparkJob.gcp_region self)
               (cluster_spec self cluster_name);
             DeleteCluster (PySparkJob.gcp_project_id self) (PySparkJob.gcp_region self)
               cluster_name]
    end.
Proof.
  intros Hbody. rewrite with_temp_cluster_steps. unfold scope_steps.
  destruct (w_cluster_client w) as [e|].
  { exists []. simpl. rewrite lifecycle_extend. simpl. by split; [|left]. }
  destruct (creation_failure self cluster_name w) as [e|].
  { eexists. cbn [fst snd].
    rewrite lifecycle_torn_down, !lifecycle_extend, creation_events_lifecycle.
    cbn [List.filter is_lifecycle]. rewrite app_nil_r, <- app_assoc.
    split; [reflexivity|].
    destruct (w_delete_cluster w cluster_name); simpl; by right. }
  match goal with |- context [body cluster_name w ?s1] =>
    pose proof (Hbody cluster_name w s1) as Hs2;
    destruct (body cluster_name w s1) as [s2 r2] end.
  cbn [fst] in Hs2. rewrite !lifecycle_extend, creation_events_lifecycle in Hs2.
  cbn [List.filter is_lifecycle] in Hs2. rewrite app_nil_r in Hs2.
  destruct r2 as [a|e|]; cbn [fst snd].
  - eexists. rewrite lifecycle_torn_down, Hs2, <- app_assoc. split; [reflexivity|].
    destruct (w_delete_cluster w cluster_name); simpl; by right.
  - eexists. rewrite lifecycle_torn_down, Hs2, <- app_assoc. split; [reflexivity|].
    destruct (w_delete_cluster w cluster_name); simpl; by right.
  - eexists. rewrite Hs2. split; reflexivity.
Qed.

(** ** Steps that always come back *)

Lemma comes_back_ret {A} (a : A) : comes_back (mret a).
Proof. by intros w s. Qed.

Lemma comes_back_raise {A} (e : exn) : comes_back (raise e : M A).
Proof. by intros w s. Qed.

Lemma comes_back_ask : comes_back ask.
Proof. by intros w s. Qed.

Lemma comes_back_get_state : comes_back get_state.
Proof. by intros w s. Qed.

Lemma comes_back_emit (e : event) : comes_back (emit e).
Proof. by intros w s. Qed.

Lemma comes_back_put_store (h : heap) : comes_back (put_store h).
Proof. by intros w s. Qed.

Lemma comes_back_bind {A B} (m : M A) (k : A → M B) :
  comes_back m → (∀ a, comes_back (k a)) → comes_back (m ≫= k).
Proof.
  intros Hm Hk w s. rewrite bind_run. specialize (Hm w s).
  destruct (m w s) as [s1 [a|e|]]; simpl in *; try done. apply Hk.
Qed.

Ltac comes_back_step :=
  match goal with
  | |- comes_back (_ ≫= _) => apply comes_back_bind; [|intros ?]
  | |- comes_back (mret _) => apply comes_back_ret
  | |- comes_back (raise _) => apply comes_back_raise
  | |- comes_back ask => apply comes_back_ask
  | |- comes_back get_state => apply comes_back_get_state
  | |- comes_back (emit _) => apply comes_back_emit
  | |- comes_back (put_store _) => apply comes_back_put_store
  | |- comes_back (logger _ _) => unfold logger
  | |- comes_back (print _) => unfold print
  | |- comes_back (call_unit _ _) => unfold call_unit
  | |- comes_back (call _ _) => unfold call
  | |- comes_back (match ?x with _ => _ end) => destruct x
  | |- comes_back (let '(_, _) := ?x in _) => destruct x
  end.

Lemma comes_back_before_with (self : PySparkJob.t) (runtime : pyobj) :
  comes_back (before_with self runtime).
Proof.
  unfold before_with, _ensure_has_setup_file, _generate_internal_jobid,
    _prepare_driver_callable, _build_project_egg, _upload_egg,
    generate_and_upload_driver, generate_driver_script.
  repeat comes_back_step.
Qed.

Lemma comes_back_print_job_output_log (project_id region job_id : string) :
  comes_back (_print_job_output_log project_id region job_id).
Proof.
  unfold _print_job_output_log. apply comes_back_bind.
  - intros w s. unfold get_job. by destruct (w_get_job w (get_job_calls s) job_id).
  - intros job. repeat comes_back_step.
Qed.


(** The watcher comes back once an answer stops it and the fuel reaches it. *)
Lemma wait_comes_back (project_id region job_id : string) (w : world) (s : state)
    (n fuel : nat) :
  keeps_polling (w_get_job w (get_job_calls s + n) job_id) = false →
  n < fuel →
  (_wait_for_job_to_finish fuel project_id region job_id w s).2 ≠ StillRunning.
Proof.
  intros Hstop Hfuel. rewrite wait_unfold.
  destruct (first_stop (λ i, w_get_job w (get_job_calls s + i) job_id) (S n))
    as [Hall|(m & Hm & Hbefore & Hm_stop)].
  { rewrite (Hall n) in Hstop by lia. done. }
  rewrite (loop_leaves project_id region job_id w m fuel); simpl; try done; [|lia].
  apply leaves_stops.
Qed.

Lemma after_finally_comes_back {A} (r : outcome A) (c : option exn) :
  r ≠ StillRunning → after_finally r c ≠ StillRunning.
Proof. by destruct c. Qed.

Lemma block_comes_back (fuel n : nat) (self : PySparkJob.t)
    (driver_path egg_path cluster_name : string) (w : world) (s : state) :
  (∀ job_id, keeps_polling (w_get_job w (get_job_calls s + n) job_id) = false) →
  n < fuel →
  (with_block fuel self driver_path egg_path cluster_name w s).2 ≠ StillRunning.
Proof.
  intros Hstop Hfuel. rewrite with_block_steps. unfold block_steps.
  destruct (w_submit_job w _) as [e|job]; [done|].
  match goal with |- context [_wait_for_job_to_finish fuel ?p ?r job w ?s1] =>
    pose proof (wait_comes_back p r job w s1 n fuel (Hstop job) Hfuel) as Hwait;
    destruct (_wait_for_job_to_finish fuel p r job w s1) as [s2 r2] end.
  simpl in Hwait.
  destruct r2 as [j|e|]; [| |done];
    match goal with |- context [_print_job_output_log ?p ?r job w s2] =>
      pose proof (comes_back_print_job_output_log p r job w s2) as Hlog;
      destruct (_print_job_output_log p r job w s2) as [s3 [[]|e2|]] end; done.
Qed.

Lemma scope_comes_back {A} (self : PySparkJob.t) (cluster_name : string)
    (body : string → M A) (w : world) (s : state) :
  (body cluster_name w
     (extend (extend s [ClusterControllerClient (api_endpoint (PySparkJob.gcp_region self))])
        (creation_events self cluster_name w))).2
    ≠ StillRunning →
  (_with_temp_cluster self cluster_name body w s).2 ≠ StillRunning.
Proof.
  intros Hbody. rewrite with_temp_cluster_steps. unfold scope_steps.
  destruct (w_cluster_client w) as [e|]; [done|].
  destruct (creation_failure self cluster_name w) as [e|];
    [by apply after_finally_comes_back|].
  destruct (body cluster_name w _) as [s2 [a|e|]]; simpl in *;
    [by apply after_finally_comes_back..|done].
Qed.

(** C1. Whatever the services answer, when [run] returns or raises, the
    requests it has made about the cluster are either none (the creation was
    never attempted) or exactly one creation followed by exactly one deletion
    of that cluster; while the block is still polling the creation is the
    only one.  This covers the normal completion and an exception of the
    creation, the submission, the polling and the retrieval of the log.  And
    [run] does come back once a status request is answered by a terminal
    status or an exception. *)
Theorem teardown_exactly_once
    (fuel : nat) (self : PySparkJob.t) (runtime : pyobj) (w : world) (s : state) :
  (∃ L, lifecycle (run fuel self runtime w s).1 = lifecycle s ++ L ∧
     match (run fuel self runtime w s).2 with
     | StillRunning => ∃ project region c, L = [CreateCluster project region c]
     | _ =>
         L = [] ∨
         ∃ project region c,
           L = [CreateCluster project region c;
                DeleteCluster project region (cd_cluster_name c)]
     end) ∧
  (∀ n, (∀ job_id, keeps_polling (w_get_job w (get_job_calls s + n) job_id) = false) →
        n < fuel →
        (run fuel self runtime w s).2 ≠ StillRunning).
Proof.
  rewrite run_unfold, bind_run.
  pose proof (preserves_before_with self runtime w s) as Hview.
  pose proof (comes_back_before_with self runtime w s) as Hback.
  destruct (before_with self runtime w s) as [s1 [[[[self' jid] dp] ep]|e|]];
    simpl in Hview, Hback; [| |done]; injection Hview as Hlife Hcalls.
  2: { split; [|done]. exists []. rewrite app_nil_r. by split; [|left]. }
  rewrite bind_run. split.
  - destruct (with_temp_cluster_lifecycle self' jid (with_block fuel self' dp ep) w s1)
      as (L & HL & Hshape); [intros cn; apply preserves_with_block|].
    destruct (_with_temp_cluster self' jid (with_block fuel self' dp ep) w s1)
      as [s2 [[]|e|]]; simpl in HL, Hshape; exists L.
    + unfold logger. rewrite emit_extend. simpl. rewrite lifecycle_extend. simpl.
      rewrite app_nil_r, HL, Hlife. split; [done|].
      destruct Hshape as [-> | ->]; [by left|right].
      by eexists _, _, (cluster_spec self' jid).
    + simpl. rewrite HL, Hlife. split; [done|].
      destruct Hshape as [-> | ->]; [by left|right].
      by eexists _, _, (cluster_spec self' jid).
    + simpl. rewrite HL, Hlife. split; [done|]. eauto.
  - intros n Hstop Hfuel.
    assert ((_with_temp_cluster self' jid (with_block fuel self' dp ep) w s1).2
            ≠ StillRunning) as Hscope.
    { apply scope_comes_back. apply (block_comes_back fuel n); [|done].
      simpl. by rewrite Hcalls. }
    by destruct (_with_temp_cluster self' jid (with_block fuel self' dp ep) w s1)
      as [s2 [[]|e|]].
Qed.

Lemma teardown_exactly_once_witness :
  (run 3 demo_job PyNone demo_world (initial_state demo_heap)).2 ≠ StillRunning.
Proof.
  apply (proj2 (teardown_exactly_once 3 demo_job PyNone demo_world (initial_state demo_heap)) 2).
  - intros job_id. reflexivity.
  - lia.
Defined.

(** ** A failing teardown *)

Lemma exn_msg_with_context (e : exn) (p : option exn) :
  exn_msg (with_context e p) = exn_msg e.
Proof. by destruct p. Qed.

(** C2, as stated, fails: the submission raises [submit failed], the
    deletion of the cluster raises [delete failed], and [run] raises the
    second, with the first as its context. *)
Lemma teardown_failure_masks_original :
  w_submit_job world_submit_and_delete_fail
    (job_spec demo_job "demo-dev-2024-01-01-120000-abc1234567"
       "demo-dev-2024-01-01-120000-abc1234567/driver.py"
       "demo-dev-2024-01-01-120000-abc1234567/proj.egg") = inl submit_failed ∧
  w_delete_cluster world_submit_and_delete_fail "demo-dev-2024-01-01-120000-abc1234567"
    = Some delete_failed ∧
  (run 3 demo_job PyNone world_submit_and_delete_fail (initial_state demo_heap)).2
    = Raised (Exception "delete failed" (Some submit_failed)) ∧
  (run 3 demo_job PyNone world_submit_and_delete_fail (initial_state demo_heap)).2
    ≠ Raised submit_failed ∧
  last (trace (run 3 demo_job PyNone world_submit_and_delete_fail (initial_state demo_heap)).1)
    = Some (DeleteCluster "gcp" "europe-west1" "demo-dev-2024-01-01-120000-abc1234567").
Proof.
  split_and!; [reflexivity | reflexivity | | |].
  - vm_compute. reflexivity.
  - vm_compute. intros H. discriminate H.
  - vm_compute. reflexivity.
Qed.

(** C2, amended. When the deletion of the cluster fails, what the scope
    raises is the failure of the deletion: alone when the creation and the
    block went well, and with the exception of the creation or of the block
    as its context when one of them raised.  The last thing the scope does is
    the request to delete: the failure is neither caught nor logged.  So a
    [run] in which every deletion fails never returns, and whenever it has
    asked for a deletion it raises an exception with the message of that
    failure. *)
Theorem teardown_failure_propagates :
  (∀ (A : Type) (self : PySparkJob.t) (cluster_name : string) (body : string → M A)
     (w : world) (s : state) (e2 : exn),
     w_cluster_client w = None →
     w_delete_cluster w cluster_name = Some e2 →
     let r := (_with_temp_cluster self cluster_name body w s).2 in
     let s1 := extend (extend s [ClusterControllerClient
                                   (api_endpoint (PySparkJob.gcp_region self))])
                 (creation_events self cluster_name w) in
     match creation_failure self cluster_name w with
     | Some e1 => r = Raised (Exception (exn_msg e2) (Some e1))
     | None =>
         match (body cluster_name w s1).2 with
         | Raised e1 => r = Raised (Exception (exn_msg e2) (Some e1))
         | Returned _ => r = Raised e2
         | StillRunning => r = StillRunning
         end
     end ∧
     (r ≠ StillRunning →
      last (trace (_with_temp_cluster self cluster_name body w s).1)
        = Some (DeleteCluster (PySparkJob.gcp_project_id self)
                  (PySparkJob.gcp_region self) cluster_name))) ∧
  (∀ (fuel : nat) (self : PySparkJob.t) (runtime : pyobj) (w : world) (s : state) (e2 : exn),
     (∀ cluster_name, w_delete_cluster w cluster_name = Some e2) →
     (run fuel self runtime w s).2 ≠ Returned tt ∧
     (∀ x, (run fuel self runtime w s).2 = Raised x →
           lifecycle (run fuel self runtime w s).1 ≠ lifecycle s →
           exn_msg x = exn_msg e2)).
Proof.
  split.
  - intros A self cluster_name body w s e2 Hclient Hdelete r s1.
    unfold r. rewrite with_temp_cluster_steps. unfold scope_steps.
    rewrite Hclient, Hdelete. fold s1.
    destruct (creation_failure self cluster_name w) as [e1|].
    { split; [reflexivity|]. intros _. simpl. unfold torn_down, delete_events.
      rewrite Hdelete. simpl. by rewrite last_app. }
    destruct (body cluster_name w s1) as [s2 [a|e1|]]; simpl; (split; [reflexivity|]);
      try done; intros _; unfold torn_down, delete_events; rewrite Hdelete; simpl;
      by rewrite last_app.
  - intros fuel self runtime w s e2 Hdelete.
    rewrite run_unfold, bind_run.
    pose proof (preserves_before_with self runtime w s) as Hview.
    destruct (before_with self runtime w s) as [s1 [[[[self' jid] dp] ep]|e|]];
      simpl in Hview; injection Hview as Hlife Hcalls;
      [|simpl; split; [done|]; intros x _ Hne; by rewrite Hlife in Hne..].
    rewrite bind_run, with_temp_cluster_steps. unfold scope_steps.
    rewrite (Hdelete jid).
    destruct (w_cluster_client w) as [e|].
    { simpl. split; [done|]. intros x _ Hne. contradict Hne.
      by rewrite lifecycle_extend, app_nil_r. }
    destruct (creation_failure self' jid w) as [e1|].
    { simpl. split; [done|]. intros x [= <-] _. done. }
    destruct (with_block fuel self' dp ep jid w _) as [s2 [[]|e1|]]; simpl;
      (split; [done|]); try done; by intros x [= <-] _.
Qed.

Lemma teardown_failure_propagates_witness :
  (_with_temp_cluster demo_job "demo-cluster"
     (fun _ => raise submit_failed : M unit) world_submit_and_delete_fail
     (initial_state demo_heap)).2
    = Raised (Exception "delete failed" (Some submit_failed)) ∧
  (run 3 demo_job PyNone world_submit_and_delete_fail (initial_state demo_heap)).2
    ≠ Returned tt.
Proof.
  split.
  - exact (proj1 (proj1 teardown_failure_propagates unit demo_job "demo-cluster"%string
                    (fun _ => raise submit_failed) world_submit_and_delete_fail
                    (initial_state demo_heap) delete_failed eq_refl eq_refl)).
  - exact (proj1 (proj2 teardown_failure_propagates 3 demo_job PyNone
                    world_submit_and_delete_fail (initial_state demo_heap) delete_failed
                    (fun _ => eq_refl))).
Defined.

(** ** A log that cannot be retrieved *)

(** C7, as stated, fails: with a job that ends as DONE and a log that cannot
    be downloaded, [run] raises [download failed] after deleting the cluster;
    with a job that ends as ERROR with the details [boom], [run] raises
    [download failed] too, and [boom] is only its context. *)
Lemma log_retrieval_failure_is_fatal :
  (_wait_for_job_to_finish 3 "gcp" "europe-west1" "job-1" world_download_fails
     (initial_state demo_heap)).2
    = Returned {| status_state := State.DONE; status_details := "";
                  driver_output_resource_uri := "gs://out/log" |} ∧
  (run 3 demo_job PyNone world_download_fails (initial_state demo_heap)).2
    = Raised download_failed ∧
  (run 3 demo_job PyNone world_download_fails (initial_state demo_heap)).2
    ≠ Returned tt ∧
  (_wait_for_job_to_finish 3 "gcp" "europe-west1" "job-1" world_job_and_download_fail
     (initial_state demo_heap)).2
    = Raised (Exception "boom" None) ∧
  (run 3 demo_job PyNone world_job_and_download_fail (initial_state demo_heap)).2
    = Raised (Exception "download failed" (Some (Exception "boom" None))) ∧
  (run 3 demo_job PyNone world_job_and_download_fail (initial_state demo_heap)).2
    ≠ Raised (Exception "boom" None).
Proof.
  split_and!; vm_compute; first [reflexivity | intros H; discriminate H].
Qed.

Lemma print_job_output_log_fails (project_id region job_id : string) (w : world)
    (s : state) (e : exn) :
  (∀ uri, w_download_blob w uri = inl e) →
  ∃ x, (_print_job_output_log project_id region job_id w s).2 = Raised x.
Proof.
  intros Hdl. unfold _print_job_output_log. rewrite bind_run. unfold get_job.
  destruct (w_get_job w (get_job_calls s) job_id) as [x|job]; [by exists x|].
  rewrite bind_run, call_run, Hdl. by exists e.
Qed.

(** C7, amended. In the block under [with], when the retrieval of the log
    raises, the block raises that exception: alone when the watcher had
    returned (the job succeeded), and with the exception of the watcher as
    its context when the job had failed.  So a [run] whose log cannot be
    downloaded never completes normally. *)
Theorem log_retrieval_failure_propagates :
  (∀ (fuel : nat) (self : PySparkJob.t) (driver_path egg_path cluster_name : string)
     (w : world) (s : state) (job : string) (e2 : exn),
     w_submit_job w (job_spec self cluster_name driver_path egg_path) = inr job →
     let waited :=
       _wait_for_job_to_finish fuel (PySparkJob.gcp_project_id self)
         (PySparkJob.gcp_region self) job w
         (extend (extend s (submit_events self cluster_name driver_path egg_path))
            (submitted_events self job)) in
     (_print_job_output_log (PySparkJob.gcp_project_id self) (PySparkJob.gcp_region self)
        job w waited.1).2 = Raised e2 →
     (with_block fuel self driver_path egg_path cluster_name w s).2
       = match waited.2 with
         | Returned _ => Raised e2
         | Raised e1 => Raised (Exception (exn_msg e2) (Some e1))
         | StillRunning => StillRunning
         end) ∧
  (∀ (fuel : nat) (self : PySparkJob.t) (runtime : pyobj) (w : world) (s : state) (e : exn),
     (∀ uri, w_download_blob w uri = inl e) →
     (run fuel self runtime w s).2 ≠ Returned tt).
Proof.
  split.
  - intros fuel self dp ep cn w s job e2 Hsubmit waited Hlog.
    rewrite with_block_steps. unfold block_steps. rewrite Hsubmit. fold waited.
    destruct waited as [s2 [j|e1|]]; simpl in *; [| |done];
      by destruct (_print_job_output_log _ _ _ _ _) as [s3 r3]; simpl in Hlog; subst r3.
  - intros fuel self runtime w s e Hdl.
    rewrite run_unfold, bind_run.
    destruct (before_with self runtime w s) as [s1 [[[[self' jid] dp] ep]|x|]]; [|done..].
    rewrite bind_run, with_temp_cluster_steps. unfold scope_steps.
    destruct (w_cluster_client w) as [x|]; [done|].
    destruct (creation_failure self' jid w) as [x|].
    { by destruct (w_delete_cluster w jid). }
    rewrite with_block_steps. unfold block_steps.
    destruct (w_submit_job w _) as [x|job].
    { by destruct (w_delete_cluster w jid). }
    destruct (_wait_for_job_to_finish _ _ _ _ _ _) as [s2 r2].
    match goal with |- context [_print_job_output_log ?p ?r job w s2] =>
      destruct (print_job_output_log_fails p r job w s2 e Hdl) as [x Hx];
      destruct (_print_job_output_log p r job w s2) as [s3 r3] end.
    simpl in Hx. subst r3.
    destruct r2 as [j|e1|]; [| |done]; by destruct (w_delete_cluster w jid).
Qed.

Lemma log_retrieval_failure_propagates_witness :
  (with_block 3 demo_job "driver.py" "proj.egg" "demo-cluster" world_job_and_download_fail
     (initial_state demo_heap)).2
    = Raised (Exception "download failed" (Some (Exception "boom" None))) ∧
  (run 3 demo_job PyNone world_download_fails (initial_state demo_heap)).2 ≠ Returned tt.
Proof.
  split.
  - exact (proj1 log_retrieval_failure_propagates 3 demo_job "driver.py"%string
             "proj.egg"%string "demo-cluster"%string world_job_and_download_fail
             (initial_state demo_heap) "job-1"%string download_failed eq_refl eq_refl).
  - exact (proj2 log_retrieval_failure_propagates 3 demo_job PyNone world_download_fails
             (initial_state demo_heap) download_failed (fun _ => eq_refl)).
Defined.

(** ** A work unit that cannot be pickled *)

Lemma before_with_unfold (self : PySparkJob.t) (runtime : pyobj) (w : world) (s : state) :
  before_with self runtime w s
  = ('(self', job_internal_id, driver, egg_local_path) ← before_upload self runtime;
     egg_path ← _upload_egg egg_local_path (PySparkJob.bucket_id self') job_internal_id;
     let driver_path := (job_internal_id ++ "/" ++ PySparkJob.driver_filename self')%string in
     generate_and_upload_driver driver (PySparkJob.bucket_id self') driver_path;;
     mret (self', job_internal_id, driver_path, egg_path)) w s.
Proof.
  unfold before_with, before_upload.
  unfold mbind, M_bind, bind.
  repeat (match goal with
          | |- context [match ?m w ?s0 with _ => _ end] =>
              lazymatch m with
              | context [match _ with _ => _ end] => fail
              | _ => destruct (m w s0) as [? [?|?|]]
              end
          end; try reflexivity).
Qed.

Lemma preserves_writes_before_upload (self : PySparkJob.t) (runtime : pyobj) :
  preserves remote_writes (before_upload self runtime).
Proof.
  unfold before_upload, _ensure_has_setup_file, _generate_internal_jobid,
    _prepare_driver_callable, _build_project_egg.
  preserves_tac.
Qed.

Lemma upload_egg_run (egg_local_path bucket job_internal_id : string) (w : world) (s : state) :
  _upload_egg egg_local_path bucket job_internal_id w s
  = let egg_path := (job_internal_id ++ "/" ++ path_name egg_local_path)%string in
    (extend s [Log LogDebug "Upload egg to %s";
               UploadFromFilename egg_path egg_local_path "application/octet-stream"],
     match w_upload_from_filename w egg_path egg_local_path with
     | None => Returned egg_path
     | Some e => Raised e
     end).
Proof.
  unfold _upload_egg, logger. rewrite bind_run, emit_extend, bind_run, call_unit_run.
  rewrite extend_extend. simpl.
  by destruct (w_upload_from_filename w _ egg_local_path).
Qed.

Lemma generate_and_upload_driver_fails (callable : _PySparkDriverWrapper.t)
    (bucket driver_path : string) (w : world) (s : state) (e : exn) :
  w_pickle_dumps w (snapshot (store s) callable) = inl e →
  generate_and_upload_driver callable bucket driver_path w s
  = (extend s [Log LogDebug "Upload generate driver to %s"], Raised e).
Proof.
  intros Hpickle. unfold generate_and_upload_driver, generate_driver_script, logger.
  rewrite bind_run, emit_extend, bind_run, bind_run. simpl. rewrite bind_run. simpl.
  by rewrite Hpickle.
Qed.

Lemma writes_extend (s : state) (events : list event) :
  remote_writes (extend s events) = remote_writes s ++ List.filter is_remote_write events.
Proof. unfold remote_writes, extend. simpl. apply List.filter_app. Qed.

(** C8, as stated, fails: with a work unit that cannot be pickled, [run]
    raises the pickling error after it has uploaded the egg. *)
Lemma egg_uploaded_before_pickling :
  (run 3 demo_job PyNone world_pickling_fails (initial_state demo_heap)).2
    = Raised pickling_failed ∧
  remote_writes (run 3 demo_job PyNone world_pickling_fails (initial_state demo_heap)).1
    = [UploadFromFilename "demo-dev-2024-01-01-120000-abc1234567/proj.egg"
         "/src/dist/proj.egg" "application/octet-stream"] ∧
  remote_writes (run 3 demo_job PyNone world_pickling_fails (initial_state demo_heap)).1 ≠ [].
Proof.
  split_and!; vm_compute; first [reflexivity | intros H; discriminate H].
Qed.

(** C8, amended. When the steps before the upload of the egg went well, the
    upload of the egg is accepted and the work unit cannot be pickled, [run]
    raises the pickling error, and what it has written to the remote
    services by then is the egg and nothing else: no driver script is
    uploaded, no cluster is created and no job is submitted. *)
Theorem pickling_failure_aborts_before_cluster
    (fuel : nat) (self : PySparkJob.t) (runtime : pyobj) (w : world) (s : state) (e : exn)
    (s1 : state) (self' : PySparkJob.t) (job_internal_id : string)
    (driver : _PySparkDriverWrapper.t) (egg_local_path : string) :
  before_upload self runtime w s
    = (s1, Returned (self', job_internal_id, driver, egg_local_path)) →
  w_upload_from_filename w (job_internal_id ++ "/" ++ path_name egg_local_path)%string
    egg_local_path = None →
  w_pickle_dumps w (snapshot (store s1) driver) = inl e →
  (run fuel self runtime w s).2 = Raised e ∧
  remote_writes (run fuel self runtime w s).1
    = remote_writes s
      ++ [UploadFromFilename (job_internal_id ++ "/" ++ path_name egg_local_path)%string
            egg_local_path "application/octet-stream"].
Proof.
  intros Hbefore Hupload Hpickle.
  pose proof (preserves_writes_before_upload self runtime w s) as Hwrites.
  rewrite Hbefore in Hwrites. simpl in Hwrites.
  rewrite run_unfold, bind_run, before_with_unfold, bind_run, Hbefore.
  rewrite bind_run, upload_egg_run. simpl. rewrite Hupload.
  rewrite bind_run, (generate_and_upload_driver_fails _ _ _ _ _ e) by done.
  simpl. split; [done|].
  rewrite writes_extend, writes_extend, Hwrites. simpl. by rewrite app_nil_r.
Qed.

Lemma demo_before_upload :
  before_upload demo_job PyNone world_pickling_fails (initial_state demo_heap)
  = ((before_upload demo_job PyNone world_pickling_fails (initial_state demo_heap)).1,
     Returned (demo_job, "demo-dev-2024-01-01-120000-abc1234567"%string,
               {| _PySparkDriverWrapper.callable := Callable "proj.main.driver";
                  _PySparkDriverWrapper.args := [];
                  _PySparkDriverWrapper.kwargs := 1;
                  _PySparkDriverWrapper.envs := <["env"%string := "dev"%string]> ∅ |},
               "/src/dist/proj.egg"%string)).
Proof. vm_compute. reflexivity. Qed.

Lemma pickling_failure_aborts_before_cluster_witness :
  (run 3 demo_job PyNone world_pickling_fails (initial_state demo_heap)).2
    = Raised pickling_failed.
Proof.
  eapply proj1.
  eapply (pickling_failure_aborts_before_cluster 3 demo_job PyNone world_pickling_fails
            (initial_state demo_heap) pickling_failed).
  - exact demo_before_upload.
  - reflexivity.
  - reflexivity.
Defined.

(** ** What a run submits *)

#[local] Arguments extend : simpl never.
#[local] Arguments torn_down : simpl never.

Lemma submitted_extend (s : state) (events : list event) :
  submitted (extend s events) = submitted s ++ List.filter is_submit events.
Proof. unfold submitted, extend. simpl. apply List.filter_app. Qed.

Lemma submitted_torn_down (self : PySparkJob.t) (cluster_name : string) (w : world)
    (s : state) :
  submitted (torn_down self cluster_name w s) = submitted s.
Proof.
  unfold torn_down. rewrite submitted_extend.
  destruct (w_delete_cluster w cluster_name); simpl; by rewrite app_nil_r.
Qed.

Lemma creation_events_submitted (self : PySparkJob.t) (cluster_name : string) (w : world) :
  List.filter is_submit (creation_events self cluster_name w) = [].
Proof.
  unfold creation_events.
  destruct (w_create_cluster w _); [done|]. by destruct (w_cluster_future_result w _).
Qed.

Lemma submitted_get_job (project_id region job_id : string) :
  preserves submitted (get_job project_id region job_id).
Proof.
  intros w s. unfold get_job.
  destruct (w_get_job w (get_job_calls s) job_id); simpl;
    unfold submitted; simpl; by rewrite List.filter_app, app_nil_r.
Qed.

Lemma submitted_wait (fuel : nat) (project_id region job_id : string) :
  preserves submitted (_wait_for_job_to_finish fuel project_id region job_id).
Proof.
  unfold _wait_for_job_to_finish. apply preserves_bind; [preserves_tac|intros _].
  induction fuel as [|fuel IH]; [by intros w s|].
  cbn [_wait_for_job_to_finish_loop].
  apply preserves_bind; [apply submitted_get_job|intros job].
  destruct (status_state job); unfold sleep;
    repeat first [exact IH | preserves_step].
Qed.

Lemma submitted_print_job_output_log (project_id region job_id : string) :
  preserves submitted (_print_job_output_log project_id region job_id).
Proof.
  unfold _print_job_output_log.
  apply preserves_bind; [apply submitted_get_job|intros job]. preserves_tac.
Qed.

Lemma submitted_before_with (self : PySparkJob.t) (runtime : pyobj) :
  preserves submitted (before_with self runtime).
Proof.
  unfold before_with, _ensure_has_setup_file, _generate_internal_jobid,
    _prepare_driver_callable, _build_project_egg, _upload_egg,
    generate_and_upload_driver, generate_driver_script.
  preserves_tac.
Qed.

Lemma bind_returned {A B} (m : M A) (k : A → M B) (w : world) (s s' : state) (b : B) :
  (m ≫= k) w s = (s', Returned b) →
  ∃ s1 a, m w s = (s1, Returned a) ∧ k a w s1 = (s', Returned b).
Proof.
  rewrite bind_run. destruct (m w s) as [s1 [a|e|]]; [eauto|done..].
Qed.

Lemma ensure_has_setup_file_fields (self self' : PySparkJob.t) (w : world) (s s' : state) :
  _ensure_has_setup_file self w s = (s', Returned self') →
  PySparkJob.id self' = PySparkJob.id self ∧ PySparkJob.env self' = PySparkJob.env self.
Proof.
  unfold _ensure_has_setup_file.
  destruct (truthy (PySparkJob.setup_file self)).
  - by intros [= _ <-].
  - intros H. apply bind_returned in H as (s1 & [] & _ & H).
    apply bind_returned in H as (s2 & f & _ & H).
    by injection H as _ <-.
Qed.

(** The job that [run] carries into the [with] statement has the id and the
    env tag of the job it was called on. *)
Lemma before_with_fields (self self' : PySparkJob.t) (runtime : pyobj) (w : world)
    (s s' : state) (job_internal_id driver_path egg_path : string) :
  before_with self runtime w s
    = (s', Returned (self', job_internal_id, driver_path, egg_path)) →
  PySparkJob.id self' = PySparkJob.id self ∧ PySparkJob.env self' = PySparkJob.env self.
Proof.
  unfold before_with. intros H.
  apply bind_returned in H as (s1 & [] & _ & H).
  apply bind_returned in H as (s2 & self1 & Hself & H).
  apply ensure_has_setup_file_fields in Hself.
  do 9 (apply bind_returned in H as (? & ? & _ & H)).
  by injection H as _ <- _ _ _.
Qed.

Lemma pyspark_properties_fields (self self' : PySparkJob.t) :
  PySparkJob.id self' = PySparkJob.id self → PySparkJob.env self' = PySparkJob.env self →
  pyspark_properties self' = pyspark_properties self.
Proof. unfold pyspark_properties. by intros -> ->. Qed.

(** Brings the submissions of a state at the end of the scope into view. *)
Ltac settle_submitted :=
  unfold after_finally, pending, logger; cbv beta iota;
  rewrite ?emit_extend; cbn [fst snd];
  rewrite ?submitted_extend, ?submitted_torn_down, ?submitted_extend,
    ?creation_events_submitted;
  cbn [List.filter is_submit app]; rewrite ?app_nil_r.

(** A run submits at most one job, with the property map of its job. *)
Lemma run_submits (fuel : nat) (self : PySparkJob.t) (runtime : pyobj) (w : world)
    (s : state) :
  ∃ L, submitted (run fuel self runtime w s).1 = submitted s ++ L ∧
    (L = [] ∨
     ∃ project region job,
       L = [SubmitJob project region job] ∧
       js_properties job = pyspark_properties self).
Proof.
  rewrite run_unfold, bind_run.
  pose proof (submitted_before_with self runtime w s) as Hsub.
  destruct (before_with self runtime w s) as [s1 [[[[self' jid] dp] ep]|e|]] eqn:Hbefore;
    simpl in Hsub; [|exists []; rewrite app_nil_r; by split; [|left]..].
  apply before_with_fields in Hbefore as [Hid Henv].
  pose proof (pyspark_properties_fields self self' Hid Henv) as Hprops.
  rewrite bind_run, with_temp_cluster_steps. unfold scope_steps.
  destruct (w_cluster_client w) as [e|].
  { exists []. simpl. rewrite submitted_extend. simpl.
    rewrite !app_nil_r. by split; [|left]. }
  destruct (creation_failure self' jid w) as [e|].
  { exists []. split; [|by left].
    destruct (w_delete_cluster w jid); settle_submitted; by rewrite Hsub, ?app_nil_r. }
  rewrite with_block_steps. unfold block_steps.
  destruct (w_submit_job w (job_spec self' jid dp ep)) as [e|job].
  { exists [SubmitJob (PySparkJob.gcp_project_id self') (PySparkJob.gcp_region self')
              (job_spec self' jid dp ep)].
    split; [|right; eexists _, _, _; split; [reflexivity|exact Hprops]].
    destruct (w_delete_cluster w jid); settle_submitted; by rewrite Hsub. }
  match goal with |- context [_wait_for_job_to_finish fuel ?p ?r job w ?s2] =>
    pose proof (submitted_wait fuel p r job w s2) as Hwait;
    destruct (_wait_for_job_to_finish fuel p r job w s2) as [s3 r3] end.
  cbn [fst] in Hwait. rewrite !submitted_extend, creation_events_submitted in Hwait.
  simpl in Hwait. rewrite !app_nil_r, Hsub in Hwait.
  exists [SubmitJob (PySparkJob.gcp_project_id self') (PySparkJob.gcp_region self')
            (job_spec self' jid dp ep)].
  split; [|right; eexists _, _, _; split; [reflexivity|exact Hprops]].
  destruct r3 as [j|e|]; [| |exact Hwait];
    match goal with |- context [_print_job_output_log ?p ?r job w s3] =>
      pose proof (submitted_print_job_output_log p r job w s3) as Hprint;
      destruct (_print_job_output_log p r job w s3) as [s4 [[]|e4|]] end;
    simpl in Hprint; rewrite Hwait in Hprint;
    try (destruct (w_delete_cluster w jid)); settle_submitted; exact Hprint.
Qed.

(** ** The environment tag of a constructed job *)

Lemma pyspark_properties_keys (self : PySparkJob.t) :
  PySparkJob.env self ≠ ""%string →
  pyspark_properties self !! "spark.app.name"%string = Some (PySparkJob.id self) ∧
  pyspark_properties self !! "spark.workerEnv.bf_env"%string = Some (PySparkJob.env self) ∧
  pyspark_properties self !! "spark.executorEnv.bf_env"%string = Some (PySparkJob.env self) ∧
  dom (pyspark_properties self)
    = {[ "spark.app.name"%string; "spark.workerEnv.bf_env"%string;
         "spark.executorEnv.bf_env"%string ]}.
Proof.
  intros Hne. unfold pyspark_properties.
  destruct (PySparkJob.env self) as [|c r] eqn:E; [done|]. simpl.
  split_and!.
  - rewrite !lookup_insert_ne by done. by rewrite lookup_insert_eq.
  - rewrite lookup_insert_ne by done. by rewrite lookup_insert_eq.
  - by rewrite lookup_insert_eq.
  - rewrite !dom_insert_L, dom_empty_L. set_solver.
Qed.

(** C10. The constructor stores a non-empty environment tag: the argument
    when it is a non-empty string, otherwise the configured environment when
    that is one, otherwise [none].  So the env segment of the run id is the
    stored, non-empty tag, the property map has exactly the three keys
    [spark.app.name] (the id), [spark.workerEnv.bf_env] and
    [spark.executorEnv.bf_env] (both the tag), and a job that [run] submits
    carries that map. *)
Theorem constructed_job_env_and_properties (p : process) (h : heap) (a : init_args) :
  let job := (__init__ p h a).2 in
  PySparkJob.env job ≠ ""%string ∧
  PySparkJob.env job =
    (if truthy (a_env a) then default ""%string (a_env a)
     else if truthy (current_env p) then default ""%string (current_env p)
     else "none"%string) ∧
  (∀ now draws,
     jobid_text job now draws =
       (lower (a_id a) ++ "-" ++ PySparkJob.env job ++ "-" ++ strftime now ++ "-"
        ++ join_chars (random_choices (ascii_lowercase ++ digits) draws))%string) ∧
  (∀ w s, ∃ s' ps,
     _prepare_pyspark_properties job w s = (s', Returned ps) ∧
     ps !! "spark.app.name"%string = Some (a_id a) ∧
     ps !! "spark.workerEnv.bf_env"%string = Some (PySparkJob.env job) ∧
     ps !! "spark.executorEnv.bf_env"%string = Some (PySparkJob.env job) ∧
     dom ps = {[ "spark.app.name"%string; "spark.workerEnv.bf_env"%string;
                 "spark.executorEnv.bf_env"%string ]}) ∧
  (∀ fuel runtime w s,
     ∃ L, submitted (run fuel job runtime w s).1 = submitted s ++ L ∧
       (L = [] ∨
        ∃ project region spec,
          L = [SubmitJob project region spec] ∧
          js_properties spec !! "spark.app.name"%string = Some (a_id a) ∧
          js_properties spec !! "spark.workerEnv.bf_env"%string = Some (PySparkJob.env job) ∧
          js_properties spec !! "spark.executorEnv.bf_env"%string
            = Some (PySparkJob.env job))).
Proof.
  intros job.
  pose proof (init_env_nonempty p h a) as Hne.
  destruct (init_fields p h a) as [Hid Henv].
  fold job in Hne, Hid, Henv.
  destruct (pyspark_properties_keys job Hne) as (Kapp & Kworker & Kexec & Kdom).
  rewrite Hid in Kapp.
  split; [exact Hne|]. split.
  { rewrite Henv. unfold py_or.
    destruct (a_env a) as [[|c r]|]; simpl; try done;
      by destruct (current_env p) as [[|c' r']|]. }
  split.
  { intros now draws. unfold jobid_text.
    by rewrite Hid, (py_or_str_some _ Hne). }
  split.
  { intros w s. rewrite prepare_pyspark_properties_run. by eexists _, _. }
  intros fuel runtime w s.
  destruct (run_submits fuel job runtime w s) as (L & HL & Hshape).
  exists L. split; [exact HL|].
  destruct Hshape as [->|(project & region & spec & -> & Hprops)]; [by left|right].
  exists project, region, spec. by rewrite Hprops.
Qed.

(** ** Base 85 *)

Section Base85.
Import base64.
Local Open Scope N_scope.

Lemma b85dec_chars (d : N) : d < 85 → _b85dec (_b85chars d) = Some d.
Proof.
  intros Hd.
  assert (∃ n, (n < 85)%nat ∧ d = N.of_nat n) as (n & Hn & ->).
  { exists (N.to_nat d). split; [lia | by rewrite N2Nat.id]. }
  do 85 (destruct n as [|n]; [vm_compute; reflexivity|]). lia.
Qed.

Lemma b85dec_tilde : _b85dec Byte.x7e = Some 84.
Proof. reflexivity. Qed.

Lemma byte_of_to_N (b : Byte.byte) : byte_of_N (Byte.to_N b) = b.
Proof. unfold byte_of_N. by rewrite Byte.of_to_N. Qed.

Lemma word_of_bound (b0 b1 b2 b3 : Byte.byte) : word_of b0 b1 b2 b3 ≤ 4294967295.
Proof.
  unfold word_of.
  pose proof (Byte.to_N_bounded b0). pose proof (Byte.to_N_bounded b1).
  pose proof (Byte.to_N_bounded b2). pose proof (Byte.to_N_bounded b3). lia.
Qed.

Lemma packI_word_of (b0 b1 b2 b3 : Byte.byte) :
  packI (word_of b0 b1 b2 b3) = [b0; b1; b2; b3].
Proof.
  unfold packI, word_of.
  pose proof (Byte.to_N_bounded b0). pose proof (Byte.to_N_bounded b1).
  pose proof (Byte.to_N_bounded b2). pose proof (Byte.to_N_bounded b3).
  set (n0 := Byte.to_N b0) in *. set (n1 := Byte.to_N b1) in *.
  set (n2 := Byte.to_N b2) in *. set (n3 := Byte.to_N b3) in *.
  assert ((((n0 * 256 + n1) * 256 + n2) * 256 + n3) / 16777216 = n0) as ->.
  { symmetry. apply (N.div_unique _ _ _ ((n1 * 256 + n2) * 256 + n3)); lia. }
  assert ((((n0 * 256 + n1) * 256 + n2) * 256 + n3) / 65536 mod 256 = n1) as ->.
  { assert ((((n0 * 256 + n1) * 256 + n2) * 256 + n3) / 65536 = n0 * 256 + n1) as ->.
    { symmetry. apply (N.div_unique _ _ _ (n2 * 256 + n3)); lia. }
    symmetry. apply (N.mod_unique _ _ n0); lia. }
  assert ((((n0 * 256 + n1) * 256 + n2) * 256 + n3) / 256 mod 256 = n2) as ->.
  { assert ((((n0 * 256 + n1) * 256 + n2) * 256 + n3) / 256 = (n0 * 256 + n1) * 256 + n2) as ->.
    { symmetry. apply (N.div_unique _ _ _ n3); lia. }
    symmetry. apply (N.mod_unique _ _ (n0 * 256 + n1)); lia. }
  assert ((((n0 * 256 + n1) * 256 + n2) * 256 + n3) mod 256 = n3) as ->.
  { symmetry. apply (N.mod_unique _ _ ((n0 * 256 + n1) * 256 + n2)); lia. }
  unfold n0, n1, n2, n3. by rewrite !byte_of_to_N.
Qed.

Lemma chunk_of_word_digits (w : N) : chunk_of_word w = map _b85chars (digits_of w).
Proof. reflexivity. Qed.

Lemma digits_of_bound (w : N) : w ≤ 4294967295 → Forall (λ d, d < 85) (digits_of w).
Proof.
  intros Hw. unfold digits_of.
  assert (w / 614125 < 7225) by (apply N.Div0.div_lt_upper_bound; lia).
  repeat constructor.
  - apply N.Div0.div_lt_upper_bound; lia.
  - apply N.mod_upper_bound; lia.
  - apply N.Div0.div_lt_upper_bound. pose proof (N.mod_upper_bound (w / 85) 7225). lia.
  - apply N.mod_upper_bound; lia.
  - apply N.mod_upper_bound; lia.
Qed.

Lemma value_of_digits (w : N) : value_of (digits_of w) = w.
Proof.
  unfold value_of, digits_of. simpl.
  pose proof (N.div_mod w 85 ltac:(lia)) as H1.
  pose proof (N.div_mod (w / 85) 7225 ltac:(lia)) as H2.
  assert (w / 85 / 7225 = w / 614125) as H3 by (rewrite N.Div0.div_div; reflexivity).
  pose proof (N.div_mod (w / 614125) 85 ltac:(lia)) as H4.
  pose proof (N.div_mod (w / 85 mod 7225) 85 ltac:(lia)) as H5.
  rewrite H3 in H2. lia.
Qed.

Lemma first_bad_digits (ds : list N) (j : nat) :
  Forall (λ d, d < 85) ds → first_bad (map _b85chars ds) j = None.
Proof.
  intros Hds. revert j. induction Hds as [|d ds Hd _ IH]; intros j; [done|].
  simpl. by rewrite b85dec_chars.
Qed.

Lemma chunk_value_digits (ds : list N) :
  Forall (λ d, d < 85) ds → chunk_value (map _b85chars ds) = value_of ds.
Proof.
  intros Hds. unfold chunk_value, value_of.
  assert (∀ acc,
    fold_left (λ acc c, acc * 85 + default 0 (_b85dec c)) (map _b85chars ds) acc
    = fold_left (λ acc d, acc * 85 + d) ds acc) as H; [|apply H].
  induction Hds as [|d ds Hd _ IH]; intros acc; [done|].
  simpl. by rewrite b85dec_chars, IH.
Qed.

Lemma decode_chunk_digits (i : nat) (ds : list N) :
  Forall (λ d, d < 85) ds → value_of ds ≤ 4294967295 →
  decode_chunk i (map _b85chars ds) = inr (packI (value_of ds)).
Proof.
  intros Hds Hv. unfold decode_chunk.
  rewrite first_bad_digits, chunk_value_digits by done.
  by apply N.leb_le in Hv as ->.
Qed.

(** A full group decodes to its four bytes. *)
Lemma decode_chunk_full (i : nat) (b0 b1 b2 b3 : Byte.byte) :
  decode_chunk i (chunk_of_word (word_of b0 b1 b2 b3)) = inr [b0; b1; b2; b3].
Proof.
  pose proof (word_of_bound b0 b1 b2 b3) as Hw.
  rewrite chunk_of_word_digits, decode_chunk_digits.
  - by rewrite value_of_digits, packI_word_of.
  - by apply digits_of_bound.
  - by rewrite value_of_digits.
Qed.

Lemma value_of_snoc (ds : list N) (d : N) : value_of (ds ++ [d]) = value_of ds * 85 + d.
Proof. unfold value_of. by rewrite fold_left_app. Qed.

Lemma value_of_take4 (w : N) : value_of (take 4 (digits_of w)) = w / 85.
Proof.
  unfold value_of, digits_of. simpl.
  pose proof (N.div_mod (w / 85) 7225 ltac:(lia)) as H2.
  assert (w / 85 / 7225 = w / 614125) as H3 by (rewrite N.Div0.div_div; reflexivity).
  pose proof (N.div_mod (w / 614125) 85 ltac:(lia)) as H4.
  pose proof (N.div_mod (w / 85 mod 7225) 85 ltac:(lia)) as H5.
  rewrite H3 in H2. lia.
Qed.

Lemma value_of_take3 (w : N) : value_of (take 3 (digits_of w)) = w / 7225.
Proof.
  unfold value_of, digits_of. simpl.
  assert (w / 7225 = w / 85 / 85) as -> by (rewrite N.Div0.div_div; reflexivity).
  pose proof (N.div_mod (w / 85) 7225 ltac:(lia)) as H2.
  assert (w / 85 / 7225 = w / 614125) as H3 by (rewrite N.Div0.div_div; reflexivity).
  pose proof (N.div_mod (w / 614125) 85 ltac:(lia)) as H4.
  pose proof (N.div_mod (w / 85 mod 7225) 85 ltac:(lia)) as H5.
  pose proof (N.mod_upper_bound (w / 85 mod 7225) 85 ltac:(lia)) as H6.
  rewrite H3 in H2.
  apply (N.div_unique _ _ _ (w / 85 mod 7225 mod 85)); lia.
Qed.

Lemma value_of_take2 (w : N) : value_of (take 2 (digits_of w)) = w / 614125.
Proof.
  unfold value_of, digits_of. simpl.
  pose proof (N.div_mod (w / 614125) 85 ltac:(lia)) as H4. lia.
Qed.

Lemma b85chars_tilde : Byte.x7e = _b85chars 84.
Proof. reflexivity. Qed.

(** A group of one byte: two digits, padded with three. *)
Lemma decode_chunk_pad3 (i : nat) (b0 : Byte.byte) :
  ∃ j1 j2 j3,
    decode_chunk i (take 2 (chunk_of_word (word_of b0 Byte.x00 Byte.x00 Byte.x00))
                    ++ repeat Byte.x7e 3) = inr [b0; j1; j2; j3].
Proof.
  set (w := word_of b0 Byte.x00 Byte.x00 Byte.x00).
  pose proof (word_of_bound b0 Byte.x00 Byte.x00 Byte.x00) as Hw. fold w in Hw.
  pose proof (digits_of_bound w Hw) as Hds.
  assert (take 2 (chunk_of_word w) ++ repeat Byte.x7e 3
          = map _b85chars (take 2 (digits_of w) ++ [84] ++ [84] ++ [84])) as ->
    by reflexivity.
  pose proof (Byte.to_N_bounded b0) as Hb0.
  assert (w = Byte.to_N b0 * 16777216) as Hweq
    by (unfold w, word_of; change (Byte.to_N Byte.x00) with 0; lia).
  clearbody w.
  assert (value_of (take 2 (digits_of w) ++ [84] ++ [84] ++ [84])
          = w / 614125 * 614125 + 614124) as Hv.
  { rewrite !app_assoc, !value_of_snoc, value_of_take2. lia. }
  pose proof (N.div_mod w 614125 ltac:(lia)) as Hdm.
  pose proof (N.mod_upper_bound w 614125 ltac:(lia)) as Hr.
  clear Hds. set (q := w / 614125) in *. set (r := w mod 614125) in *. clearbody q r.
  rewrite decode_chunk_digits; rewrite ?Hv.
  - eexists _, _, _. f_equal. unfold packI. f_equal.
    rewrite <- (byte_of_to_N b0) at 1. f_equal.
    symmetry. apply (N.div_unique _ _ _ (q * 614125 + 614124 - w)); lia.
  - apply Forall_app. split; [by apply Forall_take, digits_of_bound|].
    repeat constructor; lia.
  - lia.
Qed.

(** A group of two bytes: three digits, padded with two. *)
Lemma decode_chunk_pad2 (i : nat) (b0 b1 : Byte.byte) :
  ∃ j2 j3,
    decode_chunk i (take 3 (chunk_of_word (word_of b0 b1 Byte.x00 Byte.x00))
                    ++ repeat Byte.x7e 2) = inr [b0; b1; j2; j3].
Proof.
  set (w := word_of b0 b1 Byte.x00 Byte.x00).
  pose proof (word_of_bound b0 b1 Byte.x00 Byte.x00) as Hw. fold w in Hw.
  pose proof (digits_of_bound w Hw) as Hds.
  assert (take 3 (chunk_of_word w) ++ repeat Byte.x7e 2
          = map _b85chars (take 3 (digits_of w) ++ [84] ++ [84])) as ->
    by reflexivity.
  pose proof (Byte.to_N_bounded b0) as Hb0. pose proof (Byte.to_N_bounded b1) as Hb1.
  assert (w = (Byte.to_N b0 * 256 + Byte.to_N b1) * 65536) as Hweq
    by (unfold w, word_of; change (Byte.to_N Byte.x00) with 0; lia).
  clearbody w.
  assert (value_of (take 3 (digits_of w) ++ [84] ++ [84]) = w / 7225 * 7225 + 7224) as Hv.
  { rewrite !app_assoc, !value_of_snoc, value_of_take3. lia. }
  pose proof (N.div_mod w 7225 ltac:(lia)) as Hdm.
  pose proof (N.mod_upper_bound w 7225 ltac:(lia)) as Hr.
  clear Hds. set (q := w / 7225) in *. set (r := w mod 7225) in *. clearbody q r.
  set (v := q * 7225 + 7224) in *.
  assert (v / 65536 = Byte.to_N b0 * 256 + Byte.to_N b1) as Hhi.
  { symmetry. apply (N.div_unique _ _ _ (v - w)); unfold v; lia. }
  rewrite decode_chunk_digits; rewrite ?Hv.
  - eexists _, _. f_equal. unfold packI. f_equal; [|f_equal].
    + rewrite <- (byte_of_to_N b0) at 1. f_equal.
      symmetry. apply (N.div_unique _ _ _ (v - Byte.to_N b0 * 16777216)); unfold v; lia.
    + rewrite <- (byte_of_to_N b1) at 1. f_equal. rewrite Hhi.
      symmetry. apply (N.mod_unique _ _ (Byte.to_N b0)); lia.
  - apply Forall_app. split; [by apply Forall_take, digits_of_bound|].
    repeat constructor; lia.
  - unfold v. lia.
Qed.

(** A group of three bytes: four digits, padded with one. *)
Lemma decode_chunk_pad1 (i : nat) (b0 b1 b2 : Byte.byte) :
  ∃ j3,
    decode_chunk i (take 4 (chunk_of_word (word_of b0 b1 b2 Byte.x00))
                    ++ repeat Byte.x7e 1) = inr [b0; b1; b2; j3].
Proof.
  set (w := word_of b0 b1 b2 Byte.x00).
  pose proof (word_of_bound b0 b1 b2 Byte.x00) as Hw. fold w in Hw.
  pose proof (digits_of_bound w Hw) as Hds.
  assert (take 4 (chunk_of_word w) ++ repeat Byte.x7e 1
          = map _b85chars (take 4 (digits_of w) ++ [84])) as ->
    by reflexivity.
  pose proof (Byte.to_N_bounded b0) as Hb0. pose proof (Byte.to_N_bounded b1) as Hb1.
  pose proof (Byte.to_N_bounded b2) as Hb2.
  assert (w = ((Byte.to_N b0 * 256 + Byte.to_N b1) * 256 + Byte.to_N b2) * 256) as Hweq
    by (unfold w, word_of; change (Byte.to_N Byte.x00) with 0; lia).
  clearbody w.
  assert (value_of (take 4 (digits_of w) ++ [84]) = w / 85 * 85 + 84) as Hv.
  { by rewrite value_of_snoc, value_of_take4. }
  pose proof (N.div_mod w 85 ltac:(lia)) as Hdm.
  pose proof (N.mod_upper_bound w 85 ltac:(lia)) as Hr.
  clear Hds. set (q := w / 85) in *. set (r := w mod 85) in *. clearbody q r.
  set (v := q * 85 + 84) in *.
  assert (v / 256 = (Byte.to_N b0 * 256 + Byte.to_N b1) * 256 + Byte.to_N b2) as Hhi.
  { symmetry. apply (N.div_unique _ _ _ (v - w)); unfold v; lia. }
  assert (v / 65536 = Byte.to_N b0 * 256 + Byte.to_N b1) as Hhi2.
  { symmetry.
    apply (N.div_unique _ _ _ (v - (Byte.to_N b0 * 256 + Byte.to_N b1) * 65536));
      unfold v; lia. }
  rewrite decode_chunk_digits; rewrite ?Hv.
  - eexists _. f_equal. unfold packI. f_equal; [|f_equal; [|f_equal]].
    + rewrite <- (byte_of_to_N b0) at 1. f_equal.
      symmetry. apply (N.div_unique _ _ _ (v - Byte.to_N b0 * 16777216)); unfold v; lia.
    + rewrite <- (byte_of_to_N b1) at 1. f_equal. rewrite Hhi2.
      symmetry. apply (N.mod_unique _ _ (Byte.to_N b0)); lia.
    + rewrite <- (byte_of_to_N b2) at 1. f_equal. rewrite Hhi.
      symmetry. apply (N.mod_unique _ _ (Byte.to_N b0 * 256 + Byte.to_N b1)); lia.
  - apply Forall_app. split; [by apply Forall_take, digits_of_bound|].
    repeat constructor; lia.
  - unfold v. lia.
Qed.

End Base85.

Section RoundTrip.
Import base64.

(** Induction on a list four elements at a time. *)
Lemma list_ind4 {A} (P : list A → Prop) :
  P [] → (∀ a, P [a]) → (∀ a b, P [a; b]) → (∀ a b c, P [a; b; c]) →
  (∀ a b c d l, P l → P (a :: b :: c :: d :: l)) →
  ∀ l, P l.
Proof.
  intros H0 H1 H2 H3 H4 l.
  assert (∀ n l, length l < n → P l) as Hn; [|apply (Hn (S (length l))); lia].
  clear l. induction n as [|n IH]; intros l Hl; [lia|].
  destruct l as [|a [|b [|c [|d l]]]]; auto.
  apply H4, IH. simpl in Hl. lia.
Qed.

Lemma neg_mod_add (n m : nat) : neg_mod (m + n) m = neg_mod n m.
Proof.
  unfold neg_mod. destruct m as [|m]; [done|].
  replace (S m + n) with (n + 1 * S m) by lia.
  by rewrite Nat.Div0.mod_add.
Qed.

Lemma neg_mod_lt (n m : nat) : 0 < m → neg_mod n m < m.
Proof. intros Hm. unfold neg_mod. apply Nat.mod_upper_bound. lia. Qed.

Lemma unpack_cons4 (b0 b1 b2 b3 : Byte.byte) (r : list Byte.byte) :
  unpack (b0 :: b1 :: b2 :: b3 :: r) = word_of b0 b1 b2 b3 :: unpack r.
Proof. reflexivity. Qed.

Lemma map_last_cons {A} (f : A → A) (x y : A) (l : list A) :
  map_last f (x :: y :: l) = x :: map_last f (y :: l).
Proof. reflexivity. Qed.

(** [b85encode] is the encoding group by group. *)
Lemma b85encode_groups (b : list Byte.byte) : b85encode b = encode_groups b.
Proof.
  induction b as [|b0|b0 b1|b0 b1 b2|b0 b1 b2 b3 l IH] using list_ind4;
    [reflexivity..|].
  unfold b85encode in *.
  change (length (b0 :: b1 :: b2 :: b3 :: l)) with (4 + length l).
  rewrite neg_mod_add.
  destruct (neg_mod (length l) 4) as [|p] eqn:Hp.
  - rewrite unpack_cons4. cbn [map concat encode_groups]. by rewrite IH.
  - change ((b0 :: b1 :: b2 :: b3 :: l) ++ repeat Byte.x00 (S p))
      with (b0 :: b1 :: b2 :: b3 :: (l ++ repeat Byte.x00 (S p))).
    rewrite unpack_cons4. cbn [map].
    destruct (unpack (l ++ repeat Byte.x00 (S p))) as [|word words] eqn:Hwords.
    + destruct l as [|x [|y [|z [|t l']]]];
        try discriminate Hwords; try discriminate Hp;
        injection Hp as <-; discriminate Hwords.
    + cbn [map]. rewrite map_last_cons. cbn [concat encode_groups].
      cbn [map] in IH. by rewrite IH.
Qed.

Lemma encode_groups_length (b : list Byte.byte) :
  neg_mod (length (encode_groups b)) 5 = neg_mod (length b) 4.
Proof.
  induction b as [|b0|b0 b1|b0 b1 b2|b0 b1 b2 b3 l IH] using list_ind4;
    [reflexivity..|].
  change (length (encode_groups (b0 :: b1 :: b2 :: b3 :: l)))
    with (5 + length (encode_groups l)).
  change (length (b0 :: b1 :: b2 :: b3 :: l)) with (4 + length l).
  by rewrite !neg_mod_add.
Qed.

(** Decoding the padded encoding gives the bytes back, followed by as many
    bytes as digits were added. *)
Lemma decode_encode_groups (b : list Byte.byte) (i : nat) :
  ∃ junk, length junk = neg_mod (length b) 4 ∧
    decode_chunks i (encode_groups b ++ repeat Byte.x7e (neg_mod (length b) 4))
      = inr (b ++ junk).
Proof.
  revert i.
  induction b as [|b0|b0 b1|b0 b1 b2|b0 b1 b2 b3 l IH] using list_ind4; intros i.
  - by exists [].
  - destruct (decode_chunk_pad3 i b0) as (j1 & j2 & j3 & H).
    exists [j1; j2; j3]. split; [done|].
    change (neg_mod (length [b0]) 4) with 3.
    cbn [encode_groups].
    change (decode_chunks i
              (take 2 (chunk_of_word (word_of b0 Byte.x00 Byte.x00 Byte.x00))
               ++ repeat Byte.x7e 3))
      with (match decode_chunk i
                    (take 2 (chunk_of_word (word_of b0 Byte.x00 Byte.x00 Byte.x00))
                     ++ repeat Byte.x7e 3) with
            | inl e => inl e
            | inr out => inr (out ++ [])
            end).
    by rewrite H.
  - destruct (decode_chunk_pad2 i b0 b1) as (j2 & j3 & H).
    exists [j2; j3]. split; [done|].
    change (neg_mod (length [b0; b1]) 4) with 2.
    cbn [encode_groups].
    change (decode_chunks i
              (take 3 (chunk_of_word (word_of b0 b1 Byte.x00 Byte.x00))
               ++ repeat Byte.x7e 2))
      with (match decode_chunk i
                    (take 3 (chunk_of_word (word_of b0 b1 Byte.x00 Byte.x00))
                     ++ repeat Byte.x7e 2) with
            | inl e => inl e
            | inr out => inr (out ++ [])
            end).
    by rewrite H.
  - destruct (decode_chunk_pad1 i b0 b1 b2) as (j3 & H).
    exists [j3]. split; [done|].
    change (neg_mod (length [b0; b1; b2]) 4) with 1.
    cbn [encode_groups].
    change (decode_chunks i
              (take 4 (chunk_of_word (word_of b0 b1 b2 Byte.x00))
               ++ repeat Byte.x7e 1))
      with (match decode_chunk i
                    (take 4 (chunk_of_word (word_of b0 b1 b2 Byte.x00))
                     ++ repeat Byte.x7e 1) with
            | inl e => inl e
            | inr out => inr (out ++ [])
            end).
    by rewrite H.
  - destruct (IH (i + 5)%nat) as (junk & Hlen & Hdec).
    exists junk.
    change (length (b0 :: b1 :: b2 :: b3 :: l)) with (4 + length l).
    rewrite neg_mod_add. split; [done|].
    change (decode_chunks i
              (encode_groups (b0 :: b1 :: b2 :: b3 :: l)
               ++ repeat Byte.x7e (neg_mod (length l) 4)))
      with (match decode_chunk i (chunk_of_word (word_of b0 b1 b2 b3)) with
            | inl e => inl e
            | inr out =>
                match decode_chunks (i + 5)
                        (encode_groups l ++ repeat Byte.x7e (neg_mod (length l) 4)) with
                | inl e => inl e
                | inr outs => inr (out ++ outs)
                end
            end).
    by rewrite decode_chunk_full, Hdec.
Qed.

(** The text-safe encoding decodes to the bytes that were encoded. *)
Lemma b85decode_b85encode (b : list Byte.byte) : b85decode (b85encode b) = inr b.
Proof.
  rewrite b85encode_groups. unfold b85decode.
  rewrite encode_groups_length.
  destruct (decode_encode_groups b 0) as (junk & Hlen & ->).
  destruct (neg_mod (length b) 4) as [|p] eqn:Hp.
  - destruct junk; [|done]. by rewrite app_nil_r.
  - unfold drop_last. rewrite length_app, Hlen.
    replace (length b + S p - S p)%nat with (length b) by lia.
    by rewrite take_app_length.
Qed.

End RoundTrip.

(** ** The bytes literal of the script *)

Section Literal.
Import base64.

Lemma b85chars_safe (d : N) : (d < 85)%N → b85_safe (_b85chars d) = true.
Proof. intros Hd. unfold b85_safe. by rewrite b85dec_chars. Qed.

Lemma chunk_of_word_safe (w : N) :
  (w ≤ 4294967295)%N → Forall (λ c, b85_safe c = true) (chunk_of_word w).
Proof.
  intros Hw. rewrite chunk_of_word_digits. apply Forall_map.
  eapply Forall_impl; [by apply digits_of_bound|]. intros d Hd. by apply b85chars_safe.
Qed.

(** Every byte of the encoding is a byte of the alphabet. *)
Lemma b85encode_safe (b : list Byte.byte) : Forall (λ c, b85_safe c = true) (b85encode b).
Proof.
  rewrite b85encode_groups.
  induction b as [|b0|b0 b1|b0 b1 b2|b0 b1 b2 b3 l IH] using list_ind4.
  - constructor.
  - apply Forall_take, chunk_of_word_safe, word_of_bound.
  - apply Forall_take, chunk_of_word_safe, word_of_bound.
  - apply Forall_take, chunk_of_word_safe, word_of_bound.
  - cbn [encode_groups]. apply Forall_app. split; [|done].
    apply chunk_of_word_safe, word_of_bound.
Qed.

(** A byte of the alphabet is written as itself in a literal, and is neither
    a quote, nor a backslash, nor a line break. *)
Lemma safe_byte (c : Byte.byte) :
  b85_safe c = true →
  repr_byte quote1 c = String (ascii_of_byte c) "" ∧
  Ascii.eqb (ascii_of_byte c) quote1 = false ∧
  Ascii.eqb (ascii_of_byte c) backslash = false ∧
  Ascii.eqb (ascii_of_byte c) (ascii_of_nat 10) = false.
Proof.
  destruct c; first [discriminate | intros _; vm_compute; done].
Qed.

Lemma safe_has_no_quote (b : list Byte.byte) :
  Forall (λ c, b85_safe c = true) b → has_byte quote1 b = false.
Proof.
  induction 1 as [|c b Hc _ IH]; [done|].
  unfold has_byte in *. simpl. rewrite IH.
  destruct (safe_byte c Hc) as (_ & -> & _). done.
Qed.

Lemma safe_repr_body (b : list Byte.byte) :
  Forall (λ c, b85_safe c = true) b →
  String.concat "" (map (repr_byte quote1) b) = string_of_list_byte b.
Proof.
  induction 1 as [|c b Hc Hb IH]; [done|].
  destruct (safe_byte c Hc) as (Hrepr & _).
  cbn [map]. rewrite Hrepr.
  destruct b as [|c' b]; [done|].
  change (String.concat "" (String (ascii_of_byte c) "" :: map (repr_byte quote1) (c' :: b)))
    with (String (ascii_of_byte c) (String.concat "" (map (repr_byte quote1) (c' :: b)))).
  by rewrite IH.
Qed.

Lemma bytes_repr_safe (b : list Byte.byte) :
  Forall (λ c, b85_safe c = true) b →
  bytes_repr b = String "b" (String quote1 (string_of_list_byte b ++ String quote1 "")).
Proof.
  intros Hb. unfold bytes_repr. by rewrite safe_has_no_quote, safe_repr_body.
Qed.

Lemma parse_safe_body (b : list Byte.byte) :
  Forall (λ c, b85_safe c = true) b →
  parse_bytes_body quote1 (string_of_list_byte b ++ String quote1 "") = Some b.
Proof.
  induction 1 as [|c b Hc _ IH]; [done|].
  destruct (safe_byte c Hc) as (_ & Hq & Hb & _).
  change (string_of_list_byte (c :: b) ++ String quote1 "")%string
    with (String (ascii_of_byte c) (string_of_list_byte b ++ String quote1 "")%string).
  cbn [parse_bytes_body]. rewrite Hq, Hb, IH. simpl.
  by rewrite byte_of_ascii_of_byte.
Qed.

(** The literal that the script carries reads back as the encoded bytes. *)
Lemma parse_bytes_repr (b : list Byte.byte) :
  Forall (λ c, b85_safe c = true) b → parse_bytes_literal (bytes_repr b) = Some b.
Proof.
  intros Hb. rewrite bytes_repr_safe by done.
  change (parse_bytes_literal (String "b" (String quote1 ?r)))
    with (parse_bytes_body quote1 r).
  by apply parse_safe_body.
Qed.

End Literal.

(** ** The lines of the script *)

Local Open Scope string_scope.

Lemma one_line_app (a b : string) : one_line (a ++ b) = one_line a && one_line b.
Proof.
  induction a as [|c a IH]; [done|].
  rewrite append_cons. cbn [one_line]. rewrite IH. by rewrite andb_assoc.
Qed.

Lemma one_line_hex (u : Hexadecimal.uint) :
  one_line (HexadecimalString.NilEmpty.string_of_uint u) = true.
Proof. induction u; simpl; done. Qed.

Lemma one_line_wrapper_repr (address : N) : one_line (wrapper_repr address) = true.
Proof.
  unfold wrapper_repr. rewrite !one_line_app, one_line_hex. reflexivity.
Qed.

Lemma one_line_safe (b : list Byte.byte) :
  Forall (λ c, b85_safe c = true) b → one_line (string_of_list_byte b) = true.
Proof.
  induction 1 as [|c b Hc _ IH]; [done|].
  destruct (safe_byte c Hc) as (_ & _ & _ & Hnl).
  change (string_of_list_byte (c :: b)) with (String (ascii_of_byte c) (string_of_list_byte b)).
  cbn [one_line]. by rewrite Hnl, IH.
Qed.

Lemma one_line_bytes_repr (b : list Byte.byte) :
  Forall (λ c, b85_safe c = true) b → one_line (bytes_repr b) = true.
Proof.
  intros Hb. rewrite bytes_repr_safe by done.
  cbn [one_line]. rewrite one_line_app, one_line_safe by done. reflexivity.
Qed.

Lemma lines_of_one_line (s : string) : one_line s = true → lines_of s = [s].
Proof.
  induction s as [|c s IH]; [done|].
  cbn [one_line lines_of]. intros [Hc Hs]%andb_true_iff.
  apply negb_true_iff in Hc. by rewrite Hc, IH.
Qed.

Lemma lines_of_app (s rest : string) :
  one_line s = true → lines_of (s ++ nl ++ rest) = s :: lines_of rest.
Proof.
  induction s as [|c s IH]; [done|].
  cbn [one_line]. intros [Hc Hs]%andb_true_iff.
  apply negb_true_iff in Hc.
  rewrite append_cons. cbn [lines_of]. by rewrite Hc, IH.
Qed.

Lemma lines_of_concat (ls : list string) :
  ls ≠ [] → Forall (λ l, one_line l = true) ls → lines_of (String.concat nl ls) = ls.
Proof.
  intros Hne Hls. induction Hls as [|l ls Hl Hls IH]; [done|].
  destruct ls as [|l' ls].
  - by apply lines_of_one_line.
  - change (String.concat nl (l :: l' :: ls)) with (l ++ nl ++ String.concat nl (l' :: ls)).
    rewrite lines_of_app by done. by rewrite IH.
Qed.

Lemma driver_script_lines_of (callable_repr : string) (pickled : list Byte.byte) :
  one_line callable_repr = true →
  lines_of (driver_script_text callable_repr pickled)
    = driver_script_lines callable_repr pickled.
Proof.
  intros Hrepr.
  change (driver_script_text callable_repr pickled)
    with (String.concat nl (driver_script_lines callable_repr pickled)).
  apply lines_of_concat; [done|].
  unfold driver_script_lines.
  repeat (apply Forall_cons; split); try reflexivity; [| |constructor].
  - by rewrite one_line_app, Hrepr.
  - rewrite one_line_app, one_line_bytes_repr; [done|]. apply b85encode_safe.
Qed.

(** ** The script on the cluster *)

Section Script.
Context (loads : list Byte.byte → exn + work_unit).

Lemma exec_lines_cons (line : string) (rest : list string) (st : interpreter) :
  exec_lines loads (line :: rest) st
  = match exec_line loads line st with
    | inl e => inl e
    | inr st' => exec_lines loads rest st'
    end.
Proof. reflexivity. Qed.

Lemma exec_line_comment (text : string) (st : interpreter) :
  exec_line loads (String "#" text) st = inr st.
Proof. reflexivity. Qed.

Lemma exec_line_data (literal : string) (st : interpreter) :
  exec_line loads ("data = " ++ literal) st
  = match parse_bytes_literal literal with
    | Some d => inr {| imported := imported st; data := Some d; call_ := call_ st;
                       environ := environ st; invocations := invocations st |}
    | None => inl (Exception "SyntaxError" None)
    end.
Proof. reflexivity. Qed.

(** The script, run with the environment [os_environ], makes one call: the
    unpickled work unit, after its environment overrides. *)
Lemma run_generated_script (callable_repr : string) (pickled : list Byte.byte)
    (u : work_unit) (os_environ : gmap string string) :
  one_line callable_repr = true →
  loads pickled = inr u →
  run_driver_script loads (driver_script_text callable_repr pickled) os_environ
  = inr ((__call__ u os_environ).1, [(__call__ u os_environ).2]).
Proof.
  intros Hrepr Hloads. unfold run_driver_script.
  rewrite driver_script_lines_of by done. unfold driver_script_lines.
  rewrite exec_lines_cons. change (exec_line loads "" ?st) with (inr st : exn + interpreter).
  cbv iota.
  rewrite exec_lines_cons. change (exec_line loads "" ?st) with (inr st : exn + interpreter).
  cbv iota.
  rewrite exec_lines_cons, exec_line_comment.
  rewrite exec_lines_cons.
  change (exec_line loads "import pickle, base64" (start os_environ))
    with (inr {| imported := true; data := None; call_ := None; environ := os_environ;
                 invocations := [] |} : exn + interpreter).
  cbv iota.
  rewrite exec_lines_cons. change (exec_line loads "" ?st) with (inr st : exn + interpreter).
  cbv iota.
  rewrite exec_lines_cons.
  change (exec_line loads ("# unpickle'n'call " ++ callable_repr) ?st)
    with (inr st : exn + interpreter).
  cbv iota.
  rewrite exec_lines_cons, exec_line_data, parse_bytes_repr by apply b85encode_safe.
  cbn [imported data call_ environ invocations].
  rewrite exec_lines_cons. change (exec_line loads "" ?st) with (inr st : exn + interpreter).
  cbv iota.
  rewrite exec_lines_cons.
  change (exec_line loads "call = pickle.loads(base64.b85decode(data))"
            {| imported := true; data := Some (base64.b85encode pickled); call_ := None;
               environ := os_environ; invocations := [] |})
    with (match base64.b85decode (base64.b85encode pickled) with
          | inl e => inl e
          | inr pickled' =>
              match loads pickled' with
              | inl e => inl e
              | inr u' =>
                  inr {| imported := true; data := Some (base64.b85encode pickled);
                         call_ := Some u'; environ := os_environ; invocations := [] |}
              end
          end : exn + interpreter).
  rewrite b85decode_b85encode, Hloads.
  rewrite exec_lines_cons.
  change (exec_line loads "call()" ?st)
    with (match call_ st with
          | Some u' =>
              let '(environ', inv) := __call__ u' (environ st) in
              inr {| imported := imported st; data := data st; call_ := call_ st;
                     environ := environ'; invocations := invocations st ++ [inv] |}
          | None => inl (Exception "NameError" None)
          end : exn + interpreter).
  cbn [imported data call_ environ invocations].
  destruct (__call__ u os_environ) as [environ' inv] eqn:Hcall.
  reflexivity.
Qed.

End Script.

(** C5. When pickle can ship the wrapper, [generate_driver_script] returns a
    script which, run on the cluster, first updates the process environment
    with the wrapper's overrides and then calls the wrapped callable once,
    with the wrapper's positional and keyword arguments and nothing else.
    The payload travels in the script as a bytes literal of its base 85
    encoding: every byte of it is a byte of the alphabet, the literal reads
    back as the encoding, and the encoding decodes to the pickled bytes. *)
Theorem bootstrap_round_trip
    (loads : list Byte.byte → exn + work_unit)
    (callable : _PySparkDriverWrapper.t) (w : world) (s : state)
    (pickled : list Byte.byte) (os_environ : gmap string string) :
  w_pickle_dumps w (snapshot (store s) callable) = inr pickled →
  loads pickled = inr (snapshot (store s) callable) →
  ∃ script,
    generate_driver_script callable w s = (s, Returned script) ∧
    run_driver_script loads script os_environ
      = inr (_PySparkDriverWrapper.envs callable ∪ os_environ,
             [ {| inv_callable := _PySparkDriverWrapper.callable callable;
                  inv_args := _PySparkDriverWrapper.args callable;
                  inv_kwargs := deref (store s) (_PySparkDriverWrapper.kwargs callable);
                  inv_environ := _PySparkDriverWrapper.envs callable ∪ os_environ |} ]) ∧
    base64.b85decode (base64.b85encode pickled) = inr pickled ∧
    Forall (λ c, b85_safe c = true) (base64.b85encode pickled) ∧
    parse_bytes_literal (bytes_repr (base64.b85encode pickled))
      = Some (base64.b85encode pickled).
Proof.
  intros Hdumps Hloads.
  exists (driver_script_text (wrapper_repr (w_object_address w)) pickled).
  split_and!.
  - unfold generate_driver_script, mbind, M_bind, bind, ask, get_state.
    by rewrite Hdumps.
  - rewrite (run_generated_script loads _ _ (snapshot (store s) callable));
      [reflexivity | apply one_line_wrapper_repr | done].
  - apply b85decode_b85encode.
  - apply b85encode_safe.
  - apply parse_bytes_repr, b85encode_safe.
Qed.

Lemma demo_snapshot : snapshot demo_store demo_wrapper = demo_unit.
Proof. vm_compute. reflexivity. Qed.

Lemma bootstrap_round_trip_witness :
  ∃ script,
    generate_driver_script demo_wrapper demo_world
      {| trace := []; get_job_calls := 0; store := demo_store |}
      = ({| trace := []; get_job_calls := 0; store := demo_store |}, Returned script) ∧
    run_driver_script demo_loads script ∅
      = inr (<["env" := "dev"]> ∅ ∪ ∅,
             [ {| inv_callable := Callable "proj.main.driver";
                  inv_args := [];
                  inv_kwargs := deref demo_store 0;
                  inv_environ := <["env" := "dev"]> ∅ ∪ ∅ |} ]).
Proof.
  destruct (bootstrap_round_trip demo_loads demo_wrapper demo_world
              {| trace := []; get_job_calls := 0; store := demo_store |}
              (list_byte_of_string "pickled!") ∅)
    as (script & Hgen & Hrun & _).
  - reflexivity.
  - simpl. rewrite demo_snapshot. reflexivity.
  - exists script. split; [exact Hgen | exact Hrun].
Defined.

(** * What a run ships to the cluster *)

Local Open Scope list_scope.

Lemma ret_run {A} (a : A) (w : world) (s : state) : (mret a : M A) w s = (s, Returned a).
Proof. reflexivity. Qed.

Lemma generate_and_upload_driver_run (callable : _PySparkDriverWrapper.t)
    (bucket driver_path : string) (w : world) (s : state) (pickled : list Byte.byte) :
  w_pickle_dumps w (snapshot (store s) callable) = inr pickled →
  generate_and_upload_driver callable bucket driver_path w s
  = (extend s [Log LogDebug "Upload generate driver to %s";
               UploadFromString driver_path
                 (driver_script_text (wrapper_repr (w_object_address w)) pickled)
                 "application/octet-stream"],
     match w_upload_from_string w driver_path
             (driver_script_text (wrapper_repr (w_object_address w)) pickled) with
     | None => Returned tt
     | Some e => Raised e
     end).
Proof.
  intros Hpickle. unfold generate_and_upload_driver, generate_driver_script, logger.
  rewrite bind_run, emit_extend, bind_run, bind_run. cbn [ask]. rewrite bind_run.
  cbn [get_state]. change (store (extend s _)) with (store s). rewrite Hpickle.
  change ((mret (driver_script_text (wrapper_repr (w_object_address w)) pickled) : M string)
            w (extend s [Log LogDebug "Upload generate driver to %s"]))
    with (extend s [Log LogDebug "Upload generate driver to %s"],
          Returned (driver_script_text (wrapper_repr (w_object_address w)) pickled)).
  cbv beta iota. by rewrite call_unit_run, extend_extend.
Qed.

Lemma uploads_extend (s : state) (events : list event) :
  driver_uploads (extend s events) = driver_uploads s ++ List.filter is_driver_upload events.
Proof. unfold driver_uploads, extend. simpl. apply List.filter_app. Qed.

Lemma ship_get_job (project_id region job_id : string) :
  preserves ship_view (get_job project_id region job_id).
Proof.
  intros w s. unfold get_job.
  destruct (w_get_job w (get_job_calls s) job_id); simpl;
    unfold ship_view, driver_uploads; simpl; by rewrite List.filter_app, app_nil_r.
Qed.

Lemma ship_wait (fuel : nat) (project_id region job_id : string) :
  preserves ship_view (_wait_for_job_to_finish fuel project_id region job_id).
Proof.
  unfold _wait_for_job_to_finish. apply preserves_bind; [preserves_tac|intros _].
  induction fuel as [|fuel IH]; [by intros w s|].
  cbn [_wait_for_job_to_finish_loop].
  apply preserves_bind; [apply ship_get_job|intros job].
  destruct (status_state job); unfold sleep;
    repeat first [exact IH | preserves_step].
Qed.

Lemma ship_print_job_output_log (project_id region job_id : string) :
  preserves ship_view (_print_job_output_log project_id region job_id).
Proof.
  unfold _print_job_output_log.
  apply preserves_bind; [apply ship_get_job|intros job]. preserves_tac.
Qed.

Lemma ship_with_block (fuel : nat) (self : PySparkJob.t)
    (driver_path egg_path cluster_name : string) :
  preserves ship_view (with_block fuel self driver_path egg_path cluster_name).
Proof.
  unfold with_block, _prepare_pyspark_properties, _submit_single_pyspark_job.
  repeat first
    [ apply ship_wait
    | apply ship_print_job_output_log
    | apply preserves_try_finally
    | preserves_step ].
Qed.

Lemma ship_with_temp_cluster {A} (self : PySparkJob.t) (cluster_name : string)
    (body : string → M A) :
  (∀ c, preserves ship_view (body c)) →
  preserves ship_view (_with_temp_cluster self cluster_name body).
Proof.
  intros Hbody. unfold _with_temp_cluster, _create_cluster, _delete_cluster.
  repeat first
    [ apply Hbody
    | apply preserves_try_finally
    | apply preserves_attempt
    | preserves_step ].
Qed.

Lemma uploads_before_upload (self : PySparkJob.t) (runtime : pyobj) :
  preserves driver_uploads (before_upload self runtime).
Proof.
  unfold before_upload, _ensure_has_setup_file, _generate_internal_jobid,
    _prepare_driver_callable, _build_project_egg.
  preserves_tac.
Qed.

Lemma ship_returned {A} (m : M A) (w : world) (s s' : state) (a : A) :
  preserves ship_view m → m w s = (s', Returned a) → store s' = store s.
Proof.
  intros Hm Hrun. specialize (Hm w s). rewrite Hrun in Hm. by injection Hm.
Qed.

(** From a step that returned: its store is the one it started with. *)
Ltac ship_in H :=
  match type of H with
  | ?m ?w ?s = (_, Returned _) =>
      let P := fresh "P" in
      assert (preserves ship_view m) as P
        by (unfold _ensure_has_setup_file, _generate_internal_jobid, _build_project_egg;
            preserves_tac);
      apply (ship_returned _ _ _ _ _ P) in H; clear P
  end.

Lemma ensure_has_setup_file_ships (self self' : PySparkJob.t) (w : world) (s s' : state) :
  _ensure_has_setup_file self w s = (s', Returned self') →
  PySparkJob.driver_callable self' = PySparkJob.driver_callable self ∧
  PySparkJob.driver_arguments self' = PySparkJob.driver_arguments self ∧
  PySparkJob.env self' = PySparkJob.env self.
Proof.
  unfold _ensure_has_setup_file.
  destruct (truthy (PySparkJob.setup_file self)).
  - by intros [= _ <-].
  - intros H. apply bind_returned in H as (s1 & [] & _ & H).
    apply bind_returned in H as (s2 & f & _ & H).
    by injection H as _ <-.
Qed.

(** The wrapper that [run] carries to the upload of the driver holds the
    arguments of the job with the runtime of this run. *)
Lemma before_upload_ships (self self' : PySparkJob.t) (runtime : pyobj) (w : world)
    (s s1 : state) (jid egg : string) (driver : _PySparkDriverWrapper.t) :
  is_Some (store s !! PySparkJob.driver_arguments self) →
  before_upload self runtime w s = (s1, Returned (self', jid, driver, egg)) →
  snapshot (store s1) driver
  = {| wu_callable := PySparkJob.driver_callable self;
       wu_args := [];
       wu_kwargs := <["runtime"%string := runtime]>
                      (deref (store s) (PySparkJob.driver_arguments self));
       wu_envs := if truthy (Some (PySparkJob.env self))
                  then <["env"%string := PySparkJob.env self]> ∅ else ∅ |}.
Proof.
  intros Hlive H. unfold before_upload in H.
  apply bind_returned in H as (sa & [] & Ha & H).
  ship_in Ha.
  apply bind_returned in H as (sb & self1 & Hb & H).
  pose proof (ensure_has_setup_file_ships _ _ _ _ _ Hb) as (Hcallable & Harguments & Henv).
  ship_in Hb.
  apply bind_returned in H as (sc & jid1 & Hc & H).
  ship_in Hc.
  apply bind_returned in H as (sd & [] & Hd & H).
  ship_in Hd.
  apply bind_returned in H as (se & [] & He & H).
  ship_in He.
  assert (store se = store s) as Hstore by congruence.
  apply bind_returned in H as (sf & driver1 & Hf & H).
  destruct (prepare_driver_callable_binds self1 runtime w se)
    as (sf' & wrapper & Hprepare & Hsnapshot & _).
  { by rewrite Hstore, Harguments. }
  rewrite Hprepare in Hf. injection Hf as -> ->.
  apply bind_returned in H as (sg & [] & Hg & H).
  ship_in Hg.
  apply bind_returned in H as (sh & [] & Hh & H).
  ship_in Hh.
  apply bind_returned in H as (si & egg1 & Hi & H).
  ship_in Hi.
  injection H as -> _ _ -> _.
  assert (store s1 = store sf) as -> by congruence.
  by rewrite Hsnapshot, Hstore, Hcallable, Harguments, Henv.
Qed.

Lemma live_unchanged_refl (s : state) : live_unchanged s s.
Proof. by intros l _. Qed.

Lemma live_unchanged_trans (s1 s2 s3 : state) :
  live_unchanged s1 s2 → live_unchanged s2 s3 → live_unchanged s1 s3.
Proof.
  intros H12 H23 l Hl. rewrite <- (H12 l Hl). apply H23. by rewrite (H12 l Hl).
Qed.

Lemma live_bind {A B} (m : M A) (k : A → M B) :
  (∀ w s, live_unchanged s (m w s).1) → (∀ a w s, live_unchanged s (k a w s).1) →
  ∀ w s, live_unchanged s ((m ≫= k) w s).1.
Proof.
  intros Hm Hk w s. rewrite bind_run. specialize (Hm w s).
  destruct (m w s) as [s1 [a|e|]]; [|done..].
  eapply live_unchanged_trans; [exact Hm | apply Hk].
Qed.

Lemma live_of_ship {A} (m : M A) :
  preserves ship_view m → ∀ w s, live_unchanged s (m w s).1.
Proof. intros Hm w s l _. specialize (Hm w s). injection Hm as _ Hstore. by rewrite Hstore. Qed.

Lemma live_prepare_driver_callable (self : PySparkJob.t) (runtime : pyobj) (w : world)
    (s : state) :
  live_unchanged s (_prepare_driver_callable self runtime w s).1.
Proof.
  intros l Hl.
  assert (l ≠ fresh (dom (store s))) as Hne.
  { intros ->. rewrite (new_dict_fresh (store s) ∅) in Hl. by destruct Hl. }
  unfold _prepare_driver_callable, dict_copy, new_dict.
  destruct (PySparkJob.env self) as [|c r]; simpl;
    unfold dict_setitem; by rewrite !lookup_insert_ne.
Qed.

Lemma live_generate_and_upload_driver (callable : _PySparkDriverWrapper.t)
    (bucket driver_path : string) (w : world) (s : state) :
  live_unchanged s (generate_and_upload_driver callable bucket driver_path w s).1.
Proof.
  destruct (w_pickle_dumps w (snapshot (store s) callable)) as [e|pickled] eqn:Hpickle.
  - rewrite (generate_and_upload_driver_fails _ _ _ _ _ e) by done. by intros l _.
  - rewrite (generate_and_upload_driver_run _ _ _ _ _ pickled) by done. by intros l _.
Qed.

Lemma live_run (fuel : nat) (self : PySparkJob.t) (runtime : pyobj) (w : world) (s : state) :
  live_unchanged s (run fuel self runtime w s).1.
Proof.
  revert w s. unfold run.
  repeat first
    [ apply live_prepare_driver_callable
    | apply live_generate_and_upload_driver
    | apply live_of_ship;
      solve
        [ unfold _ensure_has_setup_file, _generate_internal_jobid, _build_project_egg,
            _upload_egg;
          repeat first
            [ apply ship_with_temp_cluster; intros ?
            | apply ship_wait
            | apply ship_print_job_output_log
            | apply preserves_try_finally
            | progress unfold _prepare_pyspark_properties, _submit_single_pyspark_job
            | preserves_step ] ]
    | cbv zeta; apply live_bind; [|intros ?] ].
Qed.

Lemma ship_tail (fuel : nat) (self : PySparkJob.t) (jid driver_path egg_path : string) :
  preserves ship_view
    (_with_temp_cluster self jid (with_block fuel self driver_path egg_path);;
     logger LogInfo "Job %r was finished").
Proof.
  apply preserves_bind; [|intros ?; preserves_tac].
  apply ship_with_temp_cluster. intros c. apply ship_with_block.
Qed.

(** The driver script that a run uploads is made from the work unit with
    the runtime of that run. *)
Lemma run_uploads (fuel : nat) (self : PySparkJob.t) (runtime : pyobj) (w : world)
    (s : state) :
  is_Some (store s !! PySparkJob.driver_arguments self) →
  let unit :=
    {| wu_callable := PySparkJob.driver_callable self;
       wu_args := [];
       wu_kwargs := <["runtime"%string := runtime]>
                      (deref (store s) (PySparkJob.driver_arguments self));
       wu_envs := if truthy (Some (PySparkJob.env self))
                  then <["env"%string := PySparkJob.env self]> ∅ else ∅ |} in
  ∃ L, driver_uploads (run fuel self runtime w s).1 = driver_uploads s ++ L ∧
    (L = [] ∨
     ∃ path pickled,
       w_pickle_dumps w unit = inr pickled ∧
       L = [UploadFromString path
              (driver_script_text (wrapper_repr (w_object_address w)) pickled)
              "application/octet-stream"]).
Proof.
  intros Hlive unit.
  rewrite run_unfold, bind_run, before_with_unfold, bind_run.
  pose proof (uploads_before_upload self runtime w s) as Hup.
  destruct (before_upload self runtime w s) as [s1 [[[[self' jid] driver] egg]|e|]]
    eqn:Hbefore; cbn [fst] in Hup;
    [|exists []; cbn [fst]; rewrite app_nil_r; by split; [|left]..].
  apply before_upload_ships in Hbefore; [|done]. fold unit in Hbefore.
  cbv beta iota. rewrite bind_run, upload_egg_run. cbv zeta.
  destruct (w_upload_from_filename w _ egg) as [e|].
  { exists []. cbn [fst]. rewrite uploads_extend, Hup. simpl. by split; [|left]. }
  rewrite bind_run.
  destruct (w_pickle_dumps w unit) as [e|pickled] eqn:Hpickle.
  { rewrite (generate_and_upload_driver_fails _ _ _ _ _ e) by exact (eq_trans
      (f_equal (w_pickle_dumps w) Hbefore) Hpickle).
    exists []. cbn [fst]. rewrite !uploads_extend, Hup. simpl.
    rewrite !app_nil_r. by split; [|left]. }
  rewrite (generate_and_upload_driver_run _ _ _ _ _ pickled) by exact (eq_trans
    (f_equal (w_pickle_dumps w) Hbefore) Hpickle).
  eexists [UploadFromString _ _ _]. split; [|right; by eexists _, pickled].
  destruct (w_upload_from_string w _ _) as [e|].
  { cbn [fst]. rewrite !uploads_extend, Hup. simpl. by rewrite !app_nil_r. }
  rewrite ret_run. cbv beta iota.
  match goal with |- driver_uploads (_ w ?s3).1 = _ =>
    pose proof (ship_tail fuel self' jid
                  (jid ++ "/" ++ PySparkJob.driver_filename self')%string
                  (jid ++ "/" ++ path_name egg)%string w s3) as Htail
  end.
  injection Htail as Htail _.
  etransitivity; [exact Htail|].
  rewrite !uploads_extend, Hup. simpl. by rewrite !app_nil_r.
Qed.

Lemma init_arguments_live (p : process) (h : heap) (a : init_args) :
  is_Some ((__init__ p h a).1 !! PySparkJob.driver_arguments (__init__ p h a).2).
Proof.
  unfold __init__, dict_or_new.
  destruct (a_driver_arguments a) as [l|]; [case_bool_decide as Hempty|]; cbn.
  - rewrite lookup_insert_eq. by eexists.
  - unfold deref in Hempty. destruct (h !! l); [by eexists|done].
  - rewrite lookup_insert_eq. by eexists.
Qed.

(** C9. The dictionary of driver arguments of a constructed job is live in
    the store that the constructor leaves.  In every call of [run] with the
    runtime [r], on a job whose dictionary of driver arguments is live, the
    work unit that is pickled into the driver script holds as keyword
    arguments the arguments of the job with the key [runtime] set to [r],
    whatever the caller had stored under that key: a driver script that the
    run uploads is the script made from the pickle of that unit, and when the
    script runs on the cluster it calls the driver callable with those
    keyword arguments.  The wrapper is made by [_prepare_driver_callable]
    from a new dictionary, so that the dictionary of the job, and every
    other dictionary that was live, is after the run as it was before. *)
Theorem run_binds_runtime :
  (∀ (p : process) (h : heap) (a : init_args),
     is_Some ((__init__ p h a).1 !! PySparkJob.driver_arguments (__init__ p h a).2)) ∧
  (∀ (fuel : nat) (self : PySparkJob.t) (runtime : pyobj) (w : world) (s : state),
     is_Some (store s !! PySparkJob.driver_arguments self) →
     let arguments := deref (store s) (PySparkJob.driver_arguments self) in
     let unit :=
       {| wu_callable := PySparkJob.driver_callable self;
          wu_args := [];
          wu_kwargs := <["runtime"%string := runtime]> arguments;
          wu_envs := if truthy (Some (PySparkJob.env self))
                     then <["env"%string := PySparkJob.env self]> ∅ else ∅ |} in
     let script pickled := driver_script_text (wrapper_repr (w_object_address w)) pickled in
     (∃ s' wrapper,
        _prepare_driver_callable self runtime w s = (s', Returned wrapper) ∧
        snapshot (store s') wrapper = unit ∧
        _PySparkDriverWrapper.kwargs wrapper ≠ PySparkJob.driver_arguments self ∧
        deref (store s') (PySparkJob.driver_arguments self) = arguments) ∧
     wu_kwargs unit !! "runtime"%string = Some runtime ∧
     (∀ k, k ≠ "runtime"%string → wu_kwargs unit !! k = arguments !! k) ∧
     (∃ L, driver_uploads (run fuel self runtime w s).1 = driver_uploads s ++ L ∧
        (L = [] ∨
         ∃ path pickled,
           w_pickle_dumps w unit = inr pickled ∧
           L = [UploadFromString path (script pickled) "application/octet-stream"])) ∧
     (∀ loads pickled environ,
        w_pickle_dumps w unit = inr pickled → loads pickled = inr unit →
        ∃ environ',
          run_driver_script loads (script pickled) environ
          = inr (environ',
                 [ {| inv_callable := PySparkJob.driver_callable self;
                      inv_args := [];
                      inv_kwargs := <["runtime"%string := runtime]> arguments;
                      inv_environ := environ' |} ])) ∧
     deref (store (run fuel self runtime w s).1) (PySparkJob.driver_arguments self)
       = arguments ∧
     (∀ l, is_Some (store s !! l) → store (run fuel self runtime w s).1 !! l = store s !! l)).
Proof.
  split; [exact init_arguments_live|].
  intros fuel self runtime w s Hlive arguments unit script. split_and!.
  - destruct (prepare_driver_callable_binds self runtime w s Hlive)
      as (s' & wrapper & Hrun & Hsnapshot & Hne & _ & Hframe).
    exists s', wrapper. split_and!; try done.
    unfold arguments, deref. by rewrite Hframe.
  - apply lookup_insert_eq.
  - intros k Hk. by apply lookup_insert_ne.
  - by apply run_uploads.
  - intros loads pickled environ _ Hloads. eexists.
    unfold script. rewrite (run_generated_script loads _ _ unit);
      [reflexivity | apply one_line_wrapper_repr | done].
  - unfold arguments, deref. by rewrite (live_run fuel self runtime w s _ Hlive).
  - apply live_run.
Qed.

Lemma stale_heap_kept : (__init__ demo_process stale_heap stale_args).1 = stale_heap.
Proof. vm_compute. reflexivity. Qed.

Lemma run_binds_runtime_witness :
  deref stale_heap (PySparkJob.driver_arguments stale_job) !! "runtime"%string
    = Some (PyStr "stale") ∧
  (∃ s' wrapper,
     _prepare_driver_callable stale_job (PyStr "2024-01-01") demo_world
       (initial_state stale_heap) = (s', Returned wrapper) ∧
     wu_kwargs (snapshot (store s') wrapper) !! "runtime"%string
       = Some (PyStr "2024-01-01") ∧
     wu_kwargs (snapshot (store s') wrapper) !! "table"%string = Some (PyStr "events")) ∧
  deref (store (run 3 stale_job (PyStr "2024-01-01") demo_world
                  (initial_state stale_heap)).1)
    (PySparkJob.driver_arguments stale_job) !! "runtime"%string
    = Some (PyStr "stale").
Proof.
  assert (is_Some (stale_heap !! PySparkJob.driver_arguments stale_job)) as Hlive.
  { pose proof (proj1 run_binds_runtime demo_process stale_heap stale_args) as H.
    rewrite stale_heap_kept in H. exact H. }
  destruct (proj2 run_binds_runtime 3 stale_job (PyStr "2024-01-01") demo_world
              (initial_state stale_heap) Hlive)
    as ((s' & wrapper & Hrun & Hsnapshot & _) & _ & _ & _ & _ & Hkept & _).
  split_and!.
  - reflexivity.
  - exists s', wrapper. rewrite Hsnapshot. split_and!; [exact Hrun | reflexivity..].
  - rewrite Hkept. reflexivity.
Defined.

(** * Further properties *)

Local Open Scope string_scope.

(** ** The file name in the output of the build *)

Lemma strip_prefix_Some (p s r : string) : strip_prefix p s = Some r ↔ s = p ++ r.
Proof.
  split; [|intros ->; apply strip_prefix_app].
  revert s. induction p as [|a p IH]; intros s H.
  - destruct s; simpl in H; injection H as <-; reflexivity.
  - destruct s as [|b s]; [done|]. cbn [strip_prefix] in H.
    destruct (Ascii.eqb a b) eqn:E; [|done].
    apply Ascii.eqb_eq in E as ->. rewrite append_cons. f_equal. by apply IH.
Qed.

Lemma until_quote_Some (s g : string) :
  until_quote s = Some g ↔ ∃ post, s = g ++ "'" ++ post ∧ no_quote g = true.
Proof.
  split.
  - revert g. induction s as [|c s IH]; intros g H; [done|].
    cbn [until_quote] in H. destruct (Ascii.eqb c "'") eqn:E.
    + injection H as <-. apply Ascii.eqb_eq in E as ->. by exists s.
    + destruct (until_quote s) as [g'|]; [|done]. injection H as <-.
      destruct (IH g' eq_refl) as (post & -> & Hg').
      exists post. split; [done|]. cbn [no_quote]. by rewrite E, Hg'.
  - intros (post & -> & Hg). induction g as [|c g IH]; [done|].
    cbn [no_quote] in Hg. apply andb_true_iff in Hg as [Hc Hg].
    apply negb_true_iff in Hc. rewrite append_cons. cbn [until_quote].
    by rewrite Hc, (IH Hg).
Qed.

Lemma until_quote_found (mid post : string) : is_Some (until_quote (mid ++ "'" ++ post)).
Proof.
  induction mid as [|c mid [g IH]]; [by eexists|].
  rewrite append_cons. cbn [until_quote].
  destruct (Ascii.eqb c "'"); [by eexists|]. rewrite IH. by eexists.
Qed.

Lemma match_creating_Some (s g : string) :
  match_creating s = Some g ↔
  ∃ post, s = "creating '" ++ g ++ "'" ++ post ∧ no_quote g = true.
Proof.
  unfold match_creating. split.
  - destruct (strip_prefix "creating '" s) as [rest|] eqn:E; [|done].
    apply strip_prefix_Some in E as ->.
    intros (post & -> & Hg)%until_quote_Some. by exists post.
  - intros (post & -> & Hg). rewrite strip_prefix_app.
    apply until_quote_Some. by exists post.
Qed.

Lemma re_search_creating_sound (output g : string) :
  re_search_creating output = Some g →
  ∃ pre post, output = pre ++ "creating '" ++ g ++ "'" ++ post ∧ no_quote g = true.
Proof.
  revert g. induction output as [|c output IH]; intros g H.
  - cbn [re_search_creating] in H.
    destruct (match_creating "") as [g'|] eqn:E; [|done]. injection H as ->.
    apply match_creating_Some in E as (post & E & Hg). by exists "", post.
  - cbn [re_search_creating] in H.
    destruct (match_creating (String c output)) as [g'|] eqn:E.
    + injection H as ->. apply match_creating_Some in E as (post & E & Hg).
      by exists "", post.
    + destruct (IH g H) as (pre & post & -> & Hg). by exists (String c pre), post.
Qed.

Lemma re_search_creating_complete (pre mid post : string) :
  is_Some (re_search_creating (pre ++ "creating '" ++ mid ++ "'" ++ post)).
Proof.
  induction pre as [|c pre IH].
  - rewrite append_nil.
    assert (is_Some (match_creating ("creating '" ++ mid ++ "'" ++ post))) as [g Hg].
    { unfold match_creating. rewrite strip_prefix_app. apply until_quote_found. }
    change ("creating '" ++ mid ++ "'" ++ post)
      with (String "c" ("reating '" ++ mid ++ "'" ++ post)) in *.
    cbn [re_search_creating]. rewrite Hg. by eexists.
  - rewrite append_cons. cbn [re_search_creating].
    destruct (match_creating _); [by eexists|]. exact IH.
Qed.

(** X1. The search for the file name in the output of the build finds a
    name exactly when the output holds the word creating, a space and a
    quoted text; the name it gives is quoted right after such a creating, and
    has no quote inside. *)
Theorem egg_filename_search (output : string) :
  (∀ g, re_search_creating output = Some g →
        ∃ pre post, output = pre ++ "creating '" ++ g ++ "'" ++ post ∧ no_quote g = true) ∧
  (re_search_creating output = None ↔
   ¬ ∃ pre mid post, output = pre ++ "creating '" ++ mid ++ "'" ++ post).
Proof.
  split; [intros g; apply re_search_creating_sound|]. split.
  - intros Hnone (pre & mid & post & ->).
    destruct (re_search_creating_complete pre mid post) as [g Hg]. congruence.
  - intros Hno. destruct (re_search_creating output) as [g|] eqn:E; [|done].
    destruct Hno. apply re_search_creating_sound in E as (pre & post & -> & _). eauto.
Qed.

Lemma egg_filename_search_witness :
  ∃ pre post,
    "running bdist_egg; creating 'dist/proj.egg' and adding"
      = pre ++ "creating '" ++ "dist/proj.egg" ++ "'" ++ post
    ∧ no_quote "dist/proj.egg" = true.
Proof.
  exact (proj1 (egg_filename_search "running bdist_egg; creating 'dist/proj.egg' and adding")
           "dist/proj.egg" eq_refl).
Defined.

(** ** Paths *)

Lemma without_app (c : ascii) (a b : string) :
  without c (a ++ b) = without c a && without c b.
Proof.
  induction a as [|x a IH]; [done|].
  rewrite append_cons. cbn [without]. by rewrite IH, andb_assoc.
Qed.

Lemma split_slash_plain (a current : string) :
  without "/" a = true → pathlib.split_slash a current = [current ++ a].
Proof.
  revert current. induction a as [|c a IH]; intros current Ha.
  - by rewrite append_nil_r.
  - cbn [without] in Ha. apply andb_true_iff in Ha as [Hc Ha].
    apply negb_true_iff in Hc. cbn [pathlib.split_slash]. rewrite Hc, IH by done.
    by rewrite append_assoc_s.
Qed.

Lemma split_slash_app (a rest current : string) :
  without "/" a = true →
  pathlib.split_slash (a ++ "/" ++ rest) current
  = (current ++ a) :: pathlib.split_slash rest "".
Proof.
  revert current. induction a as [|c a IH]; intros current Ha.
  - by rewrite append_nil_r.
  - cbn [without] in Ha. apply andb_true_iff in Ha as [Hc Ha].
    apply negb_true_iff in Hc. rewrite append_cons. cbn [pathlib.split_slash].
    rewrite Hc, IH by done. by rewrite append_assoc_s.
Qed.

Lemma split_slash_dir (dir rest current : string) :
  ∃ front, pathlib.split_slash (dir ++ "/" ++ rest) current
           = (front ++ pathlib.split_slash rest "")%list.
Proof.
  revert current. induction dir as [|c dir IH]; intros current.
  - by exists [current].
  - rewrite append_cons. cbn [pathlib.split_slash]. destruct (Ascii.eqb c "/").
    + destruct (IH "") as [front ->]. by exists (current :: front).
    + apply IH.
Qed.

Lemma split_slash_without (s current : string) :
  without "/" current = true →
  Forall (λ x, without "/" x = true) (pathlib.split_slash s current).
Proof.
  revert current. induction s as [|c s IH]; intros current Hcurrent.
  - by apply Forall_singleton.
  - cbn [pathlib.split_slash]. destruct (Ascii.eqb c "/") eqn:E.
    + apply Forall_cons. split; [done|]. by apply IH.
    + apply IH. rewrite without_app, Hcurrent. cbn [without]. by rewrite E.
Qed.

Lemma is_part_spec (x : string) :
  is_part x = true ↔ x ≠ "" ∧ x ≠ "." ∧ without "/" x = true.
Proof.
  unfold is_part. rewrite !andb_true_iff, !negb_true_iff, !String.eqb_neq. tauto.
Qed.

Lemma Path_parts (s : string) : Forall (λ x, is_part x = true) (pathlib.p_parts (pathlib.Path s)).
Proof.
  cbn [pathlib.Path pathlib.p_parts].
  pose proof (split_slash_without s "" eq_refl) as Hall.
  induction Hall as [|x l Hx _ IH]; [constructor|].
  cbn [List.filter]. destruct (negb (String.eqb x "") && negb (String.eqb x ".")) eqn:E;
    [|exact IH].
  constructor; [|exact IH]. unfold is_part. by rewrite E, Hx.
Qed.

Lemma filter_parts (parts : list string) :
  Forall (λ x, is_part x = true) parts →
  List.filter (λ x, negb (String.eqb x "") && negb (String.eqb x ".")) parts = parts.
Proof.
  induction 1 as [|x l Hx _ IH]; [done|].
  cbn [List.filter]. unfold is_part in Hx. apply andb_true_iff in Hx as [-> _].
  by rewrite IH.
Qed.

Lemma split_slash_concat (parts : list string) (x current : string) :
  Forall (λ x, without "/" x = true) (x :: parts) →
  pathlib.split_slash (String.concat "/" (x :: parts)) current = (current ++ x) :: parts.
Proof.
  revert x current. induction parts as [|y parts IH]; intros x current Hall.
  - apply Forall_cons in Hall as [Hx _]. cbn [String.concat]. by apply split_slash_plain.
  - apply Forall_cons in Hall as [Hx Hall].
    change (String.concat "/" (x :: y :: parts))
      with (x ++ "/" ++ String.concat "/" (y :: parts)).
    rewrite split_slash_app by done. by rewrite IH.
Qed.

Lemma path_root_cases (s : string) :
  pathlib.path_root s = "" ∨ pathlib.path_root s = "/" ∨ pathlib.path_root s = "//".
Proof.
  unfold pathlib.path_root.
  destruct (strip_prefix "//" s) as [r|]; [destruct (strip_prefix "/" r)|
    destruct (strip_prefix "/" s)]; auto.
Qed.

Lemma path_root_text (root x rest : string) :
  root = "" ∨ root = "/" ∨ root = "//" → is_part x = true →
  pathlib.path_root (root ++ x ++ rest) = root.
Proof.
  intros Hroot (Hne & _ & Hslash)%is_part_spec.
  destruct x as [|c x]; [done|]. cbn [without] in Hslash.
  apply andb_true_iff in Hslash as [Hc _]. apply negb_true_iff in Hc.
  unfold pathlib.path_root.
  destruct Hroot as [-> | [-> | ->]]; rewrite ?append_cons, ?append_nil;
    cbn [strip_prefix]; rewrite ?Ascii.eqb_refl; cbn [strip_prefix];
    rewrite 1?Ascii.eqb_sym, Hc; reflexivity.
Qed.

Lemma Path_path_str (root : string) (parts : list string) :
  root = "" ∨ root = "/" ∨ root = "//" → Forall (λ x, is_part x = true) parts →
  pathlib.Path (pathlib.path_str (pathlib.MkPath root parts)) = pathlib.MkPath root parts.
Proof.
  intros Hroot Hparts. destruct parts as [|x parts].
  - by destruct Hroot as [-> | [-> | ->]].
  - assert (pathlib.path_str (pathlib.MkPath root (x :: parts))
            = root ++ String.concat "/" (x :: parts)) as ->.
    { unfold pathlib.path_str. cbn [pathlib.p_root pathlib.p_parts]. by destruct root. }
    assert (Forall (λ x, without "/" x = true) (x :: parts)) as Hplain.
    { eapply Forall_impl; [exact Hparts|]. by intros y (_ & _ & Hy)%is_part_spec. }
    unfold pathlib.Path. f_equal.
    + assert (∃ rest, String.concat "/" (x :: parts) = x ++ rest) as [rest ->].
      { destruct parts; [exists ""; by rewrite append_nil_r | by eexists]. }
      apply path_root_text; [done|]. by apply Forall_cons in Hparts as [? _].
    + destruct Hroot as [-> | [-> | ->]]; rewrite ?append_cons, ?append_nil;
        cbn [pathlib.split_slash Ascii.eqb Bool.eqb];
        rewrite split_slash_concat by done; rewrite ?append_nil;
        repeat (change (List.filter ?f ("" :: ?l)) with (List.filter f l));
        by apply filter_parts.
Qed.

Lemma truediv_path (p : pathlib.PurePath) (name : string) :
  (pathlib.p_root p = "" ∨ pathlib.p_root p = "/" ∨ pathlib.p_root p = "//") →
  Forall (λ x, is_part x = true) (pathlib.p_parts p) →
  let r := pathlib.truediv p name in
  (pathlib.p_root r = "" ∨ pathlib.p_root r = "/" ∨ pathlib.p_root r = "//") ∧
  Forall (λ x, is_part x = true) (pathlib.p_parts r) ∧
  (pathlib.p_parts (pathlib.Path name) ≠ [] →
   pathlib.name r = pathlib.name (pathlib.Path name)).
Proof.
  intros Hroot Hparts. unfold pathlib.truediv.
  pose proof (path_root_cases name) as Hq. pose proof (Path_parts name) as Hqparts.
  change (pathlib.path_root name) with (pathlib.p_root (pathlib.Path name)) in Hq.
  destruct (pathlib.p_root (pathlib.Path name)) eqn:E; cbn zeta.
  - cbn [pathlib.p_root pathlib.p_parts]. split_and!; [done| |].
    + apply Forall_app. by split.
    + intros Hne. unfold pathlib.name. cbn [pathlib.p_parts].
      destruct (pathlib.p_parts (pathlib.Path name)) as [|y l] eqn:El using rev_ind; [done|].
      by rewrite app_assoc, !List.last_last.
  - rewrite E. split_and!; [done|done|done].
Qed.

Lemma path_name_join (cwd name : string) :
  path_name name ≠ "" → path_name (path_join cwd name) = path_name name.
Proof.
  intros Hname. unfold path_name, path_join in *.
  destruct (truediv_path (pathlib.Path cwd) name (path_root_cases cwd) (Path_parts cwd))
    as (Hroot & Hparts & Hlast).
  destruct (pathlib.truediv (pathlib.Path cwd) name) as [root parts] eqn:E.
  cbn [pathlib.p_root pathlib.p_parts] in Hroot, Hparts.
  rewrite Path_path_str by done. apply Hlast.
  intros Hnil. apply Hname. unfold pathlib.name. by rewrite Hnil.
Qed.

(** ** Building the egg *)

Lemma build_project_egg_inversion
    (setup_file : option string) (w : world) (s s' : state) (path : string) :
  _build_project_egg setup_file w s = (s', Returned path) →
  ∃ f output g,
    setup_file = Some f ∧
    w_run_process w ["python"; f; "bdist_egg"] (w_resolve_parent w f) = inr output ∧
    re_search_creating output = Some g ∧
    path = path_join (w_resolve_parent w f) g ∧
    remote_writes s' = remote_writes s.
Proof.
  intros H.
  destruct setup_file as [f|]; [|done].
  exists f. unfold _build_project_egg in H.
  apply bind_returned in H as (s1 & w' & Hask & H). injection Hask as <- <-.
  apply bind_returned in H as (s2 & output' & Hcall & H).
  rewrite call_run in Hcall.
  destruct (w_run_process w _ _) as [e|output] eqn:Hrun; [done|].
  injection Hcall as <- <-.
  exists output. destruct (re_search_creating output) as [g|] eqn:Hg; [|done].
  exists g. apply bind_returned in H as (s3 & [] & Hlog & H).
  injection H as <- <-. unfold logger in Hlog. rewrite emit_extend in Hlog.
  injection Hlog as <-.
  split_and!; try done.
  by rewrite !writes_extend, !app_nil_r.
Qed.

(** X2. When [_build_project_egg] returns a path, a setup file was given,
    the build process has run in the resolved directory of the setup file
    and its output names a file after the word creating.  The path is that
    directory joined with the name as [pathlib] joins them, and when the name
    has a last component, the path has the same last component: the file
    name of the egg is the one the build printed.  Nothing has been written
    to a remote service. *)
Theorem build_project_egg_returns
    (setup_file : option string) (w : world) (s s' : state) (path : string) :
  _build_project_egg setup_file w s = (s', Returned path) →
  ∃ f output g,
    setup_file = Some f ∧
    w_run_process w ["python"; f; "bdist_egg"] (w_resolve_parent w f) = inr output ∧
    re_search_creating output = Some g ∧
    path = pathlib.path_str (pathlib.truediv (pathlib.Path (w_resolve_parent w f)) g) ∧
    (path_name g ≠ "" → path_name path = path_name g) ∧
    remote_writes s' = remote_writes s.
Proof.
  intros H.
  apply build_project_egg_inversion in H as (f & output & g & Hf & Hrun & Hg & -> & Hw).
  exists f, output, g. split_and!; try done. apply path_name_join.
Qed.

Lemma build_project_egg_returns_witness :
  ∃ f output g,
    Some "/src/setup.py" = Some f ∧
    w_run_process demo_world ["python"; f; "bdist_egg"] (w_resolve_parent demo_world f)
      = inr output ∧
    re_search_creating output = Some g ∧
    path_name "/src/dist/proj.egg" = path_name g.
Proof.
  destruct (build_project_egg_returns (Some "/src/setup.py") demo_world
              (initial_state demo_heap)
              (extend (initial_state demo_heap)
                 [RunProcess ["python"; "/src/setup.py"; "bdist_egg"] "/src";
                  Log LogDebug "Egg filename is %r"])
              "/src/dist/proj.egg" eq_refl)
    as (f & output & g & H1 & H2 & H3 & _ & H4 & _).
  exists f, output, g. split_and!; [exact H1 | exact H2 | exact H3 |].
  apply H4. injection H1 as <-. cbv in H2. injection H2 as <-.
  vm_compute in H3. injection H3 as <-. vm_compute. discriminate.
Defined.

Lemma build_project_egg_fails (setup_file : option string) (w : world) (s s' : state)
    (path : string) :
  build_fails w → _build_project_egg setup_file w s ≠ (s', Returned path).
Proof.
  intros Hfails H.
  apply build_project_egg_inversion in H as (f & output & g & _ & Hrun & Hg & _).
  specialize (Hfails ["python"; f; "bdist_egg"] (w_resolve_parent w f)).
  rewrite Hrun in Hfails. congruence.
Qed.

Lemma before_upload_fails (self : PySparkJob.t) (runtime : pyobj) (w : world) (s : state) :
  build_fails w →
  ∃ x, (before_upload self runtime w s).2 = Raised x.
Proof.
  intros Hfails.
  assert (comes_back (before_upload self runtime)) as Hback.
  { unfold before_upload, _ensure_has_setup_file, _generate_internal_jobid,
      _prepare_driver_callable, _build_project_egg.
    repeat comes_back_step. }
  specialize (Hback w s).
  destruct (before_upload self runtime w s) as [s1 [x|e|]] eqn:H; [|by eexists|done].
  exfalso. unfold before_upload in H.
  do 8 (apply bind_returned in H as (? & ? & _ & H)).
  apply bind_returned in H as (? & ? & Hbuild & H).
  by apply build_project_egg_fails in Hbuild.
Qed.

(** X3. When the build of the egg fails, or its output does not name the
    file it made, [run] raises, and it has uploaded nothing, created no
    cluster and submitted no job. *)
Theorem run_build_failure
    (fuel : nat) (self : PySparkJob.t) (runtime : pyobj) (w : world) (s : state) :
  build_fails w →
  (∃ x, (run fuel self runtime w s).2 = Raised x) ∧
  remote_writes (run fuel self runtime w s).1 = remote_writes s ∧
  lifecycle (run fuel self runtime w s).1 = lifecycle s.
Proof.
  intros Hfails.
  rewrite run_unfold, bind_run.
  pose proof (preserves_before_with self runtime w s) as Hview.
  rewrite before_with_unfold in Hview |- *. rewrite bind_run in Hview |- *.
  pose proof (preserves_writes_before_upload self runtime w s) as Hwrites.
  destruct (before_upload_fails self runtime w s Hfails) as [x Hx].
  destruct (before_upload self runtime w s) as [s1 r]. simpl in Hx. subst r.
  simpl in *. injection Hview as Hlife _. eauto.
Qed.

Lemma world_without_marker_fails : build_fails world_without_marker.
Proof. intros cmd cwd. reflexivity. Qed.

Lemma run_build_failure_witness :
  remote_writes (run 3 demo_job PyNone world_without_marker (initial_state demo_heap)).1 = [].
Proof.
  exact (proj1 (proj2 (run_build_failure 3 demo_job PyNone world_without_marker
                         (initial_state demo_heap) world_without_marker_fails))).
Defined.


(** ** The dictionary of driver arguments of a new job *)

(** X7. [driver_arguments or {}] in the constructor. A dictionary of the
    caller that has entries becomes the dictionary of the job itself, not a
    copy, and the store is unchanged. With no dictionary, or an empty one,
    the job gets a new empty dictionary that was not live before. A job
    constructed afterwards without arguments never shares the dictionary of
    this job. *)
Theorem init_driver_arguments (p : process) (h : heap) (a : init_args) :
  let h' := (__init__ p h a).1 in
  let job := (__init__ p h a).2 in
  (∀ l, a_driver_arguments a = Some l → deref h l ≠ ∅ →
        PySparkJob.driver_arguments job = l ∧ h' = h) ∧
  ((∀ l, a_driver_arguments a = Some l → deref h l = ∅) →
        h !! PySparkJob.driver_arguments job = None ∧
        h' = <[PySparkJob.driver_arguments job := ∅]> h) ∧
  (∀ p2 a2, a_driver_arguments a2 = None →
        PySparkJob.driver_arguments (__init__ p2 h' a2).2
          ≠ PySparkJob.driver_arguments job).
Proof.
  assert (∀ p2 a2 (h2 : heap) l, a_driver_arguments a2 = None → is_Some (h2 !! l) →
            PySparkJob.driver_arguments (__init__ p2 h2 a2).2 ≠ l) as Hfresh.
  { intros p2 a2 h2 l Hnone Hlive. unfold __init__, dict_or_new. rewrite Hnone.
    cbn. intros <-. rewrite (new_dict_fresh h2 ∅) in Hlive. by destruct Hlive. }
  unfold __init__, dict_or_new.
  destruct (a_driver_arguments a) as [l|]; [case_bool_decide as Hempty|]; cbn.
  - split_and!.
    + intros l' [= <-] Hl. done.
    + intros _. split; [apply (new_dict_fresh h ∅)|done].
    + intros p2 a2 Hnone. apply Hfresh; [done|]. by rewrite lookup_insert_eq.
  - split_and!.
    + by intros l' [= <-] _.
    + intros Hl. destruct Hempty. by apply Hl.
    + intros p2 a2 Hnone. apply Hfresh; [done|].
      unfold deref in Hempty. destruct (h !! l); [by eexists|done].
  - split_and!.
    + done.
    + intros _. split; [apply (new_dict_fresh h ∅)|done].
    + intros p2 a2 Hnone. apply Hfresh; [done|]. by rewrite lookup_insert_eq.
Qed.

Lemma init_driver_arguments_witness :
  (∅ : gmap nat (gmap string pyobj)) !! PySparkJob.driver_arguments demo_job = None ∧
  demo_heap = <[PySparkJob.driver_arguments demo_job := ∅]> ∅.
Proof.
  refine (proj1 (proj2 (init_driver_arguments demo_process ∅ demo_args)) _).
  intros l Hl. discriminate Hl.
Defined.

(** ** Looking for the setup file once *)

(** X8. When [_ensure_has_setup_file] returns a job whose setup file is not
    the empty text, that job has a setup file, and a further call on it
    searches nothing, logs nothing and returns the same job. *)
Theorem ensure_has_setup_file_once
    (self self' : PySparkJob.t) (w : world) (s s' : state) :
  _ensure_has_setup_file self w s = (s', Returned self') →
  PySparkJob.setup_file self' ≠ Some "" →
  is_Some (PySparkJob.setup_file self') ∧
  ∀ w2 s2, _ensure_has_setup_file self' w2 s2 = (s2, Returned self').
Proof.
  intros Hrun Hnonempty.
  assert (truthy (PySparkJob.setup_file self') = true) as Htruthy.
  { unfold _ensure_has_setup_file in Hrun.
    destruct (truthy (PySparkJob.setup_file self)) eqn:E.
    - by injection Hrun as _ <-.
    - apply bind_returned in Hrun as (s1 & [] & _ & Hrun).
      apply bind_returned in Hrun as (s2 & f & _ & Hrun).
      injection Hrun as _ <-. cbn in *. by destruct f. }
  split.
  - destruct (PySparkJob.setup_file self'); [by eexists|done].
  - intros w2 s2. unfold _ensure_has_setup_file. by rewrite Htruthy.
Qed.

Lemma ensure_has_setup_file_once_witness :
  _ensure_has_setup_file demo_job world_without_marker (initial_state demo_heap)
  = (initial_state demo_heap, Returned demo_job).
Proof.
  refine (proj2 (ensure_has_setup_file_once demo_job demo_job demo_world
                   (initial_state demo_heap) (initial_state demo_heap) eq_refl _)
            world_without_marker (initial_state demo_heap)).
  intros H. discriminate H.
Defined.

(** ** The environment of the driver *)

(** X10. The wrapper that [_prepare_driver_callable] makes for a constructed
    job carries the env of the job, which is never empty: when the wrapper
    is called on the cluster, the variable [env] of the process is the env
    of the job, whatever it was before, every other variable is as it was,
    and the callable runs under that environment. *)
Theorem driver_runs_under_job_env
    (p : process) (h : heap) (a : init_args) (runtime : pyobj) (w : world) (s : state)
    (environ : gmap string string) :
  let job := (__init__ p h a).2 in
  ∃ s' wrapper,
    _prepare_driver_callable job runtime w s = (s', Returned wrapper) ∧
    let called := __call__ (snapshot (store s') wrapper) environ in
    called.1 !! "env" = Some (PySparkJob.env job) ∧
    (∀ k, k ≠ "env" → called.1 !! k = environ !! k) ∧
    inv_environ called.2 = called.1.
Proof.
  intros job.
  pose proof (init_env_nonempty p h a) as Hne. fold job in Hne.
  unfold _prepare_driver_callable.
  destruct (dict_copy (store s) (PySparkJob.driver_arguments job)) as [h1 kwargs] eqn:Hcopy.
  destruct (PySparkJob.env job) as [|c r] eqn:Henv; [done|].
  eexists _, _. split.
  { unfold mbind, M_bind, bind, get_state. rewrite Hcopy. reflexivity. }
  cbn. split_and!.
  - apply lookup_union_Some_l, lookup_insert_eq.
  - intros k Hk. rewrite lookup_union_r; [done|]. by rewrite lookup_insert_ne.
  - done.
Qed.

Lemma driver_runs_under_job_env_witness :
  ∃ s' wrapper,
    _prepare_driver_callable demo_job PyNone demo_world (initial_state demo_heap)
      = (s', Returned wrapper) ∧
    (__call__ (snapshot (store s') wrapper) (<["env" := "prod"]> ∅)).1 !! "env" = Some "dev".
Proof.
  destruct (driver_runs_under_job_env demo_process ∅ demo_args PyNone demo_world
              (initial_state demo_heap) (<["env" := "prod"]> ∅))
    as (s' & wrapper & Hrun & Henv & _).
  exists s', wrapper. split; [exact Hrun | exact Henv].
Defined.

(** ** Run ids that differ *)

Lemma string_app_inv_head (a b c : string) : a ++ b = a ++ c → b = c.
Proof.
  induction a as [|x a IH]; [done|].
  rewrite !append_cons. intros [= H]. by apply IH.
Qed.

Lemma digit_char_inj (a b : nat) : digit_char a = digit_char b → a mod 10 = b mod 10.
Proof.
  unfold digit_char. intros H. apply (f_equal nat_of_ascii) in H.
  assert (a mod 10 < 10) as Ha by (apply Nat.mod_upper_bound; lia).
  assert (b mod 10 < 10) as Hb by (apply Nat.mod_upper_bound; lia).
  rewrite !nat_ascii_embedding in H by lia. lia.
Qed.

Lemma digit_cons_inj (a b : nat) (r r' : string) :
  String (digit_char a) r = String (digit_char b) r' → a mod 10 = b mod 10 ∧ r = r'.
Proof. intros H. injection H as H1 H2. split; [by apply digit_char_inj | done]. Qed.

Lemma pad2_inj (n n' : nat) (r r' : string) :
  n < 100 → n' < 100 → pad2 n ++ r = pad2 n' ++ r' → n = n' ∧ r = r'.
Proof.
  intros Hn Hn' H.
  change (String (digit_char (n / 10)) (String (digit_char n) r)
          = String (digit_char (n' / 10)) (String (digit_char n') r')) in H.
  apply digit_cons_inj in H as [H1 H]. apply digit_cons_inj in H as [H2 H].
  split; [|done]. clear H.
  pose proof (Nat.div_mod_eq n 10). pose proof (Nat.div_mod_eq n' 10).
  assert (n / 10 < 10) by (apply Nat.Div0.div_lt_upper_bound; lia).
  assert (n' / 10 < 10) by (apply Nat.Div0.div_lt_upper_bound; lia).
  rewrite !Nat.mod_small in H1 by done. lia.
Qed.

Lemma pad4_inj (n n' : nat) (r r' : string) :
  (n ≤ 9999)%nat → (n' ≤ 9999)%nat → pad4 n ++ r = pad4 n' ++ r' → n = n' ∧ r = r'.
Proof.
  rewrite four_digits. intros Hn Hn' H.
  change (String (digit_char (n / 1000)) (String (digit_char (n / 100))
            (String (digit_char (n / 10)) (String (digit_char n) r)))
          = String (digit_char (n' / 1000)) (String (digit_char (n' / 100))
              (String (digit_char (n' / 10)) (String (digit_char n') r')))) in H.
  apply digit_cons_inj in H as [H1 H]. apply digit_cons_inj in H as [H2 H].
  apply digit_cons_inj in H as [H3 H]. apply digit_cons_inj in H as [H4 H].
  split; [|done]. clear H.
  assert (∀ m, m / 100 = m / 10 / 10 ∧ m / 1000 = m / 10 / 10 / 10) as Hdiv.
  { intros m. by rewrite !Nat.Div0.div_div. }
  destruct (Hdiv n) as [E1 E2], (Hdiv n') as [E1' E2'].
  rewrite E1, E1' in H2. rewrite E2, E2' in H1. clear Hdiv E1 E2 E1' E2'.
  pose proof (Nat.div_mod_eq n 10). pose proof (Nat.div_mod_eq n' 10).
  pose proof (Nat.div_mod_eq (n / 10) 10). pose proof (Nat.div_mod_eq (n' / 10) 10).
  pose proof (Nat.div_mod_eq (n / 10 / 10) 10).
  pose proof (Nat.div_mod_eq (n' / 10 / 10) 10).
  assert (n / 10 / 10 / 10 < 10) by (do 3 apply Nat.Div0.div_lt_upper_bound; lia).
  assert (n' / 10 / 10 / 10 < 10) by (do 3 apply Nat.Div0.div_lt_upper_bound; lia).
  rewrite !(Nat.mod_small (_ / 10 / 10 / 10)) in H1 by done. lia.
Qed.

Lemma strftime_inj (d d' : datetime) (r r' : string) :
  valid_datetime d → valid_datetime d' →
  strftime d ++ r = strftime d' ++ r' → d = d' ∧ r = r'.
Proof.
  intros Hvalid Hvalid'. rewrite (strftime_padded d), (strftime_padded d') by done.
  destruct Hvalid as (Hy & Hm & Hd & Hh & Hmin & Hs).
  destruct Hvalid' as (Hy' & Hm' & Hd' & Hh' & Hmin' & Hs').
  rewrite !append_assoc_s. intros H.
  apply pad4_inj in H as [Hyear H]; [|lia..]. apply string_app_inv_head in H.
  apply pad2_inj in H as [Hmonth H]; [|lia..]. apply string_app_inv_head in H.
  apply pad2_inj in H as [Hday H]; [|lia..]. apply string_app_inv_head in H.
  apply pad2_inj in H as [Hhour H]; [|lia..].
  apply pad2_inj in H as [Hminute H]; [|lia..].
  apply pad2_inj in H as [Hsecond H]; [|lia..].
  split; [|done].
  destruct d, d'. cbn [year month day hour minute second] in *. congruence.
Qed.

Lemma population_lookup_inj (i j : nat) :
  i < 36 → j < 36 →
  default "000"%char (population !! i) = default "000"%char (population !! j) → i = j.
Proof.
  intros Hi Hj.
  destruct (lookup_lt_is_Some_2 population i) as [x Hx]; [exact Hi|].
  destruct (lookup_lt_is_Some_2 population j) as [y Hy]; [exact Hj|].
  rewrite Hx, Hy. simpl. intros <-.
  exact (NoDup_lookup _ _ _ _ population_NoDup Hx Hy).
Qed.

Lemma random_choices_inj (draws draws' : list nat) :
  Forall (λ i, i < 36) draws → Forall (λ i, i < 36) draws' →
  join_chars (random_choices (ascii_lowercase ++ digits) draws)
    = join_chars (random_choices (ascii_lowercase ++ digits) draws') →
  draws = draws'.
Proof.
  unfold join_chars, random_choices. fold population.
  intros Hd Hd' H. apply (f_equal list_ascii_of_string) in H.
  rewrite !list_ascii_of_string_of_list_ascii in H.
  revert draws' Hd' H. induction Hd as [|i draws Hi Hd IH]; intros [|j draws'] Hd' H;
    try done.
  apply Forall_cons in Hd' as [Hj Hd']. injection H as Hij H.
  f_equal; [by apply population_lookup_inj | by apply IH].
Qed.

(** X9. Two run ids of the same job are the same text only when the clock
    read the same second and the random draws were the same: the id tells
    the second of the run and each of its draws. The clock readings are
    dates with a four-digit year and the draws are indices into the 36
    characters. *)
Theorem run_ids_differ
    (self : PySparkJob.t) (now now' : datetime) (draws draws' : list nat) :
  valid_datetime now → valid_datetime now' →
  Forall (λ i, i < 36) draws → Forall (λ i, i < 36) draws' →
  jobid_text self now draws = jobid_text self now' draws' →
  now = now' ∧ draws = draws'.
Proof.
  intros Hnow Hnow' Hd Hd'. unfold jobid_text.
  intros H. do 4 apply string_app_inv_head in H.
  apply strftime_inj in H as [-> H]; [|done..].
  split; [done|]. apply string_app_inv_head in H. by apply random_choices_inj.
Qed.

Lemma demo_draws_in_range : Forall (λ i, i < 36) demo_draws.
Proof. apply (bool_decide_unpack _). vm_compute. exact I. Qed.

Lemma run_ids_differ_witness :
  Datetime 2024 1 1 12 0 0 = Datetime 2024 1 1 12 0 0 ∧ demo_draws = demo_draws.
Proof.
  apply (run_ids_differ demo_job (Datetime 2024 1 1 12 0 0) (Datetime 2024 1 1 12 0 0)
           demo_draws demo_draws).
  - vm_compute. repeat split; lia.
  - vm_compute. repeat split; lia.
  - exact demo_draws_in_range.
  - exact demo_draws_in_range.
  - reflexivity.
Defined.

(** ** The name of the egg in the bucket *)

(** X11. The egg is stored under the run id and its own file name,
    whatever directory it was built in: for a local path that ends with a
    slash and a name that is not empty, is not a single dot and holds no
    slash, [_upload_egg] uploads the file to the blob named by the run id, a
    slash and that name, and returns that blob name when the upload is
    accepted. *)
Theorem upload_egg_blob_name
    (dir name bucket job_internal_id : string) (w : world) (s : state) :
  name ≠ "" → name ≠ "." → without "/" name = true →
  _upload_egg (dir ++ "/" ++ name) bucket job_internal_id w s
  = (extend s [Log LogDebug "Upload egg to %s";
               UploadFromFilename (job_internal_id ++ "/" ++ name) (dir ++ "/" ++ name)
                 "application/octet-stream"],
     match w_upload_from_filename w (job_internal_id ++ "/" ++ name) (dir ++ "/" ++ name) with
     | None => Returned (job_internal_id ++ "/" ++ name)
     | Some e => Raised e
     end).
Proof.
  intros Hne Hdot Hname. rewrite upload_egg_run. cbv zeta.
  assert (path_name (dir ++ "/" ++ name) = name) as ->; [|done].
  unfold path_name, pathlib.name, pathlib.Path. cbn [pathlib.p_parts].
  destruct (split_slash_dir dir name "") as [front ->].
  rewrite split_slash_plain, append_nil by done.
  rewrite List.filter_app. cbn [List.filter].
  apply String.eqb_neq in Hne as ->. apply String.eqb_neq in Hdot as ->.
  cbn [negb andb]. apply List.last_last.
Qed.

Lemma upload_egg_blob_name_witness :
  (_upload_egg "/src/dist/proj.egg" "bkt" "demo-dev-2024-01-01-120000-abc1234567"
     demo_world (initial_state demo_heap)).2
  = Returned "demo-dev-2024-01-01-120000-abc1234567/proj.egg".
Proof.
  refine (f_equal snd (upload_egg_blob_name "/src/dist" "proj.egg" "bkt"
                         "demo-dev-2024-01-01-120000-abc1234567" demo_world
                         (initial_state demo_heap) _ _ eq_refl)).
  - intros H. discriminate H.
  - intros H. discriminate H.
Defined.

(** ** The top module of the caller *)

Lemma split_dot_head (maxsplit : nat) (module current : string) :
  ∃ top rest,
    split_dot (S maxsplit) module current = (current ++ top) :: rest ∧
    without "." top = true ∧
    (module = top ∨ ∃ tail, module = top ++ "." ++ tail).
Proof.
  revert current. induction module as [|c module IH]; intros current.
  - exists "", []. rewrite append_nil_r. split_and!; [done|done|by left].
  - cbn [split_dot]. destruct (Ascii.eqb c ".") eqn:E.
    + apply Ascii.eqb_eq in E as ->. exists "", (split_dot maxsplit module "").
      rewrite append_nil_r. split_and!; [done|done|]. right. by exists module.
    + destruct (IH (current ++ String c "")) as (top & rest & -> & Htop & Hshape).
      exists (String c top), rest. split_and!.
      * by rewrite append_assoc_s.
      * cbn [without]. by rewrite E, Htop.
      * destruct Hshape as [-> | [tail ->]]; [by left|]. right. by exists tail.
Qed.

(** X12. The top module of the caller is the text of the module name up to
    its first dot: it holds no dot, and the module name is that text alone
    or that text, a dot and more. The top module of a top module is
    itself. *)
Theorem topmodule_is_first_component (module : string) :
  without "." (topmodule module) = true ∧
  (module = topmodule module ∨ ∃ tail, module = topmodule module ++ "." ++ tail) ∧
  (without "." module = true → topmodule module = module) ∧
  topmodule (topmodule module) = topmodule module.
Proof.
  assert (∀ m, without "." m = true → topmodule m = m) as Hplain.
  { intros m Hm. unfold topmodule.
    destruct (split_dot_head 1 m "") as (top & rest & -> & Htop & [-> | [tail ->]]);
      [done|].
    exfalso. clear - Hm. induction top as [|c top IH]; [done|].
    rewrite append_cons in Hm. cbn [without] in Hm.
    apply andb_true_iff in Hm as [_ Hm]. by apply IH. }
  assert (∃ top, topmodule module = top ∧ without "." top = true ∧
                 (module = top ∨ ∃ tail, module = top ++ "." ++ tail))
    as (top & -> & Htop & Hshape).
  { unfold topmodule.
    destruct (split_dot_head 1 module "") as (top & rest & -> & Htop & Hshape).
    by exists top. }
  split_and!; [done|done| |by apply Hplain].
  intros Hm. rewrite <- (Hplain module Hm). destruct Hshape as [-> | [tail ->]].
  - by rewrite Hplain.
  - unfold topmodule.
    destruct (split_dot_head 1 (top ++ "." ++ tail) "")
      as (top' & rest & -> & Htop' & Hshape').
    rewrite append_nil. clear - Hm. exfalso.
    induction top as [|c top IH]; [done|].
    rewrite append_cons in Hm. cbn [without] in Hm.
    apply andb_true_iff in Hm as [_ Hm]. by apply IH.
Qed.

Lemma topmodule_is_first_component_witness :
  topmodule "proj.jobs.spark" = "proj" ∧ topmodule "proj" = "proj".
Proof.
  split; [reflexivity|].
  exact (proj1 (proj2 (proj2 (topmodule_is_first_component "proj"))) eq_refl).
Defined.

Local Open Scope list_scope.

(** ** A run in which every service answers *)

Lemma actions_extend (s : state) (events : list event) :
  actions (extend s events) = actions s ++ List.filter is_action events.
Proof. unfold actions, extend. simpl. apply List.filter_app. Qed.

Lemma calls_extend (s : state) (events : list event) :
  get_job_calls (extend s events) = get_job_calls s.
Proof. reflexivity. Qed.

Lemma actions_polls (n : nat) (project_id region job_id : string) :
  List.filter is_action (polls n project_id region job_id) = polls n project_id region job_id.
Proof. induction n as [|n IH]; [done|]. simpl. by rewrite IH. Qed.

Lemma ensure_has_setup_file_run (self : PySparkJob.t) (w : world) (s : state) (f : string) :
  setup_file_of self w = Some f →
  ∃ s1 self',
    _ensure_has_setup_file self w s = (s1, Returned self') ∧
    (self' = self ∨ self' = with_setup_file self f) ∧
    PySparkJob.setup_file self' = Some f ∧
    actions s1 = actions s ++ setup_actions self ∧
    get_job_calls s1 = get_job_calls s.
Proof.
  unfold setup_file_of, setup_actions, _ensure_has_setup_file.
  destruct (truthy (PySparkJob.setup_file self)).
  - intros Hf. exists s, self. rewrite app_nil_r. split_and!; auto.
  - destruct (w_find_or_create_setup w _ _) as [e|f'] eqn:Hfind; [done|].
    intros [= ->]. unfold logger.
    rewrite bind_run, emit_extend, bind_run, call_run, Hfind, extend_extend.
    eexists _, _. split; [reflexivity|]. split; [by right|].
    by rewrite actions_extend.
Qed.

Lemma prepare_driver_callable_run (self : PySparkJob.t) (runtime : pyobj) (w : world)
    (s : state) :
  ∃ s1 driver,
    _prepare_driver_callable self runtime w s = (s1, Returned driver) ∧
    actions s1 = actions s ∧ get_job_calls s1 = get_job_calls s.
Proof.
  unfold _prepare_driver_callable, logger.
  rewrite bind_run. cbn [get_state].
  destruct (dict_copy (store s) (PySparkJob.driver_arguments self)) as [h kwargs].
  rewrite bind_run. cbn [put_store].
  destruct (truthy (Some (PySparkJob.env self))).
  - eexists _, _. split; [reflexivity|]. split; [|done].
    unfold actions. simpl. by rewrite List.filter_app, app_nil_r.
  - eexists _, _. split; [reflexivity|]. done.
Qed.

Lemma generate_internal_jobid_run (self : PySparkJob.t) (runtime : pyobj) (w : world)
    (s : state) :
  _generate_internal_jobid self runtime w s
  = (extend s [Log LogInfo "Internal job is %r"], Returned (run_id self w)).
Proof. reflexivity. Qed.

Lemma build_project_egg_run (f output g : string) (w : world) (s : state) :
  w_run_process w ["python"; f; "bdist_egg"]%string (w_resolve_parent w f) = inr output →
  re_search_creating output = Some g →
  _build_project_egg (Some f) w s
  = (extend s [RunProcess ["python"; f; "bdist_egg"]%string (w_resolve_parent w f);
               Log LogDebug "Egg filename is %r"],
     Returned (path_join (w_resolve_parent w f) g)).
Proof.
  intros Hrun Hg. unfold _build_project_egg, logger.
  rewrite bind_run. cbn [ask]. rewrite bind_run, call_run, Hrun, Hg.
  by rewrite bind_run, emit_extend, extend_extend.
Qed.

Lemma before_upload_run (self : PySparkJob.t) (runtime : pyobj) (w : world) (s : state)
    (f output g : string) (pickled : list Byte.byte) (job_id : string) :
  cooperative self w f output g pickled job_id →
  ∃ s1 self' driver,
    before_upload self runtime w s
    = (s1, Returned (self', run_id self w, driver, path_join (w_resolve_parent w f) g)) ∧
    (self' = self ∨ self' = with_setup_file self f) ∧
    actions s1
    = actions s ++ setup_actions self
      ++ [StorageClient (PySparkJob.gcp_project_id self);
          JobControllerClient (api_endpoint (PySparkJob.gcp_region self));
          GetBucket (PySparkJob.bucket_id self);
          RunProcess ["python"; f; "bdist_egg"]%string (w_resolve_parent w f)] ∧
    get_job_calls s1 = get_job_calls s.
Proof.
  intros [Hsetup Hstorage Hjobs Hbucket Hbuild Hmarker _ _ _ _ _ _ _ _].
  unfold before_upload, logger. rewrite bind_run, emit_extend.
  destruct (ensure_has_setup_file_run self w (extend s [Log LogInfo "Run job %r"]) f Hsetup)
    as (s1 & self' & Hensure & Hself & Hfile & Hactions & Hcalls).
  rewrite bind_run, Hensure. rewrite actions_extend, app_nil_r in Hactions.
  assert (run_id self' w = run_id self w ∧
          PySparkJob.gcp_project_id self' = PySparkJob.gcp_project_id self ∧
          PySparkJob.gcp_region self' = PySparkJob.gcp_region self ∧
          PySparkJob.bucket_id self' = PySparkJob.bucket_id self)
    as (Hid & -> & -> & ->) by (by destruct Hself as [-> | ->]).
  rewrite bind_run, generate_internal_jobid_run, Hid.
  rewrite bind_run, call_unit_run, Hstorage, bind_run, call_unit_run, Hjobs, !extend_extend.
  destruct (prepare_driver_callable_run self' runtime w
              (extend s1 ([Log LogInfo "Internal job is %r"]
                          ++ [StorageClient (PySparkJob.gcp_project_id self)]
                          ++ [JobControllerClient (api_endpoint (PySparkJob.gcp_region self))])))
    as (s2 & driver & Hprepare & Hactions2 & Hcalls2).
  rewrite bind_run, Hprepare, bind_run, emit_extend, bind_run, call_unit_run, Hbucket.
  rewrite Hfile, bind_run, (build_project_egg_run f output g) by done.
  rewrite !extend_extend.
  eexists _, self', driver. split; [reflexivity|]. split; [done|].
  rewrite actions_extend, Hactions2, actions_extend, Hactions. simpl.
  rewrite <- !app_assoc. split; [done|].
  by rewrite Hcalls2, calls_extend, Hcalls.
Qed.

Lemma print_job_output_log_run (project_id region job_id : string) (w : world) (s : state)
    (job : Job) (log : list Byte.byte) :
  w_get_job w (get_job_calls s) job_id = inr job →
  w_download_blob w (driver_output_resource_uri job ++ ".000000000")%string = inr log →
  utf8_valid log = true →
  _print_job_output_log project_id region job_id w s
  = ({| trace := trace s
                 ++ [GetJob project_id region job_id;
                     DownloadBlob (driver_output_resource_uri job ++ ".000000000")%string;
                     Log LogInfo "JOB OUTPUT:\n=====\n%s\n====="];
        get_job_calls := S (get_job_calls s);
        store := store s |}, Returned tt).
Proof.
  intros Hjob Hblob Hvalid. unfold _print_job_output_log, logger.
  rewrite bind_run. unfold get_job. rewrite Hjob.
  rewrite bind_run, call_run, Hblob, Hvalid, emit_extend. unfold extend. simpl.
  by rewrite <- !app_assoc.
Qed.

Lemma wait_done (project_id region job_id : string) (w : world) (s : state) (n fuel : nat)
    (job : Job) :
  n < fuel →
  (∀ i, i < n → keeps_polling (w_get_job w (get_job_calls s + i) job_id) = true) →
  w_get_job w (get_job_calls s + n) job_id = inr job →
  status_state job = State.DONE →
  _wait_for_job_to_finish fuel project_id region job_id w s
  = ({| trace := trace s ++ Log LogInfo "Waiting for job to finish..."
                 :: polls n project_id region job_id
                 ++ [GetJob project_id region job_id; Log LogInfo "Job is DONE"];
        get_job_calls := get_job_calls s + S n;
        store := store s |}, Returned job).
Proof.
  intros Hfuel Hpolls Hjob Hdone.
  rewrite wait_unfold, (loop_leaves project_id region job_id w n fuel); cbn [get_job_calls];
    [|done|done|by rewrite Hjob; simpl; rewrite Hdone].
  rewrite Hjob. unfold leaves. rewrite Hdone. cbn [fst snd trace store].
  by rewrite <- app_assoc.
Qed.

(** X4. When every service answers, the id of the job is ASCII text, the
    build names its egg, the job reports DONE at status request number [n]
    after [n] reports that keep the watcher polling, and the log that is
    downloaded is well-formed UTF-8, [run] returns. What it has done then is, in
    this order: the clients for storage and jobs, the bucket, the build, the
    upload of the egg and of the driver script under the run id, the cluster
    client, the creation of the cluster named by the run id and the wait for
    it, the submission of the job, [n] status requests with a sleep of five
    seconds after each, the request that reports DONE, one more request for
    the log, the download of the first part of the log, and the deletion of
    the cluster. *)
Theorem run_succeeds
    (fuel n : nat) (self : PySparkJob.t) (runtime : pyobj) (w : world) (s : state)
    (f output g : string) (pickled : list Byte.byte) (job_id : string) (job job' : Job)
    (log : list Byte.byte) :
  ascii_text (PySparkJob.id self) = true →
  cooperative self w f output g pickled job_id →
  (∀ i, i < n → keeps_polling (w_get_job w (get_job_calls s + i) job_id) = true) →
  w_get_job w (get_job_calls s + n) job_id = inr job →
  status_state job = State.DONE →
  w_get_job w (get_job_calls s + S n) job_id = inr job' →
  w_download_blob w (driver_output_resource_uri job' ++ ".000000000")%string = inr log →
  utf8_valid log = true →
  n < fuel →
  let project := PySparkJob.gcp_project_id self in
  let region := PySparkJob.gcp_region self in
  let egg := path_join (w_resolve_parent w f) g in
  let egg_path := (run_id self w ++ "/" ++ path_name egg)%string in
  let driver_path := (run_id self w ++ "/" ++ PySparkJob.driver_filename self)%string in
  (run fuel self runtime w s).2 = Returned tt ∧
  actions (run fuel self runtime w s).1
  = actions s ++ setup_actions self
    ++ [StorageClient project;
        JobControllerClient (api_endpoint region);
        GetBucket (PySparkJob.bucket_id self);
        RunProcess ["python"; f; "bdist_egg"]%string (w_resolve_parent w f);
        UploadFromFilename egg_path egg "application/octet-stream";
        UploadFromString driver_path
          (driver_script_text (wrapper_repr (w_object_address w)) pickled)
          "application/octet-stream";
        ClusterControllerClient (api_endpoint region);
        CreateCluster project region (cluster_spec self (run_id self w));
        ClusterFutureResult (run_id self w);
        SubmitJob project region (job_spec self (run_id self w) driver_path egg_path)]
    ++ polls n project region job_id
    ++ [GetJob project region job_id;
        GetJob project region job_id;
        DownloadBlob (driver_output_resource_uri job' ++ ".000000000")%string;
        DeleteCluster project region (run_id self w)].
Proof.
  intros _ Hcoop Hpolls Hdone Hstate Hlog Hdownload Hvalid Hfuel project region egg egg_path
    driver_path.
  destruct (before_upload_run self runtime w s f output g pickled job_id Hcoop)
    as (s1 & self' & driver & Hbefore & Hself & Hactions & Hcalls).
  destruct Hcoop as [_ _ _ _ _ _ Hupload Hpickle Hstring Hclient Hcreate Hready Hsubmit
                       Hdelete].
  rewrite run_unfold, bind_run, before_with_unfold, bind_run, Hbefore.
  cbv beta iota.
  rewrite bind_run, upload_egg_run. cbv zeta. rewrite Hupload.
  rewrite bind_run, (generate_and_upload_driver_run _ _ _ _ _ pickled) by apply Hpickle.
  rewrite Hstring, ret_run. cbv beta iota.
  rewrite bind_run, with_temp_cluster_steps. unfold scope_steps.
  rewrite Hclient. unfold creation_failure, creation_events.
  rewrite Hcreate, Hready, with_block_steps. unfold block_steps.
  rewrite Hsubmit, !extend_extend.
  match goal with |- context [extend s1 ?l] => set (s2 := extend s1 l) end.
  assert (get_job_calls s2 = get_job_calls s) as Hcalls2 by exact Hcalls.
  rewrite (wait_done _ _ _ _ _ n fuel job); rewrite ?Hcalls2; [|done..].
  cbv beta iota.
  rewrite (print_job_output_log_run _ _ _ _ _ job' log); cbn [get_job_calls];
    rewrite ?Hcalls2; [|done..].
  unfold torn_down, delete_events. rewrite Hdelete. cbv beta iota.
  unfold after_finally, logger. rewrite emit_extend, extend_extend.
  split; [reflexivity|].
  cbn [fst]. rewrite actions_extend. unfold actions at 1. cbn [trace].
  rewrite !List.filter_app. cbn [List.filter is_action].
  rewrite List.filter_app, actions_polls.
  change (List.filter is_action (trace s2)) with (actions s2).
  unfold s2. rewrite actions_extend, Hactions.
  unfold submit_events, submitted_events. cbn [List.filter is_action app].
  subst project region egg egg_path driver_path.
  rewrite <- !app_assoc. cbn [app].
  by destruct Hself as [-> | ->].
Qed.

Lemma demo_world_cooperative :
  cooperative demo_job demo_world "/src/setup.py"
    "running bdist_egg; creating 'dist/proj.egg' and adding" "dist/proj.egg"
    (list_byte_of_string "pickled!") "job-1".
Proof. by split. Qed.

Lemma run_succeeds_witness :
  (run 3 demo_job PyNone demo_world (initial_state demo_heap)).2 = Returned tt.
Proof.
  refine (proj1 (run_succeeds 3 2 demo_job PyNone demo_world (initial_state demo_heap)
                   "/src/setup.py" "running bdist_egg; creating 'dist/proj.egg' and adding"
                   "dist/proj.egg" (list_byte_of_string "pickled!") "job-1"
                   {| status_state := State.DONE; status_details := "";
                      driver_output_resource_uri := "gs://out/log" |}
                   {| status_state := State.DONE; status_details := "";
                      driver_output_resource_uri := "gs://out/log" |}
                   (list_byte_of_string "log text") eq_refl demo_world_cooperative _
                   eq_refl eq_refl eq_refl eq_refl eq_refl _)).
  - intros [|[|i]] Hi; [reflexivity|reflexivity|lia].
  - lia.
Defined.

(** ** A cluster that cannot be created *)

(** X5. When the request for the cluster, or the wait for the cluster,
    raises [e] and deletions are accepted, [run] does not return: it
    raises. It submits no job and asks for no job status. Either it has
    failed before it asked for the cluster, or it has asked for the cluster,
    has then asked for the deletion of the cluster of that name, and raises
    [e]. *)
Theorem run_creation_failure
    (fuel : nat) (self : PySparkJob.t) (runtime : pyobj) (w : world) (s : state) (e : exn) :
  (∀ c, match w_create_cluster w c with
        | Some x => x = e
        | None => w_cluster_future_result w c = Some e
        end) →
  (∀ name, w_delete_cluster w name = None) →
  (∃ x, (run fuel self runtime w s).2 = Raised x) ∧
  submitted (run fuel self runtime w s).1 = submitted s ∧
  get_job_calls (run fuel self runtime w s).1 = get_job_calls s ∧
  (lifecycle (run fuel self runtime w s).1 = lifecycle s ∨
   ∃ project region c,
     lifecycle (run fuel self runtime w s).1
       = lifecycle s ++ [CreateCluster project region c;
                         DeleteCluster project region (cd_cluster_name c)] ∧
     (run fuel self runtime w s).2 = Raised e).
Proof.
  intros Hcreate Hdelete.
  rewrite run_unfold, bind_run.
  pose proof (preserves_before_with self runtime w s) as Hview.
  pose proof (submitted_before_with self runtime w s) as Hsubmitted.
  pose proof (comes_back_before_with self runtime w s) as Hback.
  destruct (before_with self runtime w s) as [s1 [[[[self' jid] dp] ep]|x|]]; [| |done].
  - cbn [fst snd] in Hview, Hsubmitted. injection Hview as Hlife Hcalls.
    cbv beta iota. rewrite bind_run, with_temp_cluster_steps. unfold scope_steps.
    destruct (w_cluster_client w) as [x|].
    { cbn [fst snd]. rewrite submitted_extend, lifecycle_extend, calls_extend. simpl.
      rewrite !app_nil_r. split_and!; eauto. }
    assert (creation_failure self' jid w = Some e) as ->.
    { unfold creation_failure. specialize (Hcreate (cluster_spec self' jid)).
      destruct (w_create_cluster w _); congruence. }
    rewrite Hdelete. cbn [after_finally pending fst snd].
    rewrite submitted_torn_down, !submitted_extend, creation_events_submitted.
    rewrite lifecycle_torn_down, !lifecycle_extend, creation_events_lifecycle.
    simpl. rewrite !app_nil_r, <- app_assoc. split_and!; eauto.
    right. eexists _, _, (cluster_spec self' jid). rewrite Hlife. done.
  - cbn [fst snd] in *. injection Hview as Hlife Hcalls. split_and!; eauto.
Qed.

Lemma run_creation_failure_witness :
  ∃ x, (run 3 demo_job PyNone world_creation_fails (initial_state demo_heap)).2 = Raised x.
Proof.
  refine (proj1 (run_creation_failure 3 demo_job PyNone world_creation_fails
                   (initial_state demo_heap) creation_failed _ _)).
  - intros c. reflexivity.
  - intros name. reflexivity.
Defined.

(** ** A status request that raises *)

(** X6. When a status request of the watcher raises, after [n] reports that
    kept it polling, the watcher raises that exception at once: it has made
    [n + 1] requests, it does not ask again, it does not sleep after the
    failed request and it logs nothing more. *)
Theorem watcher_request_failure
    (project_id region job_id : string) (w : world) (s : state) (n fuel : nat) (e : exn) :
  (∀ i, i < n → keeps_polling (w_get_job w (get_job_calls s + i) job_id) = true) →
  w_get_job w (get_job_calls s + n) job_id = inl e →
  n < fuel →
  _wait_for_job_to_finish fuel project_id region job_id w s
  = ({| trace := trace s ++ Log LogInfo "Waiting for job to finish..."
                 :: polls n project_id region job_id ++ [GetJob project_id region job_id];
        get_job_calls := get_job_calls s + S n;
        store := store s |}, Raised e).
Proof.
  intros Hpolls Hfails Hfuel.
  rewrite wait_unfold, (loop_leaves project_id region job_id w n fuel); cbn [get_job_calls];
    [|done|done|by rewrite Hfails].
  rewrite Hfails. cbn [leaves fst snd trace store].
  by rewrite <- app_assoc.
Qed.

Lemma watcher_request_failure_witness :
  _wait_for_job_to_finish 5 "gcp" "europe-west1" "job-1" world_status_fails
    (initial_state demo_heap)
  = ({| trace := [Log LogInfo "Waiting for job to finish...";
                  GetJob "gcp" "europe-west1" "job-1"; Sleep 5;
                  GetJob "gcp" "europe-west1" "job-1"];
        get_job_calls := 2;
        store := demo_heap |}, Raised status_unavailable).
Proof.
  refine (watcher_request_failure "gcp" "europe-west1" "job-1" world_status_fails
            (initial_state demo_heap) 1 5 status_unavailable _ eq_refl _).
  - intros [|i] Hi; [reflexivity|lia].
  - lia.
Defined.

(** ** The packages installed on the cluster *)

Lemma create_cluster_lifecycle (project_id region cluster_name : string)
    (requirements : list string) (worker_num_instances : nat) (worker_machine_type : string)
    (w : world) (s : state) :
  ∃ c,
    lifecycle (_create_cluster project_id region cluster_name requirements
                 worker_num_instances worker_machine_type w s).1
      = lifecycle s ++ [CreateCluster project_id region c] ∧
    cd_cluster_name c = cluster_name ∧
    cd_worker_num_instances c = worker_num_instances ∧
    cd_worker_machine_type_uri c = worker_machine_type ∧
    cd_metadata c
      = [("PIP_PACKAGES"%string,
          String.concat " " (filter (fun r => r ≠ ""%string) requirements))].
Proof.
  exists {| cd_cluster_name := cluster_name;
            cd_master_num_instances := 1;
            cd_master_machine_type_uri := "n1-standard-4";
            cd_master_boot_disk_size_gb := 100;
            cd_worker_num_instances := worker_num_instances;
            cd_worker_machine_type_uri := worker_machine_type;
            cd_worker_boot_disk_size_gb := 100;
            cd_image_version := "1.5";
            cd_initialization_actions :=
              [("gs://goog-dataproc-initialization-actions-" ++ region
                ++ "/python/pip-install.sh")%string];
            cd_metadata :=
              [("PIP_PACKAGES"%string,
                String.concat " " (filter (fun r => r ≠ ""%string) requirements))] |}.
  split; [|by split_and!].
  unfold _create_cluster, logger.
  rewrite bind_run, emit_extend, bind_run, emit_extend, bind_run, call_unit_run.
  destruct (w_create_cluster w _).
  { cbn [fst]. rewrite !lifecycle_extend. simpl. by rewrite !app_nil_r. }
  rewrite bind_run, emit_extend, bind_run, call_unit_run.
  destruct (w_cluster_future_result w _).
  { cbn [fst]. rewrite !lifecycle_extend. simpl. by rewrite !app_nil_r. }
  rewrite bind_run, emit_extend, ret_run. cbn [fst].
  rewrite !lifecycle_extend. simpl. by rewrite !app_nil_r.
Qed.

Lemma filter_nonempty (packages : list string) :
  Forall (λ r, r ≠ ""%string) packages → filter (λ r, r ≠ ""%string) packages = packages.
Proof.
  induction 1 as [|r packages Hr _ IH]; [done|].
  rewrite filter_cons_True by done. by rewrite IH.
Qed.

(** X13. The cluster that is requested for a constructed job carries the
    requirements of the job in its metadata under [PIP_PACKAGES], joined by
    single spaces. A job constructed with no packages asks for bigflow in
    the version that is running, and a job constructed with a list of
    packages that are not empty texts asks for exactly those, in order. The
    request is made once and names the cluster as told. *)
Theorem cluster_pip_packages
    (p : process) (h : heap) (a : init_args) (cluster_name : string) (w : world) (s : state) :
  let job := (__init__ p h a).2 in
  ∃ c,
    lifecycle (_create_cluster (PySparkJob.gcp_project_id job) (PySparkJob.gcp_region job)
                 cluster_name (PySparkJob.pip_packages job)
                 (PySparkJob.worker_num_instances job)
                 (PySparkJob.worker_machine_type job) w s).1
      = lifecycle s ++ [CreateCluster (a_gcp_project_id a) (a_gcp_region a) c] ∧
    cd_cluster_name c = cluster_name ∧
    cd_worker_num_instances c = a_worker_num_instances a ∧
    cd_worker_machine_type_uri c = a_worker_machine_type a ∧
    (a_pip_packages a = PipPackages [] →
       cd_metadata c
         = [("PIP_PACKAGES"%string,
             ("bigflow[dataproc,log,bigquery]==" ++ bigflow_version p)%string)]) ∧
    (∀ packages, a_pip_packages a = PipPackages packages → packages ≠ [] →
       Forall (λ r, r ≠ ""%string) packages →
       cd_metadata c = [("PIP_PACKAGES"%string, String.concat " " packages)]).
Proof.
  intros job.
  assert (PySparkJob.gcp_project_id job = a_gcp_project_id a ∧
          PySparkJob.gcp_region job = a_gcp_region a ∧
          PySparkJob.worker_num_instances job = a_worker_num_instances a ∧
          PySparkJob.worker_machine_type job = a_worker_machine_type a ∧
          PySparkJob.pip_packages job
            = match a_pip_packages a with
              | PipPath path => read_requirements p path
              | PipPackages (x :: r) => x :: r
              | PipPackages [] => DEFAULT_REQUIREMENTS p
              end) as (-> & -> & Hn & Ht & Hpip).
  { unfold job, __init__. by destruct (dict_or_new h (a_driver_arguments a)). }
  destruct (create_cluster_lifecycle (a_gcp_project_id a) (a_gcp_region a) cluster_name
              (PySparkJob.pip_packages job) (PySparkJob.worker_num_instances job)
              (PySparkJob.worker_machine_type job) w s)
    as (c & Hlife & Hname & Hworkers & Htype & Hmeta).
  exists c. rewrite Hn in Hworkers. rewrite Ht in Htype. split_and!; try done.
  - intros Hnone. rewrite Hmeta, Hpip, Hnone. unfold DEFAULT_REQUIREMENTS.
    rewrite filter_cons_True, filter_nil; [done|].
    intros H. discriminate H.
  - intros packages Hpackages Hne Hall. rewrite Hmeta, Hpip, Hpackages.
    destruct packages as [|x r]; [done|]. by rewrite filter_nonempty.
Qed.

Lemma cluster_pip_packages_witness :
  ∃ c,
    lifecycle (_create_cluster "gcp" "europe-west1" "demo-cluster"
                 (PySparkJob.pip_packages demo_job) 2 "n1-standard-1" demo_world
                 (initial_state demo_heap)).1
      = [CreateCluster "gcp" "europe-west1" c] ∧
    cd_metadata c = [("PIP_PACKAGES"%string, "bigflow[dataproc,log,bigquery]==1.0"%string)].
Proof.
  destruct (cluster_pip_packages demo_process ∅ demo_args "demo-cluster" demo_world
              (initial_state demo_heap)) as (c & Hlife & _ & _ & _ & Hdefault & _).
  exists c. split; [exact Hlife | exact (Hdefault eq_refl)].
Defined.
